(** * Incremental arXiv crawl: configuration, crawl state, window, category loop

    A shallow embedding of [src/1.fetch_paper_arxiv.py] (the incremental
    crawler) and of [scripts/1.fetch_paper_arxiv.py] (the older variant
    without crawl state), with the properties of the crawl state machine.

    Conventions of the model.
    - A [datetime] is the UTC instant it denotes, an integer number of
      microseconds since 1970-01-01T00:00Z; a naive datetime is read as UTC,
      which is what the source does before every comparison.  [datetime]
      holds the years 1 to 9999 and [timedelta] at most 999999999 days:
      [timedelta(days=...)] and the subtraction of a [timedelta] raise
      OverflowError outside these ranges, and so do the functions below.
    - What [yaml.safe_load] and [json.load] return is a Python object,
      [pyval]: None, bool, int, float, str, list, dict.  A dict is a finite map
      on its str keys; a key that is not a str never matches a lookup of the
      program and is left out.  Text-level parsing is the parser's business: a
      file is given by what the parser returns or by the fact that reading it
      raised.
    - Library functions whose full behaviour lies outside the repository
      ([int] on a str, [str] on a non-str, [str.strip], [isoformat],
      [fromisoformat], [strftime]) are the fields of the interface [PyLib].
      General theorems hold for every implementation; what they need of it
      ([clean_id], [roundtrips]) is a hypothesis on the values involved.
    - The upstream is a function from the query string to what the result
      iterator delivers: the results yielded, then exhaustion or an exception.
      Which records match a window is the upstream's business.
    - [print] and [time.sleep] are recorded as a trace of [event]s; the clock
      prefix of a log line is dropped.
    - State and output files are assumed writable, and every str the program
      writes is assumed to have a UTF-8 encoding: a str is modelled by its
      bytes. *)

From Stdlib Require Import ZArith String Ascii List Lia.
From Stdlib Require Import Floats.SpecFloat.
From Stdlib Require OrderedTypeEx.
From stdpp Require Import gmap strings list fin_maps sorting pretty.

Set Warnings "-register-all".
Local Open Scope Z_scope.

(** ** Python values, exceptions, truthiness *)

Module Py.

Inductive exn :=
| AttributeError
| TypeError
| ValueError
| OverflowError.

Inductive outcome (A : Type) :=
| Ok (a : A)
| Raise (e : exn).
Arguments Ok {A} a.
Arguments Raise {A} e.

Definition bind {A B} (m : outcome A) (k : A -> outcome B) : outcome B :=
  match m with
  | Ok a => k a
  | Raise e => Raise e
  end.

Definition is_ok {A} (m : outcome A) : bool :=
  match m with Ok _ => true | Raise _ => false end.

Inductive pyval :=
| PNone
| PBool (b : bool)
| PInt (n : Z)
| PFloat (f : spec_float)
| PStr (s : string)
| PList (l : list pyval)
| PDict (d : gmap string pyval).

Definition empty_dict : pyval := PDict ∅.

Definition str_nonempty (s : string) : bool :=
  match s with EmptyString => false | String _ _ => true end.

(** [bool(v)]. *)
Definition truthy (v : pyval) : bool :=
  match v with
  | PNone => false
  | PBool b => b
  | PInt n => negb (n =? 0)
  | PFloat (S754_zero _) => false
  | PFloat _ => true
  | PStr s => str_nonempty s
  | PList [] => false
  | PList (_ :: _) => true
  | PDict d => negb (Nat.eqb (size d) 0)
  end.

(** [v or dflt]. *)
Definition py_or (v dflt : pyval) : pyval :=
  if truthy v then v else dflt.

(** [v.get(k)]: only a dict has the method. *)
Definition dict_get (v : pyval) (k : string) : outcome pyval :=
  match v with
  | PDict d => Ok (default PNone (d !! k))
  | _ => Raise AttributeError
  end.

Definition is_none (v : pyval) : bool :=
  match v with PNone => true | _ => false end.

(** [int(f)] for a float: truncation toward zero. *)
Definition int_of_float (f : spec_float) : outcome Z :=
  match f with
  | S754_zero _ => Ok 0
  | S754_infinity _ => Raise OverflowError
  | S754_nan => Raise ValueError
  | S754_finite s m e =>
      let mag := Z.shiftl (Z.pos m) e in
      Ok (if s then - mag else mag)
  end.

(** [s.replace(a, b)] for a one-character [a]. *)
Fixpoint replace_char (a : ascii) (b : string) (s : string) : string :=
  match s with
  | EmptyString => EmptyString
  | String c rest =>
      if Ascii.eqb c a then b ++ replace_char a b rest
      else String c (replace_char a b rest)
  end.

(** The library functions the program calls and does not define. *)
Class PyLib := {
  (** [int(s)] for a str; [None] is ValueError *)
  int_of_str : string -> option Z;
  (** [str(v)] for a value that is not a str *)
  repr : pyval -> string;
  (** [s.strip()] *)
  strip : string -> string;
  (** [t.astimezone(timezone.utc).isoformat()] *)
  isoformat : Z -> string;
  (** [datetime.fromisoformat(s)], a naive result read as UTC, normalised
      to UTC; [None] when any of these steps raises *)
  fromisoformat : string -> option Z;
  (** [t.strftime(fmt)] for a UTC datetime *)
  strftime : string -> Z -> string
}.

Section WithLib.
Context `{PyLib}.

(** [str(v)]. *)
Definition py_str (v : pyval) : string :=
  match v with
  | PStr s => s
  | _ => repr v
  end.

(** [int(v)]. *)
Definition py_int (v : pyval) : outcome Z :=
  match v with
  | PNone => Raise TypeError
  | PBool b => Ok (if b then 1 else 0)
  | PInt n => Ok n
  | PFloat f => int_of_float f
  | PStr s =>
      match int_of_str s with
      | Some n => Ok n
      | None => Raise ValueError
      end
  | PList _ => Raise TypeError
  | PDict _ => Raise TypeError
  end.

End WithLib.

End Py.

Import Py.

(** ** Trace of prints and sleeps *)

Inductive source_desc :=
| SrcLatestPublished          (* "latest_published_at" *)
| SrcLastCrawl                (* "last_crawl_at" *)
| SrcDaysWindow (days : Z).   (* "days_window=<days>" *)

Inductive message :=
| WarnNoYaml
| WarnConfigRead (err : string)
| MsgWindow (start_str end_str : string) (src : source_desc)
| MsgWindowPlain (start_str end_str : string)   (* the older variant's line *)
| MsgFetching (category : string)
| MsgProgress (category : string) (count : Z)
| MsgFinished (category : string) (count : Z)
| MsgError (category : string) (err : string)
| MsgAllDone (total_count : nat)
| MsgSaved (path : string)
| MsgNoPapers.

Inductive event :=
| EvGroupStart (title : string)
| EvGroupEnd
| EvLog (m : message)
| EvSleep (seconds : Z).

Definition log (m : message) : list event := [EvLog m].
Definition group_start (title : string) : list event := [EvGroupStart title].
Definition group_end : list event := [EvGroupEnd].

(** A computation that prints and may raise: what it printed is kept when it
    raises. *)
Definition io (A : Type) : Type := (outcome A * list event)%type.

Definition io_ret {A} (a : A) : io A := (Ok a, []).
Definition io_lift {A} (m : outcome A) : io A := (m, []).
Definition io_bind {A B} (m : io A) (k : A -> io B) : io B :=
  match m with
  | (Ok a, tr) => let '(r, tr') := k a in (r, tr ++ tr')
  | (Raise e, tr) => (Raise e, tr)
  end.

#[global] Instance outcome_ret : MRet outcome := fun A a => Ok a.
#[global] Instance outcome_bind : MBind outcome := fun A B k m => Py.bind m k.
#[global] Instance io_mret : MRet io := fun A a => io_ret a.
#[global] Instance io_mbind : MBind io := fun A B k m => io_bind m k.

(** ** Configuration Resolver *)

Inductive config_source :=
| ConfigAbsent                   (* CONFIG_FILE does not exist *)
| ConfigNoYaml                   (* it exists, [import yaml] raises *)
| ConfigReadError (err : string) (* [open] or [yaml.safe_load] raises *)
| ConfigData (data : pyval).     (* [yaml.safe_load] returns [data] *)

Definition load_config (src : config_source) : io (gmap string pyval) :=
  match src with
  | ConfigAbsent => io_ret ∅
  | ConfigNoYaml => (Ok ∅, log WarnNoYaml)
  | ConfigReadError err => (Ok ∅, log (WarnConfigRead err))
  | ConfigData data =>
      match py_or data empty_dict with
      | PDict d => io_ret d
      | _ => io_ret ∅
      end
  end.

Section ConfigResolver.
Context `{PyLib}.

Definition resolve_days_window (default_days : Z) (src : config_source) : io Z :=
  config ← load_config src;
  paper_raw ← io_lift (dict_get (py_or (PDict config) empty_dict) "arxiv_paper_setting");
  let paper_setting := py_or paper_raw empty_dict in
  crawler_raw ← io_lift (dict_get (py_or (PDict config) empty_dict) "crawler");
  let crawler_setting := py_or crawler_raw empty_dict in
  value ← io_lift (dict_get paper_setting "days_window");
  value ← (if is_none value
           then io_lift (dict_get crawler_setting "days_window")
           else io_ret value);
  match py_int value with
  | Ok days => io_ret (Z.max days 1)
  | Raise _ => io_ret (Z.max default_days 1)
  end.

End ConfigResolver.

(** ** Crawl State Store *)

Inductive json_file :=
| FileAbsent                 (* the path does not exist *)
| FileCorrupt                (* [open] or [json.load] raises *)
| FileData (payload : pyval). (* [json.load] returns [payload] *)

Section StateStore.
Context `{PyLib}.

(** The body of the [try] around [fromisoformat]: [None] when it raises. *)
Definition parse_utc (raw : string) : option Z :=
  fromisoformat (replace_char "Z"%char "+00:00" raw).

Definition load_last_crawl_at (f : json_file) : outcome (option Z) :=
  match f with
  | FileAbsent => Ok None
  | FileCorrupt => Ok None
  | FileData data =>
      let payload := py_or data empty_dict in
      v ← dict_get payload "last_crawl_at";
      let raw := strip (py_str (py_or v (PStr ""))) in
      if str_nonempty raw then Ok (parse_utc raw) else Ok None
  end.

Definition save_last_crawl_at (at_time : Z) : json_file :=
  FileData (PDict {[ "last_crawl_at"%string := PStr (isoformat at_time) ]}).

Definition load_seen_state (f : json_file) : outcome (gset string * option Z) :=
  match f with
  | FileAbsent => Ok (∅, None)
  | FileCorrupt => Ok (∅, None)
  | FileData data =>
      let payload := py_or data empty_dict in
      ids ← dict_get payload "ids";
      let raw_ids := match py_or ids (PList []) with PList l => l | _ => [] end in
      let seen_ids : gset string :=
        list_to_set (List.filter str_nonempty
                       (List.map (fun i => strip (py_str i)) raw_ids)) in
      lp ← dict_get payload "latest_published_at";
      let raw_latest := strip (py_str (py_or lp (PStr ""))) in
      let latest_dt := if str_nonempty raw_latest then parse_utc raw_latest else None in
      Ok (seen_ids, latest_dt)
  end.

(** [sorted(seen_ids)]. *)
Definition sorted_ids (seen_ids : gset string) : list string :=
  merge_sort String.leb (elements seen_ids).

Definition save_seen_state (updated_at : Z) (seen_ids : gset string)
    (latest_published_at : option Z) : json_file :=
  FileData (PDict
    (<[ "updated_at"%string := PStr (isoformat updated_at) ]>
     (<[ "latest_published_at"%string :=
           PStr (match latest_published_at with
                 | Some t => isoformat t
                 | None => ""
                 end) ]>
      {[ "ids"%string := PList (List.map PStr (sorted_ids seen_ids)) ]}))).

End StateStore.

(** ** Instants and durations *)

(** [datetime.min] and [datetime.max], read as UTC: 0001-01-01T00:00:00 and
    9999-12-31T23:59:59.999999. *)
Definition DATETIME_MIN : Z := -62135596800000000.
Definition DATETIME_MAX : Z := 253402300799999999.

(** The largest number of days of a [timedelta], in either direction. *)
Definition TIMEDELTA_MAX_DAYS : Z := 999999999.

Definition is_datetime (t : Z) : bool :=
  (DATETIME_MIN <=? t) && (t <=? DATETIME_MAX).

(** [timedelta(days=days)], in microseconds. *)
Definition timedelta_days (days : Z) : outcome Z :=
  if (- TIMEDELTA_MAX_DAYS <=? days) && (days <=? TIMEDELTA_MAX_DAYS)
  then Ok (days * 86400000000)
  else Raise OverflowError.

(** [timedelta(minutes=1)], in microseconds. *)
Definition ONE_MINUTE : Z := 60000000.

(** [t - delta] for a datetime [t] and a timedelta [delta]. *)
Definition datetime_sub (t delta : Z) : outcome Z :=
  if is_datetime (t - delta) then Ok (t - delta) else Raise OverflowError.

(** [end_date - timedelta(days=days)] (lines 152 and 156; line 37 of the
    older variant). *)
Definition days_before (end_date days : Z) : outcome Z :=
  delta ← timedelta_days days;
  datetime_sub end_date delta.

(** ** Window Resolver (lines 139-159 of the run) *)

(** The [if latest_published_at: ... else: ...] chain.  [load_last_crawl_at]
    is only called in the [else] branch, so its exception only surfaces
    there, and line 152 is only evaluated when there is no state at all. *)
Definition choose_start (end_date days : Z) (latest_published_at : option Z)
    (last_crawl : outcome (option Z)) : outcome (Z * source_desc) :=
  match latest_published_at with
  | Some t => Ok (t, SrcLatestPublished)
  | None =>
      last_crawl_at ← last_crawl;
      match last_crawl_at with
      | Some t => Ok (t, SrcLastCrawl)
      | None =>
          start_date ← days_before end_date days;
          Ok (start_date, SrcDaysWindow days)
      end
  end.

(** The clamp to the lookback (line 156, evaluated on every run) and the
    forced minute (lines 158-159). *)
Definition clamp_start (end_date days start_date : Z) : outcome Z :=
  cutoff ← days_before end_date days;
  let start_date := Z.max start_date cutoff in
  if end_date <=? start_date
  then datetime_sub end_date ONE_MINUTE
  else Ok start_date.

(** The window as the specification words it, for comparison: exact
    arithmetic on instants, a day of 86400000000 and a minute of 60000000
    microseconds. *)
Definition spec_window (now days : Z) (latest_seen_published_at last_run_at : option Z)
    : Z * Z :=
  let start :=
    match latest_seen_published_at, last_run_at with
    | Some t, _ => t
    | None, Some t => t
    | None, None => now - days * 86400000000
    end in
  let start := Z.max start (now - days * 86400000000) in
  let start := if Z_ge_dec start now then now - 60000000 else start in
  (start, now).

(** ** Category Crawler *)

Definition CATEGORIES_TO_FETCH : list string :=
  ["cs"; "math"; "stat"; "q-bio"; "q-fin"; "eess"; "econ";
   "physics"; "cond-mat"; "hep-ph"; "hep-th"; "gr-qc"; "astro-ph"]%string.

(** What the program reads of an [arxiv.Result]. *)
Record result := {
  short_id : string;              (* r.get_short_id() *)
  pdf_url : option string;        (* getattr(r, "pdf_url", None) *)
  entry_id : string;
  title : string;
  summary : string;
  authors : list string;          (* [a.name for a in r.authors] *)
  primary_category : string;
  categories : list string;
  published_text : string;        (* str(r.published) *)
  published : option Z            (* the instant, when r.published is a datetime *)
}.

(** The dict built for one paper. *)
Record paper := {
  p_id : string;
  p_source : string;
  p_title : string;
  p_abstract : string;
  p_authors : list string;
  p_primary_category : string;
  p_categories : list string;
  p_published : string;
  p_link : string
}.

(** What one [client.results(search)] iteration delivers: the results
    yielded, then normal exhaustion or an exception. *)
Record response := {
  yielded : list result;
  failure : option string
}.

(** The upstream, by query string. *)
Definition upstream : Type := string -> response.

Definition make_query (category start_str end_str : string) : string :=
  "cat:" ++ category ++ "* AND submittedDate:[" ++ start_str ++ " TO " ++ end_str ++ "]".

Definition newline : ascii := Ascii.ascii_of_nat 10.

Definition paper_dict (r : result) : paper :=
  {| p_id := short_id r;
     p_source := "arxiv";
     p_title := replace_char newline " " (title r);
     p_abstract := replace_char newline " " (summary r);
     p_authors := authors r;
     p_primary_category := primary_category r;
     p_categories := categories r;
     p_published := published_text r;
     p_link := match pdf_url r with
               | Some u => if str_nonempty u then u else entry_id r
               | None => entry_id r
               end |}.

(** An insertion-ordered dict keyed by str, as [unique_papers] is. *)
Definition odict (V : Type) : Type := list (string * V).

Definition od_mem {V} (k : string) (d : odict V) : bool :=
  existsb (fun kv => String.eqb (fst kv) k) d.

(** [d[k] = v]: in place when the key exists, at the end otherwise. *)
Fixpoint od_set {V} (k : string) (v : V) (d : odict V) : odict V :=
  match d with
  | [] => [(k, v)]
  | (k', v') :: rest =>
      if String.eqb k' k then (k', v) :: rest
      else (k', v') :: od_set k v rest
  end.

Definition od_keys {V} (d : odict V) : list string := List.map fst d.
Definition od_values {V} (d : odict V) : list V := List.map snd d.

(** The mutable variables of the category loop. *)
Record crawl_state := {
  unique_papers : odict paper;
  seen_ids : gset string;
  max_published_new : option Z
}.

Definition update_max (max_published_new : option Z) (published_dt : option Z)
    : option Z :=
  match published_dt with
  | None => max_published_new
  | Some t =>
      match max_published_new with
      | None => Some t
      | Some m => if m <? t then Some t else Some m
      end
  end.

(** One iteration of [for r in client.results(search)]; [count] and the lines
    printed so far are threaded with the state. *)
Definition visit (category : string) (acc : crawl_state * Z * list event)
    (r : result) : crawl_state * Z * list event :=
  let '(st, count, tr) := acc in
  let pid := short_id r in
  if bool_decide (pid ∈ seen_ids st) then acc
  else if od_mem pid (unique_papers st) then acc
  else
    let count := count + 1 in
    ({| unique_papers := od_set pid (paper_dict r) (unique_papers st);
        seen_ids := {[pid]} ∪ seen_ids st;
        max_published_new := update_max (max_published_new st) (published r) |},
     count,
     tr ++ (if count mod 100 =? 0 then log (MsgProgress category count) else [])).

(** The body of [for category in CATEGORIES_TO_FETCH]: try, except, finally. *)
Definition fetch_category (up : upstream) (start_str end_str : string)
    (st : crawl_state) (category : string) : crawl_state * list event :=
  let resp := up (make_query category start_str end_str) in
  let '(st', count, tr) := fold_left (visit category) (yielded resp) (st, 0, []) in
  (st',
   group_start ("Fetch category: " ++ category)
   ++ log (MsgFetching category)
   ++ tr
   ++ match failure resp with
      | None => log (MsgFinished category count)
      | Some err => log (MsgError category err) ++ [EvSleep 5]
      end
   ++ group_end).

Definition crawl (up : upstream) (start_str end_str : string)
    (cats : list string) (st : crawl_state) : crawl_state * list event :=
  fold_left
    (fun acc category =>
       let '(st', tr') := fetch_category up start_str end_str (fst acc) category in
       (st', snd acc ++ tr'))
    cats (st, []).

(** ** The run: load, crawl, persist *)

Record world := {
  CONFIG_FILE : config_source;
  CRAWL_STATE_FILE : json_file;
  SEEN_IDS_FILE : json_file;
  output_files : gmap string (list paper)
}.

(** What lines 139-159 leave in the local variables. *)
Record window := {
  w_seen_ids : gset string;
  w_latest_published_at : option Z;
  w_days : Z;
  w_start_date : Z;
  w_end_date : Z;
  w_source_desc : source_desc
}.

Section Run.
Context `{PyLib}.

Definition resolve_window (now : Z) (days : option Z) (w : world) : io window :=
  '(seen, latest) ← io_lift (load_seen_state (SEEN_IDS_FILE w));
  days ← match days with
         | None => resolve_days_window 1 (CONFIG_FILE w)
         | Some d => io_ret d
         end;
  '(start_date, src) ← io_lift (choose_start now days latest
                                  (load_last_crawl_at (CRAWL_STATE_FILE w)));
  start_date ← io_lift (clamp_start now days start_date);
  io_ret {| w_seen_ids := seen;
            w_latest_published_at := latest;
            w_days := days;
            w_start_date := start_date;
            w_end_date := now;
            w_source_desc := src |}.

Definition initial_state (seen : gset string) : crawl_state :=
  {| unique_papers := []; seen_ids := seen; max_published_new := None |}.

Definition default_output_file (end_date : Z) : string :=
  let today_str := strftime "%Y%m%d" end_date in
  "archive/" ++ today_str ++ "/raw/arxiv_papers_" ++ today_str ++ ".json".

Definition output_path (output_file : option string) (end_date : Z) : string :=
  match output_file with
  | Some p => if str_nonempty p then p else default_output_file end_date
  | None => default_output_file end_date
  end.

(** Lines 161-269, once the window is known; [save_time] is the clock read
    by [save_seen_state]. *)
Definition run_window (save_time : Z) (up : upstream) (output_file : option string)
    (wd : window) (w : world) : world * list event :=
  let start_str := strftime "%Y%m%d%H%M" (w_start_date wd) in
  let end_str := strftime "%Y%m%d%H%M" (w_end_date wd) in
  let '(st, tr) := crawl up start_str end_str CATEGORIES_TO_FETCH
                     (initial_state (w_seen_ids wd)) in
  let total_count := length (unique_papers st) in
  let path := output_path output_file (w_end_date wd) in
  let written :=
    if (0 <? total_count)%nat
    then <[ path := od_values (unique_papers st) ]> (output_files w)
    else output_files w in
  let latest :=
    match max_published_new st with
    | Some t => Some t
    | None => w_latest_published_at wd
    end in
  ({| CONFIG_FILE := CONFIG_FILE w;
      CRAWL_STATE_FILE := save_last_crawl_at (w_end_date wd);
      SEEN_IDS_FILE := save_seen_state save_time (seen_ids st) latest;
      output_files := written |},
   group_start "Step 1 - fetch arXiv"
   ++ log (MsgWindow start_str end_str (w_source_desc wd))
   ++ tr
   ++ log (MsgAllDone total_count)
   ++ (if (0 <? total_count)%nat then log (MsgSaved path) else log MsgNoPapers)
   ++ group_end).

Definition fetch_all_domains_metadata_robust (now save_time : Z) (up : upstream)
    (days : option Z) (output_file : option string) (w : world) : io world :=
  wd ← resolve_window now days w;
  (Ok (fst (run_window save_time up output_file wd w)),
   snd (run_window save_time up output_file wd w)).

End Run.

(** ** A reference implementation of the library interface

    Proleptic Gregorian calendar, ASCII white space, decimal integers, and the
    ISO-8601 layouts the program itself writes.  The theorems below hold for
    every [PyLib]; this one evaluates the closed examples. *)

Module RefLib.

Definition days_from_civil (y m d : Z) : Z :=
  let y := if m <=? 2 then y - 1 else y in
  let era := y / 400 in
  let yoe := y - era * 400 in
  let doy := (153 * (if 2 <? m then m - 3 else m + 9) + 2) / 5 + d - 1 in
  let doe := yoe * 365 + yoe / 4 - yoe / 100 + doy in
  era * 146097 + doe - 719468.

Definition civil_from_days (z : Z) : Z * Z * Z :=
  let z := z + 719468 in
  let era := z / 146097 in
  let doe := z - era * 146097 in
  let yoe := (doe - doe / 1460 + doe / 36524 - doe / 146096) / 365 in
  let doy := doe - (365 * yoe + yoe / 4 - yoe / 100) in
  let mp := (5 * doy + 2) / 153 in
  let d := doy - (153 * mp + 2) / 5 + 1 in
  let m := if mp <? 10 then mp + 3 else mp - 9 in
  let y := yoe + era * 400 in
  ((if m <=? 2 then y + 1 else y), m, d).

Definition digit_char (n : Z) : ascii :=
  Ascii.ascii_of_N (48 + Z.to_N (n mod 10)).

Fixpoint zpad (width : nat) (n : Z) : string :=
  match width with
  | O => EmptyString
  | S w => zpad w (n / 10) ++ String (digit_char n) EmptyString
  end.

Definition digit_value (c : ascii) : option Z :=
  let n := Z.of_N (Ascii.N_of_ascii c) in
  if (48 <=? n) && (n <=? 57) then Some (n - 48) else None.

Fixpoint read_digits (s : string) (acc : Z) : option Z :=
  match s with
  | EmptyString => Some acc
  | String c rest =>
      match digit_value c with
      | Some v => read_digits rest (10 * acc + v)
      | None => None
      end
  end.

Definition read_number (s : string) : option Z :=
  if str_nonempty s then read_digits s 0 else None.

Definition is_space (c : ascii) : bool :=
  let n := Ascii.N_of_ascii c in
  (N.eqb n 32 || (N.leb 9 n && N.leb n 13))%bool.

Fixpoint lstrip (s : string) : string :=
  match s with
  | String c rest => if is_space c then lstrip rest else s
  | EmptyString => EmptyString
  end.

Fixpoint rstrip (s : string) : string :=
  match s with
  | EmptyString => EmptyString
  | String c rest =>
      match rstrip rest with
      | EmptyString => if is_space c then EmptyString else String c EmptyString
      | r => String c r
      end
  end.

Definition ref_strip (s : string) : string := rstrip (lstrip s).

Definition ref_int_of_str (s : string) : option Z :=
  match ref_strip s with
  | String "-" rest => option_map Z.opp (read_number rest)
  | String "+" rest => read_number rest
  | t => read_number t
  end.

Definition ref_repr (v : pyval) : string :=
  match v with
  | PNone => "None"
  | PBool true => "True"
  | PBool false => "False"
  | PInt n => if n <? 0 then "-" ++ pretty (Z.to_N (- n)) else pretty (Z.to_N n)
  | PStr s => s
  | _ => "<object>"
  end.

Definition split_instant (t : Z) : Z * Z * Z * Z * Z * Z * Z :=
  let us := t mod 1000000 in
  let secs := t / 1000000 in
  let sod := secs mod 86400 in
  let '(y, m, d) := civil_from_days (secs / 86400) in
  (y, m, d, sod / 3600, sod / 60 mod 60, sod mod 60, us).

Definition ref_isoformat (t : Z) : string :=
  let '(y, m, d, hh, mm, ss, us) := split_instant t in
  zpad 4 y ++ "-" ++ zpad 2 m ++ "-" ++ zpad 2 d ++ "T"
  ++ zpad 2 hh ++ ":" ++ zpad 2 mm ++ ":" ++ zpad 2 ss
  ++ (if us =? 0 then "" else "." ++ zpad 6 us) ++ "+00:00".

Fixpoint ref_strftime (fmt : string) (t : Z) : string :=
  let '(y, m, d, hh, mm, ss, _) := split_instant t in
  match fmt with
  | EmptyString => EmptyString
  | String "%" (String "Y" rest) => zpad 4 y ++ ref_strftime rest t
  | String "%" (String "m" rest) => zpad 2 m ++ ref_strftime rest t
  | String "%" (String "d" rest) => zpad 2 d ++ ref_strftime rest t
  | String "%" (String "H" rest) => zpad 2 hh ++ ref_strftime rest t
  | String "%" (String "M" rest) => zpad 2 mm ++ ref_strftime rest t
  | String "%" (String "S" rest) => zpad 2 ss ++ ref_strftime rest t
  | String c rest => String c (ref_strftime rest t)
  end.

Definition field (s : string) (pos len : nat) : option Z :=
  let f := substring pos len s in
  if Nat.eqb (String.length f) len then read_number f else None.

Definition char_at (s : string) (pos : nat) : option ascii := String.get pos s.

Definition in_range (lo hi : Z) (v : Z) : option Z :=
  if (lo <=? v) && (v <=? hi) then Some v else None.

(** "+HH:MM" or "-HH:MM" or nothing: the offset in microseconds. *)
Definition read_offset (s : string) : option Z :=
  match s with
  | EmptyString => Some 0
  | String sign rest =>
      hh ← field rest 0 2 ≫= in_range 0 23;
      mm ← field rest 3 2 ≫= in_range 0 59;
      if negb (Nat.eqb (String.length rest) 5) then None
      else if negb (bool_decide (char_at rest 2 = Some ":"%char)) then None
      else if Ascii.eqb sign "+" then Some ((hh * 60 + mm) * 60000000)
      else if Ascii.eqb sign "-" then Some (- ((hh * 60 + mm) * 60000000))
      else None
  end.

(** ".ffffff" or nothing, then the offset. *)
Definition read_fraction (s : string) : option (Z * Z) :=
  match s with
  | String "." rest =>
      us ← field rest 0 6;
      off ← read_offset (substring 6 (String.length rest - 6) rest);
      Some (us, off)
  | _ => off ← read_offset s; Some (0, off)
  end.

Definition ref_fromisoformat (s : string) : option Z :=
  y ← field s 0 4 ≫= in_range 1 9999;
  m ← field s 5 2 ≫= in_range 1 12;
  d ← field s 8 2 ≫= in_range 1 31;
  hh ← field s 11 2 ≫= in_range 0 23;
  mm ← field s 14 2 ≫= in_range 0 59;
  ss ← field s 17 2 ≫= in_range 0 59;
  '(us, off) ← read_fraction (substring 19 (String.length s - 19) s);
  let days := days_from_civil y m d in
  if negb (bool_decide (civil_from_days days = (y, m, d))) then None
  else if negb (bool_decide (char_at s 4 = Some "-"%char)) then None
  else if negb (bool_decide (char_at s 7 = Some "-"%char)) then None
  else if negb (bool_decide (char_at s 10 = Some "T"%char)
                || bool_decide (char_at s 10 = Some " "%char)) then None
  else if negb (bool_decide (char_at s 13 = Some ":"%char)) then None
  else if negb (bool_decide (char_at s 16 = Some ":"%char)) then None
  else Some ((((days * 24 + hh) * 60 + mm) * 60 + ss) * 1000000 + us - off).

#[global] Instance ref_lib : PyLib := {|
  int_of_str := ref_int_of_str;
  repr := ref_repr;
  strip := ref_strip;
  isoformat := ref_isoformat;
  fromisoformat := ref_fromisoformat;
  strftime := ref_strftime
|}.

End RefLib.

(** ** The older variant, [scripts/1.fetch_paper_arxiv.py]

    No crawl state: the window is the last [days] days at day granularity and
    the only de-duplication is [unique_papers]. *)

Module Legacy.

Definition visit (category : string) (acc : odict paper * Z * list event)
    (r : result) : odict paper * Z * list event :=
  let '(unique_papers, count, tr) := acc in
  let pid := short_id r in
  if od_mem pid unique_papers then acc
  else
    let count := count + 1 in
    (od_set pid (paper_dict r) unique_papers,
     count,
     tr ++ (if count mod 100 =? 0 then log (MsgProgress category count) else [])).

Definition fetch_category (up : upstream) (start_str end_str : string)
    (unique_papers : odict paper) (category : string) : odict paper * list event :=
  let resp := up (make_query category start_str end_str) in
  let '(unique_papers', count, tr) :=
    fold_left (visit category) (yielded resp) (unique_papers, 0, []) in
  (unique_papers',
   group_start ("Fetch category: " ++ category)
   ++ log (MsgFetching category)
   ++ tr
   ++ match failure resp with
      | None => log (MsgFinished category count)
      | Some err => log (MsgError category err) ++ [EvSleep 5]
      end
   ++ group_end).

Definition crawl (up : upstream) (start_str end_str : string)
    (cats : list string) (unique_papers : odict paper) : odict paper * list event :=
  fold_left
    (fun acc category =>
       let '(d, tr') := fetch_category up start_str end_str (fst acc) category in
       (d, snd acc ++ tr'))
    cats (unique_papers, []).

Section Run.
Context `{PyLib}.

(** Lines 39-129, once [start_date] is known; [write_time] is the clock at
    line 115. *)
Definition run_from (start_date end_date write_time : Z) (up : upstream)
    (output_file : option string)
    (files : gmap string (list paper)) : gmap string (list paper) * list event :=
  let start_str := strftime "%Y%m%d0000" start_date in
  let end_str := strftime "%Y%m%d2359" end_date in
  let '(unique_papers, tr) := crawl up start_str end_str CATEGORIES_TO_FETCH [] in
  let total_count := length unique_papers in
  let path := output_path output_file write_time in
  ((if (0 <? total_count)%nat
    then <[ path := od_values unique_papers ]> files
    else files),
   group_start "Step 1 - fetch arXiv"
   ++ log (MsgWindowPlain start_str end_str)
   ++ tr
   ++ log (MsgAllDone total_count)
   ++ (if (0 <? total_count)%nat then log (MsgSaved path) else log MsgNoPapers)
   ++ group_end).

(** [now] is the clock at line 36.  Line 37 raises before anything is
    printed. *)
Definition fetch_all_domains_metadata_robust (now write_time : Z) (up : upstream)
    (days : Z) (output_file : option string)
    (files : gmap string (list paper)) : io (gmap string (list paper)) :=
  let end_date := now in
  start_date ← io_lift (days_before end_date days);
  (Ok (fst (run_from start_date end_date write_time up output_file files)),
   snd (run_from start_date end_date write_time up output_file files)).

End Run.

End Legacy.

(** ** Vocabulary of the statements *)

(** The identifiers a category's query yields before it ends or fails. *)
Definition returned_ids (up : upstream) (start_str end_str category : string)
    : list string :=
  List.map short_id (yielded (up (make_query category start_str end_str))).

(** [pid] is returned by at least one of the categories. *)
Definition returned_by_some (up : upstream) (start_str end_str : string)
    (cats : list string) (pid : string) : Prop :=
  exists category, In category cats /\ In pid (returned_ids up start_str end_str category).

(** How often [pid] occurs as the [id] of a paper of the collection. *)
Definition occurrences (pid : string) (papers : list paper) : nat :=
  length (List.filter (fun p => String.eqb (p_id p) pid) papers).

(** The upstream with every result whose id is in [seen] removed. *)
Definition drop_seen (seen : gset string) (up : upstream) : upstream :=
  fun query =>
    {| yielded := List.filter (fun r => negb (bool_decide (short_id r ∈ seen)))
                    (yielded (up query));
       failure := failure (up query) |}.

(** The value stored under ["ids"] in a state file. *)
Definition persisted_ids (f : json_file) : list pyval :=
  match f with
  | FileData (PDict d) =>
      match d !! "ids"%string with
      | Some (PList l) => l
      | _ => []
      end
  | _ => []
  end.

Section Vocabulary.
Context `{PyLib}.

(** The query a run with window [wd] sends for [category]. *)
Definition run_query (wd : window) (category : string) : string :=
  make_query category
    (strftime "%Y%m%d%H%M" (w_start_date wd))
    (strftime "%Y%m%d%H%M" (w_end_date wd)).

(** The loop state at the end of the run with window [wd]. *)
Definition final_state (up : upstream) (wd : window) : crawl_state :=
  fst (crawl up (strftime "%Y%m%d%H%M" (w_start_date wd))
         (strftime "%Y%m%d%H%M" (w_end_date wd))
         CATEGORIES_TO_FETCH (initial_state (w_seen_ids wd))).

(** The collection the run hands to [json.dump]. *)
Definition collected (up : upstream) (wd : window) : list paper :=
  od_values (unique_papers (final_state up wd)).

(** An identifier that survives the save/load cycle of the ledger. *)
Definition clean_id (s : string) : Prop :=
  strip s = s /\ str_nonempty s = true.

(** An instant that survives the save/load cycle of a state file. *)
Definition roundtrips (t : Z) : Prop :=
  str_nonempty (strip (isoformat t)) = true
  /\ parse_utc (strip (isoformat t)) = Some t.

(** The [latest_published_at] a run would load from the world. *)
Definition persisted_latest (w : world) : option Z :=
  match load_seen_state (SEEN_IDS_FILE w) with
  | Ok (_, latest) => latest
  | Raise _ => None
  end.

(** The [start_date] of a resolved window. *)
Definition start_of (r : io window) : option Z :=
  match fst r with
  | Ok wd => Some (w_start_date wd)
  | Raise _ => None
  end.

(** The configuration mapping and its two sections, as the specification
    reads them: a section that is not a mapping has no settings. *)
Definition config_mapping (src : config_source) : gmap string pyval :=
  match src with
  | ConfigData (PDict d) => d
  | _ => ∅
  end.

Definition section_of (cfg : gmap string pyval) (name : string) : gmap string pyval :=
  match cfg !! name with
  | Some (PDict d) => d
  | _ => ∅
  end.

(** The looked-up value: the paper-specific key first, then the generic one;
    [PNone] when neither is set. *)
Definition looked_up_days_window (src : config_source) : pyval :=
  let cfg := config_mapping src in
  match section_of cfg "arxiv_paper_setting" !! "days_window"%string with
  | Some v => if is_none v
              then default PNone (section_of cfg "crawler" !! "days_window"%string)
              else v
  | None => default PNone (section_of cfg "crawler" !! "days_window"%string)
  end.

(** A section the program can read: absent, falsy, or a mapping. *)
Definition readable_section (cfg : gmap string pyval) (name : string) : Prop :=
  match cfg !! name with
  | None => True
  | Some (PDict _) => True
  | Some v => truthy v = false
  end.

End Vocabulary.

(** The invariant of the category loop, relative to the ledger [seen0] the
    run started from: keys are distinct, each paper sits under its own id,
    [seen_ids] is the ledger plus the keys, and no key is in the ledger. *)
Definition crawl_inv (seen0 : gset string) (st : crawl_state) : Prop :=
  NoDup (od_keys (unique_papers st))
  /\ Forall (fun kv => p_id (snd kv) = fst kv) (unique_papers st)
  /\ (forall k, k ∈ seen_ids st <-> k ∈ seen0 \/ k ∈ od_keys (unique_papers st))
  /\ (forall k, k ∈ od_keys (unique_papers st) -> k ∉ seen0).

(** The loop only appends papers and only adds identifiers. *)
Definition extends (st st' : crawl_state) : Prop :=
  (exists added, unique_papers st' = unique_papers st ++ added)
  /\ seen_ids st ⊆ seen_ids st'.

(** The lookback [now - days] is a [datetime], and [days] a [timedelta]. *)
Definition lookback_representable (now days : Z) : Prop :=
  - TIMEDELTA_MAX_DAYS <= days <= TIMEDELTA_MAX_DAYS
  /\ DATETIME_MIN <= now - days * 86400000000 <= DATETIME_MAX.

(** The window arithmetic of a run at [now] with [days] stays inside
    [datetime]: the lookback and the minute before [now]. *)
Definition window_representable (now days : Z) : Prop :=
  lookback_representable now days
  /\ DATETIME_MIN <= now - 60000000 <= DATETIME_MAX.

(** ** Concrete inputs of the closed examples *)

Module Examples.

Local Open Scope string_scope.

(** 2024-06-10T00:00:00Z and 2024-06-09T12:00:00Z. *)
Definition t_0610 : Z := 1717977600000000.
Definition t_0609_noon : Z := 1717934400000000.

Definition one_result (pid text : string) (instant : Z) : result :=
  {| short_id := pid;
     pdf_url := Some ("https://arxiv.org/pdf/" ++ pid);
     entry_id := "http://arxiv.org/abs/" ++ pid;
     title := "A title";
     summary := "An abstract";
     authors := ["A. Author"];
     primary_category := "cs.LG";
     categories := ["cs.LG"; "math.OC"];
     published_text := text;
     published := Some instant |}.

Definition r_0001 : result :=
  one_result "2406.0001v1" "2024-06-09 12:00:30+00:00" (t_0609_noon + 30000000).

Definition r_0002 : result :=
  one_result "2406.0002v1" "2024-06-09 12:00:10+00:00" (t_0609_noon + 10000000).

Definition empty_ledger : gset string := ∅.

Definition nothing : response := {| yielded := []; failure := None |}.

Definition is_query_of (category query : string) : bool :=
  String.prefix ("cat:" ++ category ++ "* ") query.

(** [r_0001] is listed under [cs] and under [math]. *)
Definition up_cross_listed : upstream :=
  fun query =>
    if is_query_of "cs" query || is_query_of "math" query
    then {| yielded := [r_0001]; failure := None |}
    else nothing.

(** Only [cs] answers, with [r_0002]. *)
Definition up_cs_0002 : upstream :=
  fun query =>
    if is_query_of "cs" query
    then {| yielded := [r_0002]; failure := None |}
    else nothing.

(** [cs] yields [r_0001], [math] fails at once, the others are empty. *)
Definition up_math_fails : upstream :=
  fun query =>
    if is_query_of "cs" query then {| yielded := [r_0001]; failure := None |}
    else if is_query_of "math" query
    then {| yielded := []; failure := Some "HTTP 429" |}
    else nothing.


Definition no_files : world :=
  {| CONFIG_FILE := ConfigAbsent;
     CRAWL_STATE_FILE := FileAbsent;
     SEEN_IDS_FILE := FileAbsent;
     output_files := ∅ |}.

(** A ledger holding [r_0001], published 2024-06-09T12:00:30Z. *)
Definition ledger_0001 : json_file :=
  FileData (PDict
    (<[ "updated_at"%string := PStr "2024-06-09T13:00:00+00:00" ]>
     (<[ "latest_published_at"%string := PStr "2024-06-09T12:00:30+00:00" ]>
      {[ "ids"%string := PList [PStr "2406.0001v1"] ]}))).

Definition world_0001 : world :=
  {| CONFIG_FILE := ConfigAbsent;
     CRAWL_STATE_FILE := FileAbsent;
     SEEN_IDS_FILE := ledger_0001;
     output_files := ∅ |}.

(** [arxiv_paper_setting: {days_window: 0}]. *)
Definition config_zero_days : config_source :=
  ConfigData (PDict {[ "arxiv_paper_setting"%string :=
                         PDict {[ "days_window"%string := PInt 0 ]} ]}).

(** [arxiv_paper_setting: {days_window: soon}] and
    [crawler: {days_window: 3}]. *)
Definition config_bad_paper_key : gmap string pyval :=
  <[ "arxiv_paper_setting"%string := PDict {[ "days_window"%string := PStr "soon" ]} ]>
    {[ "crawler"%string := PDict {[ "days_window"%string := PInt 3 ]} ]}.

(** [crawler: {days_window: "3"}]. *)
Definition config_crawler_three : config_source :=
  ConfigData (PDict {[ "crawler"%string :=
                         PDict {[ "days_window"%string := PStr "3" ]} ]}).

(** [crawler: {days_window: 3}], no state files. *)
Definition world_three_days : world :=
  {| CONFIG_FILE :=
       ConfigData (PDict {[ "crawler" := PDict {[ "days_window" := PInt 3 ]} ]});
     CRAWL_STATE_FILE := FileAbsent;
     SEEN_IDS_FILE := FileAbsent;
     output_files := ∅ |}.

(** A ledger without identifiers whose [latest_published_at] is
    2024-06-09T12:00:00Z. *)
Definition world_latest_noon : world :=
  {| CONFIG_FILE := ConfigAbsent;
     CRAWL_STATE_FILE := FileAbsent;
     SEEN_IDS_FILE :=
       FileData (PDict {[ "latest_published_at" := PStr "2024-06-09T12:00:00Z" ]});
     output_files := ∅ |}.

(** A ledger file holding the JSON document [[1]]. *)
Definition world_bad_ledger : world :=
  {| CONFIG_FILE := ConfigAbsent;
     CRAWL_STATE_FILE := FileAbsent;
     SEEN_IDS_FILE := FileData (PList [PInt 1]);
     output_files := ∅ |}.

(** The window of a first run at 2024-06-10T00:00Z with [days=1] and no
    state files. *)
Definition first_window : window :=
  {| w_seen_ids := ∅;
     w_latest_published_at := None;
     w_days := 1;
     w_start_date := t_0610 - 86400000000;
     w_end_date := t_0610;
     w_source_desc := SrcDaysWindow 1 |}.

(** The window of the run one hour after a first run on [no_files] that
    collected [r_0001]. *)
Definition second_window : window :=
  {| w_seen_ids := {[ "2406.0001v1" ]};
     w_latest_published_at := Some (t_0609_noon + 30000000);
     w_days := 1;
     w_start_date := t_0609_noon + 30000000;
     w_end_date := t_0610 + 3600000000;
     w_source_desc := SrcLatestPublished |}.

(** The window of a run at 2024-06-10T00:00Z with [days=1] on
    [world_0001]. *)
Definition window_0001 : window :=
  {| w_seen_ids := {[ "2406.0001v1" ]};
     w_latest_published_at := Some (t_0609_noon + 30000000);
     w_days := 1;
     w_start_date := t_0609_noon + 30000000;
     w_end_date := t_0610;
     w_source_desc := SrcLatestPublished |}.

(** One paper, submitted 2024-06-09T23:59:45Z: [cs] lists it for the window
    from minute 23:59 of 2024-06-09 to minute 00:00 of 2024-06-10, and no
    query of the other windows and categories used here matches it. *)
Definition r_0009 : result :=
  one_result "2406.0009v1" "2024-06-09 23:59:45+00:00" (t_0610 - 15000000).

Definition up_minute_before : upstream :=
  fun query =>
    if String.eqb query (make_query "cs" "202406092359" "202406100000")
    then {| yielded := [r_0009]; failure := None |}
    else nothing.

(** No ledger, and a last-run marker of 2024-06-10T00:00:20Z. *)
Definition world_marker_20s : world :=
  {| CONFIG_FILE := ConfigAbsent;
     CRAWL_STATE_FILE :=
       FileData (PDict {[ "last_crawl_at" := PStr "2024-06-10T00:00:20+00:00" ]});
     SEEN_IDS_FILE := FileAbsent;
     output_files := ∅ |}.

(** The window of a run at 2024-06-10T00:00:30Z with [days=1] on
    [world_marker_20s]. *)
Definition window_marker_20s : window :=
  {| w_seen_ids := ∅;
     w_latest_published_at := None;
     w_days := 1;
     w_start_date := t_0610 + 20000000;
     w_end_date := t_0610 + 30000000;
     w_source_desc := SrcLastCrawl |}.

(** The window of a run at 2024-06-10T00:00Z with [days=0] and no state
    files. *)
Definition window_zero_days : window :=
  {| w_seen_ids := ∅;
     w_latest_published_at := None;
     w_days := 0;
     w_start_date := t_0610 - 60000000;
     w_end_date := t_0610;
     w_source_desc := SrcDaysWindow 0 |}.

(** The window of a run at 2024-06-09T12:00Z with [days=1] on [world_0001],
    whose [latest_published_at] is 30 seconds later. *)
Definition window_latest_ahead : window :=
  {| w_seen_ids := {[ "2406.0001v1" ]};
     w_latest_published_at := Some (t_0609_noon + 30000000);
     w_days := 1;
     w_start_date := t_0609_noon - 60000000;
     w_end_date := t_0609_noon;
     w_source_desc := SrcLatestPublished |}.


End Examples.

(** ** Vocabulary of the further properties *)

(** The results of a stream that the loop emits when it starts from the
    ledger [seen]: the first occurrence of every identifier that is not in
    the ledger. *)
Fixpoint fresh (seen : gset string) (rs : list result) : list result :=
  match rs with
  | [] => []
  | r :: rs =>
      if bool_decide (short_id r ∈ seen) then fresh seen rs
      else r :: fresh ({[short_id r]} ∪ seen) rs
  end.

(** Everything the categories yield, in the order the loop reads it. *)
Definition stream (up : upstream) (start_str end_str : string)
    (cats : list string) : list result :=
  concat (List.map (fun c => yielded (up (make_query c start_str end_str))) cats).

(** The item of [unique_papers] made from a result. *)
Definition entry (r : result) : string * paper := (short_id r, paper_dict r).

(** The latest instant among the results that carry one. *)
Definition max_instant (rs : list result) : option Z :=
  fold_left update_max (List.map published rs) None.

(** The progress lines of a category that adds [n] papers once [count] have
    been counted. *)
Fixpoint progress_lines (category : string) (count : Z) (n : nat) : list event :=
  match n with
  | O => []
  | S n' =>
      (if (count + 1) mod 100 =? 0
       then log (MsgProgress category (count + 1))
       else [])
      ++ progress_lines category (count + 1) n'
  end.

(** Projections of a trace. *)
Definition fetched_of (e : event) : option string :=
  match e with
  | EvLog (MsgFetching c) => Some c
  | _ => None
  end.

Definition slept_of (e : event) : option Z :=
  match e with
  | EvSleep n => Some n
  | _ => None
  end.

Definition failed_of (e : event) : option (string * string) :=
  match e with
  | EvLog (MsgError c err) => Some (c, err)
  | _ => None
  end.

(** The categories whose query raises, with the error. *)
Definition failing (up : upstream) (start_str end_str : string)
    (cats : list string) : list (string * string) :=
  omap (fun c => match failure (up (make_query c start_str end_str)) with
                 | Some err => Some (c, err)
                 | None => None
                 end) cats.

(** The characters of a string. *)
Fixpoint chars (s : string) : list ascii :=
  match s with
  | EmptyString => []
  | String c rest => c :: chars rest
  end.

(** A payload that makes the loaders raise: truthy and not a mapping. *)
Definition bad_payload (f : json_file) : Prop :=
  exists v, f = FileData v /\ truthy v = true /\ forall d, v <> PDict d.

(** * Theorems *)

(** ** Truthiness and lookups *)

Lemma truthy_dict_false (d : gmap string pyval) :
  truthy (PDict d) = false -> d = ∅.
Proof.
  cbn. intros Hsz. apply negb_false_iff, Nat.eqb_eq in Hsz.
  by apply map_size_empty_iff.
Qed.

Lemma py_or_dict (d : gmap string pyval) :
  py_or (PDict d) empty_dict = PDict d.
Proof.
  unfold py_or. destruct (truthy (PDict d)) eqn:Ht; [done|].
  unfold empty_dict. by rewrite (truthy_dict_false d Ht).
Qed.

Lemma truthy_dict_lookup (d : gmap string pyval) (k : string) (v : pyval) :
  d !! k = Some v -> truthy (PDict d) = true.
Proof.
  intros Hk. destruct (truthy (PDict d)) eqn:Ht; [done|].
  apply truthy_dict_false in Ht. subst d. by rewrite lookup_empty in Hk.
Qed.

Lemma load_config_mapping (src : config_source) :
  fst (load_config src) = Ok (config_mapping src).
Proof.
  destruct src as [| | err | data]; try reflexivity.
  cbn [load_config config_mapping].
  destruct data as [| b | n | f | s | l | d];
    [| | | | | | by rewrite py_or_dict]; unfold py_or, empty_dict; cbn [truthy].
  - reflexivity.
  - by destruct b.
  - by destruct (n =? 0).
  - by destruct f.
  - by destruct s.
  - by destruct l.
Qed.

Lemma load_config_trace_ok (src : config_source) :
  exists tr, load_config src = (Ok (config_mapping src), tr).
Proof.
  pose proof (load_config_mapping src) as Hm.
  destruct (load_config src) as [o tr]. cbn in Hm. subst o. by exists tr.
Qed.

(** A readable section is read as the mapping [section_of] names. *)
Lemma readable_section_read (cfg : gmap string pyval) (name : string) :
  readable_section cfg name ->
  py_or (default PNone (cfg !! name)) empty_dict = PDict (section_of cfg name).
Proof.
  unfold readable_section, section_of.
  destruct (cfg !! name) as [v|] eqn:Hv; simpl default.
  - destruct v; intros Hr; try (unfold py_or; rewrite Hr; reflexivity).
    apply py_or_dict.
  - reflexivity.
Qed.

Section ConfigTheorems.
Context `{PyLib}.

(** What [resolve_days_window] computes once the two sections are read. *)
Lemma resolve_days_window_sections default_days src tr (paper : gmap string pyval) :
  load_config src = (Ok (config_mapping src), tr) ->
  py_or (default PNone (config_mapping src !! "arxiv_paper_setting"%string)) empty_dict
    = PDict paper ->
  fst (resolve_days_window default_days src) =
    (value ← (let v := default PNone (paper !! "days_window"%string) in
              if is_none v
              then dict_get (py_or (default PNone (config_mapping src !! "crawler"%string))
                               empty_dict) "days_window"
              else Ok v);
     match py_int value with
     | Ok days => Ok (Z.max days 1)
     | Raise _ => Ok (Z.max default_days 1)
     end).
Proof.
  intros Hload Hpaper. unfold resolve_days_window.
  unfold mbind, io_mbind, io_bind. rewrite Hload.
  rewrite py_or_dict. cbn [dict_get io_lift]. rewrite Hpaper. cbn [dict_get].
  destruct (is_none (default PNone (paper !! "days_window"%string))).
  - unfold io_lift.
    destruct (dict_get _ "days_window") as [v|e]; cbn; [|done].
    by destruct (py_int v).
  - cbn. by destruct (py_int _).
Qed.

(** Claim C4, as amended.  When both sections of the configuration are
    readable (absent, falsy or a mapping), [resolve_days_window] returns a
    positive integer and does not raise, whether the file is missing, the
    parser is missing, the document is unreadable or a key is missing.  A
    looked-up value that is missing or that [int] rejects gives
    [max default 1]; a value that [int] accepts as [d] gives [max d 1], so a
    non-positive integer gives 1, not [max default 1]. *)
Theorem resolve_days_window_amended (default_days : Z) (src : config_source) :
  readable_section (config_mapping src) "arxiv_paper_setting" ->
  readable_section (config_mapping src) "crawler" ->
  exists days,
    fst (resolve_days_window default_days src) = Ok days
    /\ 0 < days
    /\ (looked_up_days_window src = PNone -> days = Z.max default_days 1)
    /\ (forall e, py_int (looked_up_days_window src) = Raise e ->
        days = Z.max default_days 1)
    /\ (forall d, py_int (looked_up_days_window src) = Ok d -> days = Z.max d 1)
    /\ (forall d, py_int (looked_up_days_window src) = Ok d -> d <= 0 -> days = 1).
Proof.
  intros Hpaper Hcrawler.
  destruct (load_config_trace_ok src) as [tr Hload].
  apply readable_section_read in Hpaper, Hcrawler.
  rewrite (resolve_days_window_sections default_days src tr _ Hload Hpaper).
  rewrite Hcrawler. cbn [dict_get].
  assert (Hval :
    (if is_none (default PNone (section_of (config_mapping src) "arxiv_paper_setting"
                                  !! "days_window"%string))
     then Ok (default PNone (section_of (config_mapping src) "crawler"
                               !! "days_window"%string))
     else Ok (default PNone (section_of (config_mapping src) "arxiv_paper_setting"
                               !! "days_window"%string)))
    = Ok (looked_up_days_window src)).
  { unfold looked_up_days_window.
    destruct (section_of (config_mapping src) "arxiv_paper_setting"
                !! "days_window"%string) as [v|]; simpl default; cbn [is_none]; [|done].
    by destruct (is_none v). }
  rewrite Hval. unfold mbind, outcome_bind, Py.bind.
  destruct (py_int (looked_up_days_window src)) as [d|e] eqn:Hint.
  - exists (Z.max d 1).
    split; [reflexivity|]. split; [lia|]. split; [|split; [|split]].
    + intros Hnone. rewrite Hnone in Hint. discriminate.
    + intros e [=].
    + intros d' [= <-]. reflexivity.
    + intros d' [= <-] Hle. lia.
  - exists (Z.max default_days 1).
    split; [reflexivity|]. split; [lia|]. split; [|split; [|split]].
    + reflexivity.
    + reflexivity.
    + intros d [=].
    + intros d [=].
Qed.

(** Claim C10.  When the document sets [arxiv_paper_setting.days_window] to a
    value other than [None], the result is decided by that value alone,
    whatever the document holds under [crawler]: [max default 1] when [int]
    rejects the value, even if [crawler.days_window] is a valid positive
    integer. *)
Theorem paper_key_shadows_crawler_key (default_days : Z)
    (cfg paper : gmap string pyval) (v : pyval) :
  cfg !! "arxiv_paper_setting"%string = Some (PDict paper) ->
  paper !! "days_window"%string = Some v ->
  v <> PNone ->
  fst (resolve_days_window default_days (ConfigData (PDict cfg))) =
    Ok (match py_int v with
        | Ok d => Z.max d 1
        | Raise _ => Z.max default_days 1
        end)
  /\ (forall e, py_int v = Raise e ->
      fst (resolve_days_window default_days (ConfigData (PDict cfg)))
      = Ok (Z.max default_days 1)).
Proof.
  intros Hcfg Hpaper Hv.
  destruct (load_config_trace_ok (ConfigData (PDict cfg))) as [tr Hload].
  assert (Hres : fst (resolve_days_window default_days (ConfigData (PDict cfg))) =
    Ok (match py_int v with
        | Ok d => Z.max d 1
        | Raise _ => Z.max default_days 1
        end)).
  { rewrite (resolve_days_window_sections default_days _ tr paper Hload).
    - rewrite Hpaper. simpl default.
      destruct v; try congruence; cbn [is_none];
        unfold mbind, outcome_bind, Py.bind; by destruct (py_int _).
    - cbn [config_mapping]. rewrite Hcfg. simpl default.
      unfold py_or. by rewrite (truthy_dict_lookup paper _ v Hpaper). }
  split; [exact Hres|].
  intros e He. rewrite Hres, He. reflexivity.
Qed.

End ConfigTheorems.

(** ** Crawl State Store *)

Section StateTheorems.
Context `{PyLib}.

Lemma load_seen_state_no_file :
  load_seen_state FileAbsent = Ok (∅, None)
  /\ load_seen_state FileCorrupt = Ok (∅, None).
Proof. split; reflexivity. Qed.

Lemma load_last_crawl_at_no_file :
  load_last_crawl_at FileAbsent = Ok None
  /\ load_last_crawl_at FileCorrupt = Ok None.
Proof. split; reflexivity. Qed.

(** A payload that is a mapping never makes the loaders raise. *)
Lemma load_mapping_ok (d : gmap string pyval) :
  is_ok (load_seen_state (FileData (PDict d))) = true
  /\ is_ok (load_last_crawl_at (FileData (PDict d))) = true.
Proof.
  unfold load_seen_state, load_last_crawl_at.
  rewrite py_or_dict. cbn [dict_get].
  unfold mbind, outcome_bind, Py.bind. split; [reflexivity|].
  by destruct (str_nonempty _).
Qed.

(** A payload that is truthy and not a mapping makes both loaders raise. *)
Lemma load_non_mapping_raises (v : pyval) :
  truthy v = true ->
  (forall d, v <> PDict d) ->
  load_seen_state (FileData v) = Raise AttributeError
  /\ load_last_crawl_at (FileData v) = Raise AttributeError.
Proof.
  intros Ht Hd. unfold load_seen_state, load_last_crawl_at, py_or.
  rewrite Ht. destruct v; try (split; reflexivity).
  by destruct (Hd d).
Qed.

(** Claim C9, the failing input.  A state file holding the valid JSON
    document [[1]] makes [load_seen_state] and [load_last_crawl_at] raise
    AttributeError: [.get] is called on a list, outside the [try]. *)
Theorem load_state_raises_on_json_array :
  load_seen_state (FileData (PList [PInt 1])) = Raise AttributeError
  /\ load_last_crawl_at (FileData (PList [PInt 1])) = Raise AttributeError.
Proof. split; reflexivity. Qed.

(** Reading back the last-run marker. *)
Lemma load_saved_last_crawl_at (t : Z) :
  roundtrips t ->
  load_last_crawl_at (save_last_crawl_at t) = Ok (Some t).
Proof.
  intros [Hne Hparse]. unfold load_last_crawl_at, save_last_crawl_at.
  rewrite py_or_dict. cbn [dict_get]. rewrite lookup_singleton_eq.
  unfold mbind, outcome_bind, Py.bind. simpl default.
  assert (Hstr : strip (py_str (py_or (PStr (isoformat t)) (PStr "")))
                 = strip (isoformat t)).
  { unfold py_or. cbn [truthy].
    destruct (str_nonempty (isoformat t)) eqn:Hiso; [reflexivity|].
    destruct (isoformat t); [reflexivity|discriminate]. }
  rewrite Hstr, Hne, Hparse. reflexivity.
Qed.

End StateTheorems.

(** ** Window Resolver *)

Lemma is_datetime_spec (t : Z) :
  is_datetime t = true <-> DATETIME_MIN <= t <= DATETIME_MAX.
Proof.
  unfold is_datetime. rewrite andb_true_iff, !Z.leb_le. tauto.
Qed.

Lemma is_datetime_false (t : Z) :
  is_datetime t = false <-> ~ DATETIME_MIN <= t <= DATETIME_MAX.
Proof.
  rewrite <- is_datetime_spec. by destruct (is_datetime t).
Qed.

Lemma datetime_sub_inv (t delta s : Z) :
  datetime_sub t delta = Ok s ->
  s = t - delta /\ DATETIME_MIN <= t - delta <= DATETIME_MAX.
Proof.
  unfold datetime_sub. destruct (is_datetime (t - delta)) eqn:Hr; [|done].
  intros [= <-]. split; [done|]. by apply is_datetime_spec.
Qed.

Lemma datetime_sub_ok (t delta : Z) :
  DATETIME_MIN <= t - delta <= DATETIME_MAX ->
  datetime_sub t delta = Ok (t - delta).
Proof.
  intros Hr. unfold datetime_sub. by rewrite (proj2 (is_datetime_spec _) Hr).
Qed.

Lemma datetime_sub_raises (t delta : Z) (e : exn) :
  datetime_sub t delta = Raise e ->
  e = OverflowError /\ ~ DATETIME_MIN <= t - delta <= DATETIME_MAX.
Proof.
  unfold datetime_sub. destruct (is_datetime (t - delta)) eqn:Hr; [done|].
  intros [= <-]. split; [done|]. by apply is_datetime_false.
Qed.

Lemma timedelta_days_cases (days : Z) :
  (- TIMEDELTA_MAX_DAYS <= days <= TIMEDELTA_MAX_DAYS
   /\ timedelta_days days = Ok (days * 86400000000))
  \/ (~ - TIMEDELTA_MAX_DAYS <= days <= TIMEDELTA_MAX_DAYS
      /\ timedelta_days days = Raise OverflowError).
Proof.
  unfold timedelta_days.
  destruct (Z.leb_spec (- TIMEDELTA_MAX_DAYS) days);
    destruct (Z.leb_spec days TIMEDELTA_MAX_DAYS); cbn [andb];
    [left|right|right|right]; split; try reflexivity; lia.
Qed.

(** [end_date - timedelta(days=days)] returns exactly when both ranges are
    respected, and then the exact difference. *)
Lemma days_before_ok (end_date days : Z) :
  lookback_representable end_date days ->
  days_before end_date days = Ok (end_date - days * 86400000000).
Proof.
  intros [Hd Hr]. unfold days_before, mbind, outcome_bind, Py.bind.
  destruct (timedelta_days_cases days) as [[_ ->]|[Hn _]]; [|done].
  by apply datetime_sub_ok.
Qed.

Lemma days_before_inv (end_date days s : Z) :
  days_before end_date days = Ok s ->
  lookback_representable end_date days /\ s = end_date - days * 86400000000.
Proof.
  unfold days_before, mbind, outcome_bind, Py.bind.
  destruct (timedelta_days_cases days) as [[Hd ->]|[_ ->]]; [|done].
  intros Hs. apply datetime_sub_inv in Hs as [-> Hr].
  split; [split; [exact Hd|exact Hr]|reflexivity].
Qed.

Lemma days_before_raises (end_date days : Z) (e : exn) :
  days_before end_date days = Raise e ->
  e = OverflowError /\ ~ lookback_representable end_date days.
Proof.
  unfold days_before, mbind, outcome_bind, Py.bind.
  destruct (timedelta_days_cases days) as [[Hd ->]|[Hn ->]].
  - intros He. apply datetime_sub_raises in He as [-> Hr].
    split; [done|]. by intros [_ Hr'].
  - intros [= <-]. split; [done|]. by intros [Hd _].
Qed.

(** The start the specification's window gives to a chosen start. *)
Lemma spec_window_cases (now days start : Z) :
  (now <= Z.max start (now - days * 86400000000)
   /\ spec_window now days (Some start) None = (now - 60000000, now))
  \/ (Z.max start (now - days * 86400000000) < now
      /\ spec_window now days (Some start) None
         = (Z.max start (now - days * 86400000000), now)).
Proof.
  unfold spec_window.
  destruct (Z_ge_dec (Z.max start (now - days * 86400000000)) now);
    [left|right]; split; try reflexivity; lia.
Qed.

Lemma spec_window_before_end (now days : Z) (latest last : option Z) :
  fst (spec_window now days latest last) < now
  /\ snd (spec_window now days latest last) = now.
Proof.
  unfold spec_window. split; [|reflexivity]. cbn [fst].
  destruct (Z_ge_dec _ now); lia.
Qed.

Lemma spec_window_choice (now days : Z) (latest last : option Z) :
  spec_window now days
    (Some match latest, last with
          | Some t, _ => t
          | None, Some t => t
          | None, None => now - days * 86400000000
          end) None
  = spec_window now days latest last.
Proof. by destruct latest, last. Qed.

(** What [clamp_start] returns when it returns: the start of the
    specification's window. *)
Lemma clamp_start_inv (end_date days start_date s : Z) :
  clamp_start end_date days start_date = Ok s ->
  lookback_representable end_date days
  /\ (s, end_date) = spec_window end_date days (Some start_date) None.
Proof.
  unfold clamp_start, mbind, outcome_bind, Py.bind.
  destruct (days_before end_date days) as [cutoff|e] eqn:Hc; [|done].
  apply days_before_inv in Hc as [Hrep ->]. intros Hs. split; [done|].
  destruct (spec_window_cases end_date days start_date) as [[Hle ->]|[Hlt ->]].
  - rewrite (proj2 (Z.leb_le _ _) Hle) in Hs.
    apply datetime_sub_inv in Hs as [-> _]. reflexivity.
  - rewrite (proj2 (Z.leb_gt _ _) Hlt) in Hs. by injection Hs as <-.
Qed.

Lemma clamp_start_ok (end_date days start_date : Z) :
  window_representable end_date days ->
  clamp_start end_date days start_date
  = Ok (fst (spec_window end_date days (Some start_date) None)).
Proof.
  intros [Hrep Hmin]. unfold clamp_start, mbind, outcome_bind, Py.bind.
  rewrite (days_before_ok _ _ Hrep).
  destruct (spec_window_cases end_date days start_date) as [[Hle ->]|[Hlt ->]].
  - rewrite (proj2 (Z.leb_le _ _) Hle). by apply datetime_sub_ok.
  - by rewrite (proj2 (Z.leb_gt _ _) Hlt).
Qed.

Lemma clamp_start_raises (end_date days start_date : Z) (e : exn) :
  clamp_start end_date days start_date = Raise e ->
  e = OverflowError /\ ~ window_representable end_date days.
Proof.
  intros He.
  assert (Hnot : ~ window_representable end_date days).
  { intros Hrep. by rewrite (clamp_start_ok _ _ start_date Hrep) in He. }
  split; [|done]. revert He. unfold clamp_start, mbind, outcome_bind, Py.bind.
  destruct (days_before end_date days) as [cutoff|e'] eqn:Hc.
  - destruct (end_date <=? Z.max start_date cutoff); [|done].
    intros He. by apply datetime_sub_raises in He as [-> _].
  - intros [= <-]. by apply days_before_raises in Hc as [-> _].
Qed.

(** A run at an instant that is a [datetime] and whose window resolved once
    has a window for every other choice of start. *)
Lemma clamp_start_again (end_date days start_date s : Z) :
  clamp_start end_date days start_date = Ok s ->
  is_datetime end_date = true ->
  window_representable end_date days.
Proof.
  intros Hs Hnow. apply is_datetime_spec in Hnow.
  unfold clamp_start, mbind, outcome_bind, Py.bind in Hs.
  destruct (days_before end_date days) as [cutoff|e] eqn:Hc; [|done].
  apply days_before_inv in Hc as [Hrep ->]. split; [done|].
  destruct Hrep as [Hd Hr].
  destruct (Z.leb_spec end_date (Z.max start_date (end_date - days * 86400000000)))
    as [Hle|Hlt].
  - by apply datetime_sub_inv in Hs as [_ Hmin].
  - unfold DATETIME_MIN, DATETIME_MAX in *. lia.
Qed.

Section WindowTheorems.
Context `{PyLib}.

(** What a resolved window remembers of its inputs. *)
Lemma resolve_window_ok (now : Z) (days_arg : option Z) (w : world) (wd : window)
    (tr : list event) :
  resolve_window now days_arg w = (Ok wd, tr) ->
  load_seen_state (SEEN_IDS_FILE w) = Ok (w_seen_ids wd, w_latest_published_at wd)
  /\ match days_arg with
     | None => resolve_days_window 1 (CONFIG_FILE w)
     | Some d => io_ret d
     end = (Ok (w_days wd), tr)
  /\ w_end_date wd = now
  /\ lookback_representable now (w_days wd)
  /\ (is_datetime now = true -> window_representable now (w_days wd))
  /\ exists last,
       (w_latest_published_at wd = None ->
        load_last_crawl_at (CRAWL_STATE_FILE w) = Ok last)
       /\ (w_start_date wd, now)
          = spec_window now (w_days wd) (w_latest_published_at wd) last.
Proof.
  unfold resolve_window, mbind, io_mbind, io_bind, io_lift.
  destruct (load_seen_state (SEEN_IDS_FILE w)) as [[seen latest]|e]; [|done].
  destruct (match days_arg with
            | Some d => io_ret d
            | None => resolve_days_window 1 (CONFIG_FILE w)
            end) as [[d|e] tr1]; [|done].
  destruct (choose_start now d latest _) as [[s0 src]|e] eqn:Hchoose; [|done].
  destruct (clamp_start now d s0) as [s|e] eqn:Hclamp; [|done].
  cbn. rewrite !app_nil_r. intros [= <- <-]. cbn.
  destruct (clamp_start_inv _ _ _ _ Hclamp) as [Hrep Hspec].
  split; [done|]. split; [done|]. split; [done|]. split; [done|].
  split; [intros Hnow; by apply (clamp_start_again now d s0 s)|].
  revert Hchoose. unfold choose_start, mbind, outcome_bind, Py.bind.
  destruct latest as [t|].
  - intros [= <- _]. exists None. by split.
  - destruct (load_last_crawl_at (CRAWL_STATE_FILE w)) as [[t|]|e]; [| |done].
    + intros [= <- _]. exists (Some t). by split.
    + destruct (days_before now d) as [s1|e] eqn:Hs1; [|done].
      intros [= <- _]. apply days_before_inv in Hs1 as [_ ->].
      exists None. by split.
Qed.

(** The window a run resolves once its inputs are loaded and the window
    arithmetic is representable. *)
Lemma resolve_window_loaded (now : Z) (days_arg : option Z) (w : world)
    (seen : gset string) (latest last : option Z) (days : Z) (tr : list event) :
  load_seen_state (SEEN_IDS_FILE w) = Ok (seen, latest) ->
  match days_arg with
  | None => resolve_days_window 1 (CONFIG_FILE w)
  | Some d => io_ret d
  end = (Ok days, tr) ->
  (latest = None -> load_last_crawl_at (CRAWL_STATE_FILE w) = Ok last) ->
  window_representable now days ->
  exists src,
    resolve_window now days_arg w
    = (Ok {| w_seen_ids := seen;
             w_latest_published_at := latest;
             w_days := days;
             w_start_date := fst (spec_window now days latest last);
             w_end_date := now;
             w_source_desc := src |}, tr).
Proof.
  intros Hseen Hdays Hlast Hrep. unfold resolve_window.
  unfold mbind, io_mbind, io_bind, io_lift. rewrite Hseen, Hdays.
  assert (Hclamp : forall s0,
            spec_window now days (Some s0) None = spec_window now days latest last ->
            clamp_start now days s0 = Ok (fst (spec_window now days latest last))).
  { intros s0 <-. by apply clamp_start_ok. }
  unfold choose_start, mbind, outcome_bind, Py.bind.
  destruct latest as [t|].
  - rewrite (Hclamp t eq_refl). cbn. rewrite !app_nil_r. by eexists.
  - rewrite (Hlast eq_refl). destruct last as [t|].
    + rewrite (Hclamp t eq_refl). cbn. rewrite !app_nil_r. by eexists.
    + rewrite (days_before_ok _ _ (proj1 Hrep)).
      rewrite (Hclamp _ eq_refl). cbn. rewrite !app_nil_r. by eexists.
Qed.

(** The window resolution fails with OverflowError when the inputs load and
    the lookback is not representable. *)
Lemma resolve_window_overflow (now : Z) (days_arg : option Z) (w : world)
    (seen : gset string) (latest last : option Z) (days : Z) (tr : list event) :
  load_seen_state (SEEN_IDS_FILE w) = Ok (seen, latest) ->
  match days_arg with
  | None => resolve_days_window 1 (CONFIG_FILE w)
  | Some d => io_ret d
  end = (Ok days, tr) ->
  (latest = None -> load_last_crawl_at (CRAWL_STATE_FILE w) = Ok last) ->
  ~ lookback_representable now days ->
  resolve_window now days_arg w = (Raise OverflowError, tr).
Proof.
  intros Hseen Hdays Hlast Hrep. unfold resolve_window.
  unfold mbind, io_mbind, io_bind, io_lift. rewrite Hseen, Hdays.
  assert (Hbefore : days_before now days = Raise OverflowError).
  { destruct (days_before now days) as [s|e] eqn:Hs.
    - by apply days_before_inv in Hs as [Hs _].
    - by apply days_before_raises in Hs as [-> _]. }
  assert (Hclamp : forall s0, clamp_start now days s0 = Raise OverflowError).
  { intros s0. unfold clamp_start, mbind, outcome_bind, Py.bind.
    by rewrite Hbefore. }
  unfold choose_start, mbind, outcome_bind, Py.bind.
  destruct latest as [t|].
  - rewrite Hclamp. cbn. by rewrite !app_nil_r.
  - rewrite (Hlast eq_refl). destruct last as [t|].
    + rewrite Hclamp. cbn. by rewrite !app_nil_r.
    + rewrite Hbefore. cbn. by rewrite !app_nil_r.
Qed.

(** Every window a run resolves from loaded inputs is the specification's
    window. *)
Lemma resolve_window_spec (now : Z) (days_arg : option Z) (w : world)
    (seen : gset string) (latest last : option Z) (days : Z) (tr : list event)
    (wd : window) (tr' : list event) :
  load_seen_state (SEEN_IDS_FILE w) = Ok (seen, latest) ->
  match days_arg with
  | None => resolve_days_window 1 (CONFIG_FILE w)
  | Some d => io_ret d
  end = (Ok days, tr) ->
  (latest = None -> load_last_crawl_at (CRAWL_STATE_FILE w) = Ok last) ->
  resolve_window now days_arg w = (Ok wd, tr') ->
  tr' = tr
  /\ w_seen_ids wd = seen
  /\ w_latest_published_at wd = latest
  /\ w_days wd = days
  /\ (w_start_date wd, w_end_date wd) = spec_window now days latest last
  /\ w_end_date wd = now
  /\ w_start_date wd < w_end_date wd.
Proof.
  intros Hseen Hdays Hlast Hw.
  destruct (resolve_window_ok _ _ _ _ _ Hw)
    as (Hseen' & Hdays' & Hend & _ & _ & last' & Hlast' & Hspec).
  rewrite Hseen in Hseen'. injection Hseen' as Hs Hl.
  rewrite Hdays in Hdays'. injection Hdays' as Hd Ht.
  rewrite <- Hl, <- Hd in Hspec. rewrite <- Hl in Hlast'.
  assert (Hsame : spec_window now days latest last'
                  = spec_window now days latest last).
  { destruct latest as [t|]; [reflexivity|].
    specialize (Hlast eq_refl). rewrite (Hlast' eq_refl) in Hlast.
    by injection Hlast as ->. }
  rewrite Hsame in Hspec.
  pose proof (spec_window_before_end now days latest last) as [Hlt _].
  rewrite <- Hspec in Hlt. cbn [fst] in Hlt.
  rewrite Hend. by repeat split.
Qed.


(** Claim C2.  Once the seen-state is loaded and the days window is known
    (given, or resolved from the configuration), every window the run
    resolves is the window the specification describes: start is
    [latest_published_at] if present, else [last_crawl_at] if present, else
    [now - days]; then the maximum with [now - days]; then [now - 1 minute]
    if it is not before [now]; end is [now]; and start is strictly before
    end.  The run resolves a window whenever [days] is a [timedelta] and
    [now - days] and [now - 1 minute] are [datetime]s; when [days] is not a
    [timedelta] or [now - days] not a [datetime], it raises OverflowError
    instead. *)
Theorem resolved_window_matches_spec (now : Z) (days_arg : option Z) (w : world)
    (seen : gset string) (latest last : option Z) (days : Z) (tr : list event) :
  load_seen_state (SEEN_IDS_FILE w) = Ok (seen, latest) ->
  match days_arg with
  | None => resolve_days_window 1 (CONFIG_FILE w)
  | Some d => io_ret d
  end = (Ok days, tr) ->
  (latest = None -> load_last_crawl_at (CRAWL_STATE_FILE w) = Ok last) ->
  (forall wd tr',
     resolve_window now days_arg w = (Ok wd, tr') ->
     tr' = tr
     /\ w_seen_ids wd = seen
     /\ w_latest_published_at wd = latest
     /\ w_days wd = days
     /\ (w_start_date wd, w_end_date wd) = spec_window now days latest last
     /\ w_end_date wd = now
     /\ w_start_date wd < w_end_date wd)
  /\ (window_representable now days ->
      exists wd, resolve_window now days_arg w = (Ok wd, tr))
  /\ (~ lookback_representable now days ->
      resolve_window now days_arg w = (Raise OverflowError, tr)).
Proof.
  intros Hseen Hdays Hlast. split; [|split].
  - intros wd tr' Hw.
    exact (resolve_window_spec now days_arg w seen latest last days tr wd tr'
             Hseen Hdays Hlast Hw).
  - intros Hrep.
    destruct (resolve_window_loaded now days_arg w seen latest last days tr
                Hseen Hdays Hlast Hrep) as [src Hw].
    by eexists.
  - by apply resolve_window_overflow with seen latest last.
Qed.

End WindowTheorems.

Lemma t_0610_representable : window_representable Examples.t_0610 1.
Proof.
  unfold window_representable, lookback_representable, TIMEDELTA_MAX_DAYS,
    DATETIME_MIN, DATETIME_MAX, Examples.t_0610.
  lia.
Qed.

Lemma resolved_window_matches_spec_witness :
  exists wd,
    resolve_window Examples.t_0610 (Some 1) Examples.world_0001 = (Ok wd, [])
    /\ w_seen_ids wd = {[ "2406.0001v1"%string ]}
    /\ w_latest_published_at wd = Some (Examples.t_0609_noon + 30000000)
    /\ w_days wd = 1
    /\ (w_start_date wd, w_end_date wd)
       = spec_window Examples.t_0610 1 (Some (Examples.t_0609_noon + 30000000)) None
    /\ w_end_date wd = Examples.t_0610
    /\ w_start_date wd < w_end_date wd.
Proof.
  destruct (resolved_window_matches_spec Examples.t_0610 (Some 1) Examples.world_0001
              {[ "2406.0001v1"%string ]} (Some (Examples.t_0609_noon + 30000000))
              None 1 []) as (Hspec & Hok & _).
  - vm_compute. reflexivity.
  - reflexivity.
  - intros [=].
  - destruct (Hok t_0610_representable) as [wd Hw].
    exists wd. split; [exact Hw|].
    destruct (Hspec wd [] Hw) as (_ & Hrest). exact Hrest.
Defined.

(** ** The insertion-ordered dict *)

Section Odict.
Context {V : Type}.
Implicit Types (d : odict V) (k : string) (v : V).

Lemma od_mem_true k d : od_mem k d = true <-> k ∈ od_keys d.
Proof.
  unfold od_mem, od_keys. rewrite existsb_exists, list_elem_of_In, in_map_iff.
  split; intros [[k' v'] [H1 H2]]; exists (k', v'); cbn in *.
  - apply String.eqb_eq in H2. by subst.
  - subst. split; [done|]. apply String.eqb_refl.
Qed.

Lemma od_mem_false k d : od_mem k d = false <-> k ∉ od_keys d.
Proof.
  rewrite <- od_mem_true. destruct (od_mem k d); split; congruence.
Qed.

Lemma od_set_fresh k v d : od_mem k d = false -> od_set k v d = d ++ [(k, v)].
Proof.
  induction d as [|[k' v'] d IH]; cbn; [done|].
  destruct (String.eqb k' k) eqn:Hk; cbn; [done|].
  intros Hd. by rewrite IH.
Qed.

Lemma od_keys_app d1 d2 : od_keys (d1 ++ d2) = od_keys d1 ++ od_keys d2.
Proof. apply List.map_app. Qed.

Lemma od_values_app d1 d2 : od_values (d1 ++ d2) = od_values d1 ++ od_values d2.
Proof. apply List.map_app. Qed.

End Odict.

(** ** The category loop *)

Lemma extends_refl st : extends st st.
Proof. split; [exists []; by rewrite app_nil_r | done]. Qed.

Lemma extends_trans st1 st2 st3 : extends st1 st2 -> extends st2 st3 -> extends st1 st3.
Proof.
  intros [[a1 H1] S1] [[a2 H2] S2]. split.
  - exists (a1 ++ a2). by rewrite H2, H1, app_assoc.
  - set_solver.
Qed.

Lemma initial_state_inv (seen0 : gset string) : crawl_inv seen0 (initial_state seen0).
Proof.
  unfold crawl_inv, initial_state; cbn. split; [constructor|].
  split; [constructor|]. split.
  - intros k. split; [by left|]. intros [Hk|Hk]; [done|]. by apply elem_of_nil in Hk.
  - intros k Hk. by apply elem_of_nil in Hk.
Qed.

(** One iteration: the invariant is kept, the state only grows, and the
    visited identifier is in [seen_ids] afterwards. *)
Lemma visit_facts (seen0 : gset string) (category : string)
    (acc : crawl_state * Z * list event) (r : result) :
  crawl_inv seen0 (fst (fst acc)) ->
  crawl_inv seen0 (fst (fst (visit category acc r)))
  /\ extends (fst (fst acc)) (fst (fst (visit category acc r)))
  /\ short_id r ∈ seen_ids (fst (fst (visit category acc r))).
Proof.
  destruct acc as [[st count] tr]. cbn [fst]. intros (Hnd & Hid & Hseen & Hfresh).
  unfold visit. case_bool_decide as Hin.
  { cbn [fst]. split; [done|]. split; [apply extends_refl|done]. }
  destruct (od_mem (short_id r) (unique_papers st)) eqn:Hmem.
  { cbn [fst]. split; [done|]. split; [apply extends_refl|].
    apply Hseen. right. by apply od_mem_true. }
  cbn [fst unique_papers seen_ids]. rewrite (od_set_fresh _ _ _ Hmem).
  apply od_mem_false in Hmem.
  assert (Hnot0 : short_id r ∉ seen0).
  { intros H0. apply Hin, Hseen. by left. }
  split; [|split].
  - unfold crawl_inv; cbn [unique_papers seen_ids].
    rewrite od_keys_app. cbn [od_keys List.map fst].
    split; [|split; [|split]].
    + apply NoDup_app. split; [done|]. split.
      * intros k Hk Hk'. apply list_elem_of_singleton in Hk'. by subst.
      * apply NoDup_singleton.
    + apply Forall_app. split; [done|]. by constructor.
    + intros k. rewrite elem_of_union, elem_of_singleton, Hseen, elem_of_app,
        list_elem_of_singleton. tauto.
    + intros k Hk. apply elem_of_app in Hk as [Hk|Hk]; [by apply Hfresh|].
      apply list_elem_of_singleton in Hk. by subst.
  - split; [by eexists|]. cbn. apply union_subseteq_r.
  - cbn. apply elem_of_union_l. by apply elem_of_singleton.
Qed.

Lemma visit_fold_facts (seen0 : gset string) (category : string) (rs : list result)
    (acc : crawl_state * Z * list event) :
  crawl_inv seen0 (fst (fst acc)) ->
  crawl_inv seen0 (fst (fst (fold_left (visit category) rs acc)))
  /\ extends (fst (fst acc)) (fst (fst (fold_left (visit category) rs acc)))
  /\ (forall r, r ∈ rs ->
      short_id r ∈ seen_ids (fst (fst (fold_left (visit category) rs acc)))).
Proof.
  revert acc. induction rs as [|r rs IH]; intros acc Hinv; cbn [fold_left].
  - split; [done|]. split; [apply extends_refl|]. intros r Hr.
    by apply elem_of_nil in Hr.
  - destruct (visit_facts seen0 category acc r Hinv) as (Hinv1 & Hext1 & Hin1).
    destruct (IH _ Hinv1) as (Hinv2 & Hext2 & Hin2).
    split; [done|]. split; [by eapply extends_trans|].
    intros r' Hr'. apply elem_of_cons in Hr' as [->|Hr']; [|by apply Hin2].
    destruct Hext2 as [_ Hsub]. by apply Hsub.
Qed.

Lemma fetch_category_state (up : upstream) (start_str end_str : string)
    (st : crawl_state) (category : string) :
  fst (fetch_category up start_str end_str st category)
  = fst (fst (fold_left (visit category)
                (yielded (up (make_query category start_str end_str))) (st, 0, []))).
Proof.
  unfold fetch_category.
  by destruct (fold_left _ _ _) as [[st' count] tr].
Qed.

Lemma fetch_category_facts (seen0 : gset string) (up : upstream)
    (start_str end_str : string) (st : crawl_state) (category : string) :
  crawl_inv seen0 st ->
  crawl_inv seen0 (fst (fetch_category up start_str end_str st category))
  /\ extends st (fst (fetch_category up start_str end_str st category))
  /\ (forall pid, pid ∈ returned_ids up start_str end_str category ->
      pid ∈ seen_ids (fst (fetch_category up start_str end_str st category))).
Proof.
  intros Hinv. rewrite fetch_category_state.
  destruct (visit_fold_facts seen0 category
              (yielded (up (make_query category start_str end_str))) (st, 0, []) Hinv)
    as (H1 & H2 & H3).
  split; [done|]. split; [done|].
  intros pid Hpid. unfold returned_ids in Hpid.
  apply list_elem_of_In, in_map_iff in Hpid as (r & <- & Hr).
  apply H3. by apply list_elem_of_In.
Qed.

(** The loop over categories, one category at a time. *)
Lemma crawl_acc (up : upstream) (start_str end_str : string) (cats : list string)
    (st : crawl_state) (tr0 : list event) :
  fold_left
    (fun acc category =>
       let '(st', tr') := fetch_category up start_str end_str (fst acc) category in
       (st', snd acc ++ tr'))
    cats (st, tr0)
  = (fst (crawl up start_str end_str cats st),
     tr0 ++ snd (crawl up start_str end_str cats st)).
Proof.
  unfold crawl. revert st tr0.
  induction cats as [|c cats IH]; intros st tr0; cbn [fold_left fst snd].
  - by rewrite app_nil_r.
  - destruct (fetch_category up start_str end_str st c) as [st1 tr1].
    rewrite (IH st1 (tr0 ++ tr1)), (IH st1 ([] ++ tr1)). cbn [fst snd].
    by rewrite app_nil_l, app_assoc.
Qed.

Lemma crawl_nil (up : upstream) (start_str end_str : string) (st : crawl_state) :
  crawl up start_str end_str [] st = (st, []).
Proof. reflexivity. Qed.

Lemma crawl_cons (up : upstream) (start_str end_str : string) (c : string)
    (cats : list string) (st : crawl_state) :
  crawl up start_str end_str (c :: cats) st
  = (fst (crawl up start_str end_str cats
            (fst (fetch_category up start_str end_str st c))),
     snd (fetch_category up start_str end_str st c)
     ++ snd (crawl up start_str end_str cats
               (fst (fetch_category up start_str end_str st c)))).
Proof.
  unfold crawl at 1. cbn [fold_left fst snd].
  destruct (fetch_category up start_str end_str st c) as [st1 tr1].
  rewrite crawl_acc. by rewrite app_nil_l.
Qed.

Lemma crawl_app (up : upstream) (start_str end_str : string)
    (cats1 cats2 : list string) (st : crawl_state) :
  crawl up start_str end_str (cats1 ++ cats2) st
  = (fst (crawl up start_str end_str cats2
            (fst (crawl up start_str end_str cats1 st))),
     snd (crawl up start_str end_str cats1 st)
     ++ snd (crawl up start_str end_str cats2
               (fst (crawl up start_str end_str cats1 st)))).
Proof.
  revert st. induction cats1 as [|c cats1 IH]; intros st.
  - cbn [app]. rewrite crawl_nil. cbn. by destruct (crawl _ _ _ cats2 st).
  - rewrite <- app_comm_cons, !crawl_cons, IH. cbn [fst snd].
    by rewrite app_assoc.
Qed.

Lemma crawl_facts (seen0 : gset string) (up : upstream) (start_str end_str : string)
    (cats : list string) (st : crawl_state) :
  crawl_inv seen0 st ->
  crawl_inv seen0 (fst (crawl up start_str end_str cats st))
  /\ extends st (fst (crawl up start_str end_str cats st))
  /\ (forall category pid,
        category ∈ cats ->
        pid ∈ returned_ids up start_str end_str category ->
        pid ∈ seen_ids (fst (crawl up start_str end_str cats st))).
Proof.
  revert st. induction cats as [|c cats IH]; intros st Hinv.
  - rewrite crawl_nil. cbn. split; [done|]. split; [apply extends_refl|].
    intros c pid Hc. by apply elem_of_nil in Hc.
  - rewrite crawl_cons. cbn [fst].
    destruct (fetch_category_facts seen0 up start_str end_str st c Hinv)
      as (Hinv1 & Hext1 & Hin1).
    destruct (IH _ Hinv1) as (Hinv2 & Hext2 & Hin2).
    split; [done|]. split; [by eapply extends_trans|].
    intros c' pid Hc' Hpid. apply elem_of_cons in Hc' as [->|Hc'].
    + destruct Hext2 as [_ Hsub]. apply Hsub. by apply Hin1.
    + by eapply Hin2.
Qed.

(** Results whose identifier is already in the ledger leave no mark on the
    loop: neither on the state, nor on the count, nor on what is printed. *)
Lemma visit_fold_drop_seen (seen0 : gset string) (category : string)
    (rs : list result) (acc : crawl_state * Z * list event) :
  seen0 ⊆ seen_ids (fst (fst acc)) ->
  fold_left (visit category)
    (List.filter (fun r => negb (bool_decide (short_id r ∈ seen0))) rs) acc
  = fold_left (visit category) rs acc.
Proof.
  revert acc. induction rs as [|r rs IH]; intros acc Hsub; [done|].
  cbn [List.filter fold_left].
  case_bool_decide as Hin; cbn [negb].
  - assert (Hskip : visit category acc r = acc).
    { destruct acc as [[st count] tr]. unfold visit.
      rewrite bool_decide_eq_true_2; [done|]. by apply Hsub. }
    rewrite Hskip. by apply IH.
  - cbn [fold_left]. apply IH.
    destruct acc as [[st count] tr]. unfold visit. cbn [fst] in *.
    case_bool_decide; [done|].
    destruct (od_mem _ _); [done|]. cbn. set_solver.
Qed.

Lemma visit_fold_seen_mono (category : string) (rs : list result)
    (acc : crawl_state * Z * list event) :
  seen_ids (fst (fst acc))
  ⊆ seen_ids (fst (fst (fold_left (visit category) rs acc))).
Proof.
  revert acc. induction rs as [|r rs IH]; intros acc; [done|]. cbn [fold_left].
  etrans; [|apply IH].
  destruct acc as [[st0 count] tr]. unfold visit. cbn [fst].
  case_bool_decide; [done|]. destruct (od_mem _ _); [done|]. cbn.
  apply union_subseteq_r.
Qed.

Lemma fetch_category_seen_mono (up : upstream) (start_str end_str : string)
    (st : crawl_state) (category : string) :
  seen_ids st ⊆ seen_ids (fst (fetch_category up start_str end_str st category)).
Proof.
  rewrite fetch_category_state.
  apply (visit_fold_seen_mono category _ (st, 0, [])).
Qed.

Lemma fetch_category_drop_seen (seen0 : gset string) (up : upstream)
    (start_str end_str : string) (st : crawl_state) (category : string) :
  seen0 ⊆ seen_ids st ->
  fetch_category (drop_seen seen0 up) start_str end_str st category
  = fetch_category up start_str end_str st category.
Proof.
  intros Hsub. unfold fetch_category, drop_seen. cbn [yielded failure].
  by rewrite (visit_fold_drop_seen seen0 category _ (st, 0, [])).
Qed.

Lemma crawl_drop_seen (seen0 : gset string) (up : upstream)
    (start_str end_str : string) (cats : list string) (st : crawl_state) :
  seen0 ⊆ seen_ids st ->
  crawl (drop_seen seen0 up) start_str end_str cats st
  = crawl up start_str end_str cats st.
Proof.
  revert st. induction cats as [|c cats IH]; intros st Hsub; [done|].
  rewrite !crawl_cons, (fetch_category_drop_seen seen0 up _ _ st c Hsub).
  rewrite IH; [done|].
  etrans; [exact Hsub|apply fetch_category_seen_mono].
Qed.

(** ** Counting occurrences in the collection *)

Lemma occurrences_keys (d : odict paper) (pid : string) :
  Forall (fun kv => p_id (snd kv) = fst kv) d ->
  occurrences pid (od_values d)
  = length (List.filter (fun k => String.eqb k pid) (od_keys d)).
Proof.
  unfold occurrences, od_values, od_keys.
  induction 1 as [|[k p] d Hkp _ IH]; [done|]. cbn in *. subst k.
  destruct (String.eqb (p_id p) pid); cbn; by rewrite IH.
Qed.

Lemma count_absent (l : list string) (x : string) :
  x ∉ l -> length (List.filter (fun k => String.eqb k x) l) = 0%nat.
Proof.
  induction l as [|y l IH]; [done|]. intros Hx. cbn.
  destruct (String.eqb_spec y x) as [->|Hne].
  - destruct Hx. by left.
  - apply IH. intros Hin. apply Hx. by right.
Qed.

Lemma count_present_nodup (l : list string) (x : string) :
  NoDup l -> x ∈ l -> length (List.filter (fun k => String.eqb k x) l) = 1%nat.
Proof.
  induction 1 as [|y l Hy Hnd IH]; intros Hx.
  - by apply elem_of_nil in Hx.
  - cbn. destruct (String.eqb_spec y x) as [->|Hne].
    + cbn. by rewrite count_absent.
    + apply elem_of_cons in Hx as [->|Hx]; [done|]. by apply IH.
Qed.

Lemma values_ids_keys (d : odict paper) :
  Forall (fun kv => p_id (snd kv) = fst kv) d ->
  List.map p_id (od_values d) = od_keys d.
Proof.
  unfold od_values, od_keys. induction 1 as [|[k p] d Hkp _ IH]; [done|].
  cbn in *. by rewrite Hkp, IH.
Qed.

(** ** The older variant is the loop without a ledger *)

Lemma legacy_visit_sim (category : string) (st : crawl_state) (count : Z)
    (tr : list event) (r : result) :
  crawl_inv ∅ st ->
  Legacy.visit category (unique_papers st, count, tr) r
  = (unique_papers (fst (fst (visit category (st, count, tr) r))),
     snd (fst (visit category (st, count, tr) r)),
     snd (visit category (st, count, tr) r)).
Proof.
  intros (_ & _ & Hseen & _). unfold Legacy.visit, visit.
  case_bool_decide as Hin.
  - apply Hseen in Hin as [Hin|Hin]; [by apply not_elem_of_empty in Hin|].
    apply od_mem_true in Hin. by rewrite Hin.
  - destruct (od_mem (short_id r) (unique_papers st)); done.
Qed.

Lemma legacy_visit_fold_sim (category : string) (rs : list result)
    (st : crawl_state) (count : Z) (tr : list event) :
  crawl_inv ∅ st ->
  fold_left (Legacy.visit category) rs (unique_papers st, count, tr)
  = (unique_papers (fst (fst (fold_left (visit category) rs (st, count, tr)))),
     snd (fst (fold_left (visit category) rs (st, count, tr))),
     snd (fold_left (visit category) rs (st, count, tr))).
Proof.
  revert st count tr. induction rs as [|r rs IH]; intros st count tr Hinv; [done|].
  cbn [fold_left]. rewrite (legacy_visit_sim category st count tr r Hinv).
  pose proof (visit_facts ∅ category (st, count, tr) r Hinv) as (Hinv' & _ & _).
  destruct (visit category (st, count, tr) r) as [[st' count'] tr'].
  cbn [fst snd] in *. by apply IH.
Qed.

Lemma legacy_fetch_category_sim (up : upstream) (start_str end_str : string)
    (st : crawl_state) (category : string) :
  crawl_inv ∅ st ->
  Legacy.fetch_category up start_str end_str (unique_papers st) category
  = (unique_papers (fst (fetch_category up start_str end_str st category)),
     snd (fetch_category up start_str end_str st category)).
Proof.
  intros Hinv. unfold Legacy.fetch_category, fetch_category.
  rewrite (legacy_visit_fold_sim category _ st 0 [] Hinv).
  by destruct (fold_left (visit category) _ _) as [[st' count'] tr'].
Qed.

Lemma legacy_crawl_acc (up : upstream) (start_str end_str : string)
    (cats : list string) (d : odict paper) (tr0 : list event) :
  fold_left
    (fun acc category =>
       let '(d', tr') := Legacy.fetch_category up start_str end_str (fst acc) category in
       (d', snd acc ++ tr'))
    cats (d, tr0)
  = (fst (Legacy.crawl up start_str end_str cats d),
     tr0 ++ snd (Legacy.crawl up start_str end_str cats d)).
Proof.
  unfold Legacy.crawl. revert d tr0.
  induction cats as [|c cats IH]; intros d tr0; cbn [fold_left fst snd].
  - by rewrite app_nil_r.
  - destruct (Legacy.fetch_category up start_str end_str d c) as [d1 tr1].
    rewrite (IH d1 (tr0 ++ tr1)), (IH d1 ([] ++ tr1)). cbn [fst snd].
    by rewrite app_nil_l, app_assoc.
Qed.

Lemma legacy_crawl_sim (up : upstream) (start_str end_str : string)
    (cats : list string) (st : crawl_state) :
  crawl_inv ∅ st ->
  Legacy.crawl up start_str end_str cats (unique_papers st)
  = (unique_papers (fst (crawl up start_str end_str cats st)),
     snd (crawl up start_str end_str cats st)).
Proof.
  revert st. induction cats as [|c cats IH]; intros st Hinv; [done|].
  rewrite crawl_cons. unfold Legacy.crawl. cbn [fold_left fst snd].
  rewrite (legacy_fetch_category_sim up start_str end_str st c Hinv).
  rewrite legacy_crawl_acc, app_nil_l.
  destruct (fetch_category_facts ∅ up start_str end_str st c Hinv) as (Hinv' & _ & _).
  by rewrite (IH _ Hinv').
Qed.

(** ** Cross-category de-duplication *)

Lemma crawl_occurrences (seen0 : gset string) (up : upstream)
    (start_str end_str : string) (cats : list string) (pid : string) :
  returned_by_some up start_str end_str cats pid ->
  NoDup (List.map p_id
           (od_values (unique_papers
              (fst (crawl up start_str end_str cats (initial_state seen0))))))
  /\ occurrences pid
       (od_values (unique_papers
          (fst (crawl up start_str end_str cats (initial_state seen0)))))
     = if bool_decide (pid ∈ seen0) then 0%nat else 1%nat.
Proof.
  intros (c & Hc & Hpid).
  destruct (crawl_facts seen0 up start_str end_str cats _ (initial_state_inv seen0))
    as ((Hnd & Hid & Hseen & Hfresh) & _ & Hin).
  rewrite (values_ids_keys _ Hid), (occurrences_keys _ _ Hid).
  split; [done|].
  apply list_elem_of_In in Hc, Hpid. specialize (Hin c pid Hc Hpid).
  case_bool_decide as H0.
  - apply count_absent. intros Hk. by apply (Hfresh pid).
  - apply count_present_nodup; [done|].
    apply Hseen in Hin as [Hin|Hin]; done.
Qed.

(** Claim C5, as stated, fails: [r_0001] is returned by [cs] and by [math],
    its identifier is in the ledger the run loaded, and the collection holds
    it zero times. *)
Lemma cross_listed_seen_paper_is_absent :
  In "2406.0001v1"%string
    (returned_ids Examples.up_cross_listed "202406090000" "202406100000" "cs")
  /\ In "2406.0001v1"%string
       (returned_ids Examples.up_cross_listed "202406090000" "202406100000" "math")
  /\ occurrences "2406.0001v1"
       (od_values (unique_papers
          (fst (crawl Examples.up_cross_listed "202406090000" "202406100000"
                  CATEGORIES_TO_FETCH (initial_state {[ "2406.0001v1"%string ]})))))
     = 0%nat.
Proof. vm_compute. repeat split; by left. Qed.

(** Claim C5, as amended.  The identifiers of the collection are pairwise
    distinct, and an identifier returned by one or more categories occurs
    exactly once in it unless it was in the ledger loaded at run start, in
    which case it does not occur.  In the older variant, which has no ledger,
    it occurs exactly once. *)
Theorem cross_category_dedup (seen0 : gset string) (up : upstream)
    (start_str end_str : string) (pid : string) :
  returned_by_some up start_str end_str CATEGORIES_TO_FETCH pid ->
  NoDup (List.map p_id
           (od_values (unique_papers
              (fst (crawl up start_str end_str CATEGORIES_TO_FETCH
                      (initial_state seen0))))))
  /\ occurrences pid
       (od_values (unique_papers
          (fst (crawl up start_str end_str CATEGORIES_TO_FETCH
                  (initial_state seen0)))))
     = (if bool_decide (pid ∈ seen0) then 0%nat else 1%nat)
  /\ occurrences pid
       (od_values (fst (Legacy.crawl up start_str end_str CATEGORIES_TO_FETCH [])))
     = 1%nat.
Proof.
  intros Hret.
  destruct (crawl_occurrences seen0 up start_str end_str _ pid Hret) as [Hnd Hocc].
  split; [done|]. split; [done|].
  change (@nil (string * paper)) with (unique_papers (initial_state ∅)).
  rewrite (legacy_crawl_sim up start_str end_str _ _ (initial_state_inv ∅)).
  cbn [fst].
  destruct (crawl_occurrences ∅ up start_str end_str _ pid Hret) as [_ Hocc0].
  rewrite Hocc0. by rewrite bool_decide_eq_false_2 by apply not_elem_of_empty.
Qed.

Lemma cross_category_dedup_witness :
  NoDup (List.map p_id
           (od_values (unique_papers
              (fst (crawl Examples.up_cross_listed "202406090000" "202406100000"
                      CATEGORIES_TO_FETCH (initial_state Examples.empty_ledger))))))
  /\ occurrences "2406.0001v1"
       (od_values (unique_papers
          (fst (crawl Examples.up_cross_listed "202406090000" "202406100000"
                  CATEGORIES_TO_FETCH (initial_state Examples.empty_ledger)))))
     = (if bool_decide ("2406.0001v1"%string ∈ Examples.empty_ledger) then 0%nat else 1%nat)
  /\ occurrences "2406.0001v1"
       (od_values (fst (Legacy.crawl Examples.up_cross_listed
                          "202406090000" "202406100000" CATEGORIES_TO_FETCH [])))
     = 1%nat.
Proof.
  apply (cross_category_dedup Examples.empty_ledger Examples.up_cross_listed
           "202406090000" "202406100000" "2406.0001v1").
  exists "cs"%string. split; [by left | vm_compute; by left].
Defined.

(** ** The run *)

Section RunTheorems.
Context `{PyLib}.

Lemma run_window_eq (save_time : Z) (up : upstream) (output_file : option string)
    (wd : window) (w : world) :
  run_window save_time up output_file wd w
  = ({| CONFIG_FILE := CONFIG_FILE w;
        CRAWL_STATE_FILE := save_last_crawl_at (w_end_date wd);
        SEEN_IDS_FILE :=
          save_seen_state save_time (seen_ids (final_state up wd))
            match max_published_new (final_state up wd) with
            | Some t => Some t
            | None => w_latest_published_at wd
            end;
        output_files :=
          if (0 <? length (unique_papers (final_state up wd)))%nat
          then <[ output_path output_file (w_end_date wd) := collected up wd ]>
                 (output_files w)
          else output_files w |},
     group_start "Step 1 - fetch arXiv"
     ++ log (MsgWindow (strftime "%Y%m%d%H%M" (w_start_date wd))
               (strftime "%Y%m%d%H%M" (w_end_date wd)) (w_source_desc wd))
     ++ snd (crawl up (strftime "%Y%m%d%H%M" (w_start_date wd))
               (strftime "%Y%m%d%H%M" (w_end_date wd))
               CATEGORIES_TO_FETCH (initial_state (w_seen_ids wd)))
     ++ log (MsgAllDone (length (unique_papers (final_state up wd))))
     ++ (if (0 <? length (unique_papers (final_state up wd)))%nat
         then log (MsgSaved (output_path output_file (w_end_date wd)))
         else log MsgNoPapers)
     ++ group_end).
Proof.
  unfold run_window, collected, final_state.
  by destruct (crawl up _ _ CATEGORIES_TO_FETCH _) as [st tr].
Qed.

Lemma fetch_unfold (now save_time : Z) (up : upstream) (days : option Z)
    (output_file : option string) (w : world) (wd : window) (tr0 : list event) :
  resolve_window now days w = (Ok wd, tr0) ->
  fetch_all_domains_metadata_robust now save_time up days output_file w
  = (Ok (fst (run_window save_time up output_file wd w)),
     tr0 ++ snd (run_window save_time up output_file wd w)).
Proof.
  intros Hw. unfold fetch_all_domains_metadata_robust.
  unfold mbind, io_mbind, io_bind. by rewrite Hw.
Qed.

Lemma fetch_raises (now save_time : Z) (up : upstream) (days : option Z)
    (output_file : option string) (w : world) (e : exn) (tr0 : list event) :
  resolve_window now days w = (Raise e, tr0) ->
  fetch_all_domains_metadata_robust now save_time up days output_file w
  = (Raise e, tr0).
Proof.
  intros Hw. unfold fetch_all_domains_metadata_robust.
  unfold mbind, io_mbind, io_bind. by rewrite Hw.
Qed.

(** What a resolved window remembers of the loading. *)
Lemma resolve_window_inv (now : Z) (days : option Z) (w : world) (wd : window)
    (tr0 : list event) :
  resolve_window now days w = (Ok wd, tr0) ->
  load_seen_state (SEEN_IDS_FILE w)
    = Ok (w_seen_ids wd, w_latest_published_at wd)
  /\ w_end_date wd = now.
Proof.
  intros Hw. destruct (resolve_window_ok _ _ _ _ _ Hw) as (Hseen & _ & Hend & _).
  by split.
Qed.

Lemma run_window_drop_seen (save_time : Z) (up : upstream)
    (output_file : option string) (wd : window) (w : world) :
  run_window save_time (drop_seen (w_seen_ids wd) up) output_file wd w
  = run_window save_time up output_file wd w.
Proof.
  unfold run_window. by rewrite crawl_drop_seen.
Qed.

Lemma final_state_facts (up : upstream) (wd : window) :
  crawl_inv (w_seen_ids wd) (final_state up wd)
  /\ (forall category pid,
        category ∈ CATEGORIES_TO_FETCH ->
        pid ∈ returned_ids up (strftime "%Y%m%d%H%M" (w_start_date wd))
                (strftime "%Y%m%d%H%M" (w_end_date wd)) category ->
        pid ∈ seen_ids (final_state up wd)).
Proof.
  unfold final_state.
  destruct (crawl_facts (w_seen_ids wd) up (strftime "%Y%m%d%H%M" (w_start_date wd))
              (strftime "%Y%m%d%H%M" (w_end_date wd)) CATEGORIES_TO_FETCH _
              (initial_state_inv (w_seen_ids wd))) as (H1 & _ & H3).
  by split.
Qed.

Lemma collected_ids (up : upstream) (wd : window) :
  List.map p_id (collected up wd) = od_keys (unique_papers (final_state up wd)).
Proof.
  destruct (final_state_facts up wd) as [(_ & Hid & _) _].
  by apply values_ids_keys.
Qed.

Lemma collected_not_seen (up : upstream) (wd : window) (pid : string) :
  pid ∈ w_seen_ids wd -> pid ∉ List.map p_id (collected up wd).
Proof.
  intros Hpid Hin. rewrite collected_ids in Hin.
  destruct (final_state_facts up wd) as [(_ & _ & _ & Hfresh) _].
  by apply (Hfresh pid).
Qed.

(** Claim C1.  For a run that loaded the ledger [seen] and an identifier
    [pid] in it: no file the run writes holds a paper with that identifier,
    the collection of the run does not hold it, and the whole run (files, state
    and every printed count) is the run the upstream would have produced had
    it never returned a record whose identifier is in [seen]. *)
Theorem seen_ids_are_never_reemitted (now save_time : Z) (up : upstream)
    (days : option Z) (output_file : option string) (w : world)
    (seen : gset string) (latest : option Z) (pid : string) :
  load_seen_state (SEEN_IDS_FILE w) = Ok (seen, latest) ->
  pid ∈ seen ->
  (forall w' tr path papers,
      fetch_all_domains_metadata_robust now save_time up days output_file w
        = (Ok w', tr) ->
      output_files w' !! path = Some papers ->
      output_files w !! path = Some papers \/ pid ∉ List.map p_id papers)
  /\ (forall wd tr0,
        resolve_window now days w = (Ok wd, tr0) ->
        w_seen_ids wd = seen /\ pid ∉ List.map p_id (collected up wd))
  /\ fetch_all_domains_metadata_robust now save_time (drop_seen seen up)
       days output_file w
     = fetch_all_domains_metadata_robust now save_time up days output_file w.
Proof.
  intros Hload Hpid.
  assert (Hwd : forall wd tr0, resolve_window now days w = (Ok wd, tr0) ->
                w_seen_ids wd = seen).
  { intros wd tr0 Hw. apply resolve_window_inv in Hw as [Hw _].
    rewrite Hload in Hw. by injection Hw as -> _. }
  split; [|split].
  - intros w' tr path papers Hrun Hpath.
    destruct (resolve_window now days w) as [[wd|e] tr0] eqn:Hw.
    + rewrite (fetch_unfold _ _ _ _ _ _ _ _ Hw) in Hrun.
      injection Hrun as <- _. rewrite run_window_eq in Hpath. cbn [fst output_files] in Hpath.
      destruct (0 <? length (unique_papers (final_state up wd)))%nat; [|by left].
      rewrite lookup_insert in Hpath. case_decide; [|by left].
      injection Hpath as <-. right. apply collected_not_seen.
      by rewrite (Hwd wd tr0 eq_refl).
    + by rewrite (fetch_raises _ _ _ _ _ _ _ _ Hw) in Hrun.
  - intros wd tr0 Hw. split; [by eapply Hwd|].
    apply collected_not_seen. by rewrite (Hwd wd tr0 Hw).
  - destruct (resolve_window now days w) as [[wd|e] tr0] eqn:Hw.
    + rewrite !(fetch_unfold _ _ _ _ _ _ _ _ Hw).
      by rewrite <- (Hwd wd tr0 eq_refl), run_window_drop_seen.
    + by rewrite !(fetch_raises _ _ _ _ _ _ _ _ Hw).
Qed.

End RunTheorems.

Lemma seen_ids_are_never_reemitted_witness :
  (forall w' tr path papers,
      fetch_all_domains_metadata_robust Examples.t_0610 Examples.t_0610
        Examples.up_cross_listed (Some 1) None Examples.world_0001 = (Ok w', tr) ->
      output_files w' !! path = Some papers ->
      output_files Examples.world_0001 !! path = Some papers
      \/ "2406.0001v1"%string ∉ List.map p_id papers)
  /\ (forall wd tr0,
        resolve_window Examples.t_0610 (Some 1) Examples.world_0001 = (Ok wd, tr0) ->
        w_seen_ids wd = {[ "2406.0001v1"%string ]}
        /\ "2406.0001v1"%string ∉ List.map p_id (collected Examples.up_cross_listed wd))
  /\ fetch_all_domains_metadata_robust Examples.t_0610 Examples.t_0610
       (drop_seen {[ "2406.0001v1"%string ]} Examples.up_cross_listed) (Some 1) None
       Examples.world_0001
     = fetch_all_domains_metadata_robust Examples.t_0610 Examples.t_0610
         Examples.up_cross_listed (Some 1) None Examples.world_0001.
Proof.
  apply (seen_ids_are_never_reemitted Examples.t_0610 Examples.t_0610
           Examples.up_cross_listed (Some 1) None Examples.world_0001
           {[ "2406.0001v1"%string ]} (Some (Examples.t_0609_noon + 30000000))).
  - vm_compute. reflexivity.
  - apply elem_of_singleton. reflexivity.
Defined.

(** ** Failure of one category *)

Section StoreLemmas.
Context `{PyLib}.

Lemma persisted_ids_saved (save_time : Z) (seen : gset string) (latest : option Z) :
  persisted_ids (save_seen_state save_time seen latest)
  = List.map PStr (sorted_ids seen).
Proof.
  unfold persisted_ids, save_seen_state.
  rewrite lookup_insert_ne by done. rewrite lookup_insert_ne by done.
  by rewrite lookup_singleton_eq.
Qed.

Lemma elem_of_sorted_ids (seen : gset string) (k : string) :
  k ∈ sorted_ids seen <-> k ∈ seen.
Proof.
  unfold sorted_ids. rewrite merge_sort_Permutation. apply elem_of_elements.
Qed.

End StoreLemmas.

Section FailureTheorems.
Context `{PyLib}.

(** What a failing category prints last. *)
Lemma fetch_category_failure_trace (up : upstream) (start_str end_str : string)
    (st : crawl_state) (category err : string) :
  failure (up (make_query category start_str end_str)) = Some err ->
  exists tr,
    snd (fetch_category up start_str end_str st category)
    = tr ++ [EvLog (MsgError category err); EvSleep 5; EvGroupEnd].
Proof.
  intros Hfail. unfold fetch_category. rewrite Hfail.
  destruct (fold_left _ _ _) as [[st' count] tr]. cbn [snd].
  exists (group_start ("Fetch category: " ++ category) ++ log (MsgFetching category) ++ tr).
  unfold group_start, log, group_end. by rewrite <- !app_assoc.
Qed.

(** Claim C8.  Let a run have resolved its window, and let the query of
    category [c] raise after yielding some results.  The run completes; its
    trace shows the error line, a sleep of 5 and the end of the group,
    followed by the processing of every later category from the state
    reached; and every paper collected up to the failure (from the earlier
    categories and from [c] itself) is in the final collection, in the output
    file and, by its identifier, in the saved ledger. *)
Theorem category_failure_does_not_abort_run (now save_time : Z) (up : upstream)
    (days : option Z) (output_file : option string) (w : world) (wd : window)
    (tr0 : list event) (pre post : list string) (c err : string) :
  resolve_window now days w = (Ok wd, tr0) ->
  CATEGORIES_TO_FETCH = pre ++ c :: post ->
  failure (up (run_query wd c)) = Some err ->
  let start_str := strftime "%Y%m%d%H%M" (w_start_date wd) in
  let end_str := strftime "%Y%m%d%H%M" (w_end_date wd) in
  let st_pre := fst (crawl up start_str end_str pre (initial_state (w_seen_ids wd))) in
  let st_c := fst (fetch_category up start_str end_str st_pre c) in
  exists w' tr_before tr_after,
    fetch_all_domains_metadata_robust now save_time up days output_file w
      = (Ok w',
         tr_before
         ++ [EvLog (MsgError c err); EvSleep 5; EvGroupEnd]
         ++ snd (crawl up start_str end_str post st_c)
         ++ tr_after)
    /\ final_state up wd = fst (crawl up start_str end_str post st_c)
    /\ extends st_pre st_c
    /\ (forall p, p ∈ od_values (unique_papers st_c) ->
          p ∈ collected up wd
          /\ output_files w' !! output_path output_file now = Some (collected up wd)
          /\ PStr (p_id p) ∈ persisted_ids (SEEN_IDS_FILE w')).
Proof.
  intros Hw Hcats Hfail start_str end_str st_pre st_c.
  destruct (resolve_window_inv _ _ _ _ _ Hw) as [_ Hend].
  assert (Hinv_pre : crawl_inv (w_seen_ids wd) st_pre).
  { apply crawl_facts, initial_state_inv. }
  destruct (fetch_category_facts (w_seen_ids wd) up start_str end_str st_pre c Hinv_pre)
    as (Hinv_c & Hext_c & _).
  destruct (crawl_facts (w_seen_ids wd) up start_str end_str post st_c Hinv_c)
    as (_ & [[added Hadded] Hsub] & _).
  assert (Hfinal : final_state up wd = fst (crawl up start_str end_str post st_c)).
  { unfold final_state. fold start_str end_str.
    by rewrite Hcats, crawl_app, crawl_cons. }
  assert (Htrace : snd (crawl up start_str end_str CATEGORIES_TO_FETCH
                          (initial_state (w_seen_ids wd)))
                   = snd (crawl up start_str end_str pre (initial_state (w_seen_ids wd)))
                     ++ snd (fetch_category up start_str end_str st_pre c)
                     ++ snd (crawl up start_str end_str post st_c)).
  { by rewrite Hcats, crawl_app, crawl_cons. }
  destruct (fetch_category_failure_trace up start_str end_str st_pre c err Hfail)
    as [tr_c Htr_c].
  rewrite (fetch_unfold _ _ _ _ _ _ _ _ Hw), run_window_eq. cbn [fst snd].
  fold start_str end_str. rewrite Htrace, Htr_c.
  eexists _, (tr0 ++ group_start "Step 1 - fetch arXiv"
              ++ log (MsgWindow start_str end_str (w_source_desc wd))
              ++ snd (crawl up start_str end_str pre (initial_state (w_seen_ids wd)))
              ++ tr_c), _.
  split; [|split; [done|split; [done|]]].
  { f_equal. rewrite <- !app_assoc. reflexivity. }
  intros p Hp.
  assert (Hcol : p ∈ collected up wd).
  { unfold collected. rewrite Hfinal, Hadded, od_values_app.
    apply elem_of_app. by left. }
  split; [done|]. cbn [output_files SEEN_IDS_FILE]. split.
  - assert (Hpos : (0 <? length (unique_papers (final_state up wd)))%nat = true).
    { apply Nat.ltb_lt. unfold collected, od_values in Hcol.
      destruct (unique_papers (final_state up wd)); cbn; [|lia].
      by apply elem_of_nil in Hcol. }
    rewrite Hpos, Hend. apply lookup_insert_eq.
  - rewrite persisted_ids_saved. apply list_elem_of_In, in_map, list_elem_of_In.
    apply elem_of_sorted_ids. rewrite Hfinal. apply Hsub.
    destruct Hinv_c as (_ & Hid & Hseen & _). apply Hseen. right.
    rewrite <- (values_ids_keys _ Hid).
    apply list_elem_of_In, in_map, list_elem_of_In. exact Hp.
Qed.

End FailureTheorems.

Lemma category_failure_does_not_abort_run_witness :
  let start_str := strftime "%Y%m%d%H%M" (w_start_date Examples.first_window) in
  let end_str := strftime "%Y%m%d%H%M" (w_end_date Examples.first_window) in
  let st_pre := fst (crawl Examples.up_math_fails start_str end_str ["cs"%string]
                       (initial_state (w_seen_ids Examples.first_window))) in
  let st_c := fst (fetch_category Examples.up_math_fails start_str end_str st_pre "math") in
  exists w' tr_before tr_after,
    fetch_all_domains_metadata_robust Examples.t_0610 Examples.t_0610
      Examples.up_math_fails (Some 1) None Examples.no_files
      = (Ok w',
         tr_before
         ++ [EvLog (MsgError "math" "HTTP 429"); EvSleep 5; EvGroupEnd]
         ++ snd (crawl Examples.up_math_fails start_str end_str
                   ["stat"; "q-bio"; "q-fin"; "eess"; "econ"; "physics"; "cond-mat";
                    "hep-ph"; "hep-th"; "gr-qc"; "astro-ph"]%string st_c)
         ++ tr_after)
    /\ final_state Examples.up_math_fails Examples.first_window
       = fst (crawl Examples.up_math_fails start_str end_str
                ["stat"; "q-bio"; "q-fin"; "eess"; "econ"; "physics"; "cond-mat";
                 "hep-ph"; "hep-th"; "gr-qc"; "astro-ph"]%string st_c)
    /\ extends st_pre st_c
    /\ (forall p, p ∈ od_values (unique_papers st_c) ->
          p ∈ collected Examples.up_math_fails Examples.first_window
          /\ output_files w' !! output_path None Examples.t_0610
             = Some (collected Examples.up_math_fails Examples.first_window)
          /\ PStr (p_id p) ∈ persisted_ids (SEEN_IDS_FILE w')).
Proof.
  apply (category_failure_does_not_abort_run Examples.t_0610 Examples.t_0610
           Examples.up_math_fails (Some 1) None Examples.no_files
           Examples.first_window [] ["cs"%string]
           ["stat"; "q-bio"; "q-fin"; "eess"; "econ"; "physics"; "cond-mat";
            "hep-ph"; "hep-th"; "gr-qc"; "astro-ph"]%string "math" "HTTP 429").
  - vm_compute. reflexivity.
  - reflexivity.
  - vm_compute. reflexivity.
Defined.

(** ** Where identifiers of the ledger come from, and runs that find nothing *)

Lemma visit_fold_seen_origin (category : string) (rs : list result)
    (acc : crawl_state * Z * list event) (k : string) :
  k ∈ seen_ids (fst (fst (fold_left (visit category) rs acc))) ->
  k ∈ seen_ids (fst (fst acc)) \/ k ∈ List.map short_id rs.
Proof.
  revert acc. induction rs as [|r rs IH]; intros acc Hk; [by left|].
  cbn [fold_left] in Hk. apply IH in Hk as [Hk|Hk].
  - destruct acc as [[st count] tr]. unfold visit in Hk. cbn [fst] in *.
    case_bool_decide; [by left|].
    destruct (od_mem _ _); [by left|]. cbn in Hk.
    apply elem_of_union in Hk as [Hk|Hk]; [|by left].
    apply elem_of_singleton in Hk. subst. right. by left.
  - right. by right.
Qed.

Lemma crawl_seen_origin (up : upstream) (start_str end_str : string)
    (cats : list string) (st : crawl_state) (k : string) :
  k ∈ seen_ids (fst (crawl up start_str end_str cats st)) ->
  k ∈ seen_ids st
  \/ exists category, category ∈ cats /\ k ∈ returned_ids up start_str end_str category.
Proof.
  revert st. induction cats as [|c cats IH]; intros st Hk; [by left|].
  rewrite crawl_cons in Hk. cbn [fst] in Hk. apply IH in Hk as [Hk|(c' & Hc' & Hk)].
  - rewrite fetch_category_state in Hk.
    apply visit_fold_seen_origin in Hk as [Hk|Hk]; [by left|].
    right. exists c. split; [by left|done].
  - right. exists c'. split; [by right|done].
Qed.

Lemma visit_fold_all_seen (category : string) (rs : list result)
    (acc : crawl_state * Z * list event) :
  (forall r, r ∈ rs -> short_id r ∈ seen_ids (fst (fst acc))) ->
  fold_left (visit category) rs acc = acc.
Proof.
  induction rs as [|r rs IH]; intros Hall; [done|]. cbn [fold_left].
  assert (Hskip : visit category acc r = acc).
  { destruct acc as [[st count] tr]. unfold visit.
    rewrite bool_decide_eq_true_2; [done|]. apply Hall. by left. }
  rewrite Hskip. apply IH. intros r' Hr'. apply Hall. by right.
Qed.

Lemma fetch_category_all_seen (up : upstream) (start_str end_str : string)
    (st : crawl_state) (category : string) :
  (forall pid, pid ∈ returned_ids up start_str end_str category -> pid ∈ seen_ids st) ->
  fst (fetch_category up start_str end_str st category) = st.
Proof.
  intros Hall. rewrite fetch_category_state, visit_fold_all_seen; [done|].
  intros r Hr. apply Hall. unfold returned_ids.
  apply list_elem_of_In, in_map, list_elem_of_In. exact Hr.
Qed.

Lemma crawl_all_seen (up : upstream) (start_str end_str : string)
    (cats : list string) (st : crawl_state) :
  (forall category pid, category ∈ cats ->
     pid ∈ returned_ids up start_str end_str category -> pid ∈ seen_ids st) ->
  fst (crawl up start_str end_str cats st) = st.
Proof.
  induction cats as [|c cats IH]; intros Hall; [done|].
  rewrite crawl_cons. cbn [fst].
  rewrite fetch_category_all_seen by (intros pid; apply Hall; by left).
  apply IH. intros c' pid Hc'. apply Hall. by right.
Qed.



Section ReloadTheorems.
Context `{PyLib}.

Lemma saved_lookup_ids (a b c : pyval) :
  (<[ "updated_at"%string := a ]>
     (<[ "latest_published_at"%string := b ]>
        ({[ "ids"%string := c ]} : gmap string pyval)))
    !! "ids"%string = Some c.
Proof.
  rewrite lookup_insert_ne by done. rewrite lookup_insert_ne by done.
  apply lookup_singleton_eq.
Qed.

Lemma saved_lookup_latest (a b c : pyval) :
  (<[ "updated_at"%string := a ]>
     (<[ "latest_published_at"%string := b ]>
        ({[ "ids"%string := c ]} : gmap string pyval)))
    !! "latest_published_at"%string = Some b.
Proof.
  rewrite lookup_insert_ne by done. apply lookup_insert_eq.
Qed.

(** The saved ledger is a mapping, so loading it never raises; clean
    identifiers come back as they were saved. *)
Lemma load_saved_seen_ids (save_time : Z) (seen : gset string) (latest : option Z) :
  (forall pid, pid ∈ seen -> clean_id pid) ->
  exists latest',
    load_seen_state (save_seen_state save_time seen latest) = Ok (seen, latest').
Proof.
  intros Hclean. unfold load_seen_state, save_seen_state.
  rewrite py_or_dict. cbn [dict_get].
  rewrite saved_lookup_ids, saved_lookup_latest.
  unfold mbind, outcome_bind, Py.bind. simpl default.
  eexists. f_equal. f_equal.
  assert (Hl : match py_or (PList (List.map PStr (sorted_ids seen))) (PList []) with
               | PList l => l
               | _ => []
               end = List.map PStr (sorted_ids seen)).
  { unfold py_or. cbn [truthy]. by destruct (List.map PStr (sorted_ids seen)). }
  rewrite Hl. apply set_eq. intros k.
  rewrite elem_of_list_to_set, list_elem_of_In, filter_In, List.map_map, in_map_iff.
  cbn [py_str]. split.
  - intros [(k' & <- & Hk') _].
    apply list_elem_of_In, elem_of_sorted_ids in Hk'.
    destruct (Hclean k' Hk') as [-> _]. done.
  - intros Hk. destruct (Hclean k Hk) as [Hstrip Hne]. split; [|done].
    exists k. split; [done|]. by apply list_elem_of_In, elem_of_sorted_ids.
Qed.

Lemma load_saved_seen_state (save_time : Z) (seen : gset string) (latest : option Z) :
  (forall pid, pid ∈ seen -> clean_id pid) ->
  (forall t, latest = Some t -> roundtrips t) ->
  strip "" = ""%string ->
  load_seen_state (save_seen_state save_time seen latest) = Ok (seen, latest).
Proof.
  intros Hclean Hrt Hempty.
  destruct (load_saved_seen_ids save_time seen latest Hclean) as [latest' Hload].
  rewrite Hload. f_equal. f_equal.
  unfold load_seen_state, save_seen_state in Hload.
  rewrite py_or_dict in Hload. cbn [dict_get] in Hload.
  rewrite saved_lookup_ids, saved_lookup_latest in Hload.
  unfold mbind, outcome_bind, Py.bind in Hload. simpl default in Hload.
  injection Hload as _ <-.
  destruct latest as [t|].
  - destruct (Hrt t eq_refl) as [Hne Hparse].
    assert (Hstr : strip (py_str (py_or (PStr (isoformat t)) (PStr "")))
                   = strip (isoformat t)).
    { unfold py_or. cbn [truthy].
      destruct (str_nonempty (isoformat t)) eqn:Hiso; [reflexivity|].
      destruct (isoformat t); [reflexivity|discriminate]. }
    by rewrite Hstr, Hne, Hparse.
  - unfold py_or. cbn [truthy str_nonempty py_str]. by rewrite Hempty.
Qed.

(** The days window resolves the same way in two worlds with the same
    configuration file. *)
Lemma resolve_window_days (now : Z) (days : option Z) (w : world) (wd : window)
    (tr0 : list event) :
  resolve_window now days w = (Ok wd, tr0) ->
  match days with
  | None => resolve_days_window 1 (CONFIG_FILE w)
  | Some d => io_ret d
  end = (Ok (w_days wd), tr0).
Proof.
  intros Hw. by destruct (resolve_window_ok _ _ _ _ _ Hw) as (_ & Hdays & _).
Qed.

End ReloadTheorems.

(** ** Two runs in succession *)

Section TwoRuns.
Context `{PyLib}.

Lemma final_state_ids_clean (up : upstream) (wd : window) :
  (forall pid, pid ∈ w_seen_ids wd -> clean_id pid) ->
  (forall category pid,
     category ∈ CATEGORIES_TO_FETCH ->
     pid ∈ returned_ids up (strftime "%Y%m%d%H%M" (w_start_date wd))
             (strftime "%Y%m%d%H%M" (w_end_date wd)) category ->
     clean_id pid) ->
  forall pid, pid ∈ seen_ids (final_state up wd) -> clean_id pid.
Proof.
  intros Hledger Hup pid Hpid. unfold final_state in Hpid.
  apply crawl_seen_origin in Hpid as [Hpid|(c & Hc & Hpid)].
  - by apply Hledger.
  - by apply (Hup c).
Qed.

Lemma load_saved_last_crawl_ok (t : Z) :
  exists last, load_last_crawl_at (save_last_crawl_at t) = Ok last.
Proof.
  unfold save_last_crawl_at.
  destruct (load_mapping_ok {[ "last_crawl_at"%string := PStr (isoformat t) ]})
    as [_ Hok].
  destruct (load_last_crawl_at _) as [last|e]; [by exists last|done].
Qed.

(** The trace of a run that collected nothing. *)
Lemma run_window_nothing (save_time : Z) (up : upstream) (output_file : option string)
    (wd : window) (w : world) :
  collected up wd = [] ->
  output_files (fst (run_window save_time up output_file wd w)) = output_files w
  /\ EvLog (MsgAllDone 0) ∈ snd (run_window save_time up output_file wd w)
  /\ EvLog MsgNoPapers ∈ snd (run_window save_time up output_file wd w).
Proof.
  intros Hnil. rewrite run_window_eq. cbn [fst snd output_files].
  assert (Hlen : length (unique_papers (final_state up wd)) = 0%nat).
  { unfold collected, od_values in Hnil.
    by destruct (unique_papers (final_state up wd)). }
  rewrite Hlen. cbn [Nat.ltb Nat.leb]. split; [done|].
  unfold group_start, log, group_end.
  split; rewrite !elem_of_app; do 3 right; [left|right; left]; by left.
Qed.

(** Claim C6, as amended.  Let a first run complete at [now], a
    [datetime], on a ledger and an upstream whose identifiers are clean
    (unchanged by [strip], not empty), and let a second run start at the same
    [now] from the world the first one left, the upstream answering the
    second run's queries as it answered the first run's.  The second run
    completes, every identifier the upstream returns is in the ledger it
    loaded, its collection is empty, it writes no output file and it reports
    zero papers. *)
Theorem second_run_emits_nothing (now save1 save2 : Z) (up : upstream)
    (days : option Z) (out1 out2 : option string) (w : world) (wd1 : window)
    (tr0 : list event) :
  is_datetime now = true ->
  resolve_window now days w = (Ok wd1, tr0) ->
  (forall pid, pid ∈ w_seen_ids wd1 -> clean_id pid) ->
  (forall category pid,
     category ∈ CATEGORIES_TO_FETCH ->
     pid ∈ returned_ids up (strftime "%Y%m%d%H%M" (w_start_date wd1))
             (strftime "%Y%m%d%H%M" (w_end_date wd1)) category ->
     clean_id pid) ->
  (forall wd2 tr,
     resolve_window now days (fst (run_window save1 up out1 wd1 w)) = (Ok wd2, tr) ->
     forall category, category ∈ CATEGORIES_TO_FETCH ->
       up (run_query wd2 category) = up (run_query wd1 category)) ->
  exists w1 w2 wd2 tr1 tr2,
    fetch_all_domains_metadata_robust now save1 up days out1 w = (Ok w1, tr1)
    /\ fetch_all_domains_metadata_robust now save2 up days out2 w1 = (Ok w2, tr2)
    /\ resolve_window now days w1 = (Ok wd2, tr0)
    /\ w_seen_ids wd2 = seen_ids (final_state up wd1)
    /\ (forall category pid,
          category ∈ CATEGORIES_TO_FETCH ->
          pid ∈ returned_ids up (strftime "%Y%m%d%H%M" (w_start_date wd2))
                  (strftime "%Y%m%d%H%M" (w_end_date wd2)) category ->
          pid ∈ w_seen_ids wd2)
    /\ collected up wd2 = []
    /\ output_files w2 = output_files w1
    /\ EvLog (MsgAllDone 0) ∈ tr2
    /\ EvLog MsgNoPapers ∈ tr2.
Proof.
  intros Hnow Hw Hledger Hup Hsame.
  assert (Hrep : window_representable now (w_days wd1)).
  { destruct (resolve_window_ok _ _ _ _ _ Hw) as (_ & _ & _ & _ & Hrep & _).
    by apply Hrep. }
  set (w1 := fst (run_window save1 up out1 wd1 w)) in *.
  assert (Hseen_file : SEEN_IDS_FILE w1
            = save_seen_state save1 (seen_ids (final_state up wd1))
                match max_published_new (final_state up wd1) with
                | Some t => Some t
                | None => w_latest_published_at wd1
                end).
  { unfold w1. by rewrite run_window_eq. }
  assert (Hcrawl_file : CRAWL_STATE_FILE w1 = save_last_crawl_at (w_end_date wd1)).
  { unfold w1. by rewrite run_window_eq. }
  assert (Hconfig : CONFIG_FILE w1 = CONFIG_FILE w).
  { unfold w1. by rewrite run_window_eq. }
  destruct (load_saved_seen_ids save1 (seen_ids (final_state up wd1))
              match max_published_new (final_state up wd1) with
              | Some t => Some t
              | None => w_latest_published_at wd1
              end (final_state_ids_clean up wd1 Hledger Hup)) as [latest2 Hload2].
  rewrite <- Hseen_file in Hload2.
  destruct (load_saved_last_crawl_ok (w_end_date wd1)) as [last2 Hlast2].
  rewrite <- Hcrawl_file in Hlast2.
  pose proof (resolve_window_days _ _ _ _ _ Hw) as Hdays.
  rewrite <- Hconfig in Hdays.
  destruct (resolve_window_loaded now days w1 _ latest2 last2 _ tr0
              Hload2 Hdays (fun _ => Hlast2) Hrep) as [src Hw2].
  set (wd2 := {| w_seen_ids := seen_ids (final_state up wd1);
                 w_latest_published_at := latest2 |}) in Hw2.
  assert (Hreturned : forall category pid,
            category ∈ CATEGORIES_TO_FETCH ->
            pid ∈ returned_ids up (strftime "%Y%m%d%H%M" (w_start_date wd2))
                    (strftime "%Y%m%d%H%M" (w_end_date wd2)) category ->
            pid ∈ w_seen_ids wd2).
  { intros c pid Hc Hpid. unfold returned_ids in Hpid.
    change (make_query c _ _) with (run_query wd2 c) in Hpid.
    rewrite (Hsame wd2 tr0 Hw2 c Hc) in Hpid.
    destruct (final_state_facts up wd1) as [_ Hin]. by apply (Hin c). }
  assert (Hnil : collected up wd2 = []).
  { unfold collected, final_state. rewrite crawl_all_seen; [done|].
    intros c pid Hc Hpid. by apply (Hreturned c). }
  destruct (run_window_nothing save2 up out2 wd2 w1 Hnil) as (Hout & Hdone & Hwarn).
  exists w1, (fst (run_window save2 up out2 wd2 w1)), wd2,
    (tr0 ++ snd (run_window save1 up out1 wd1 w)),
    (tr0 ++ snd (run_window save2 up out2 wd2 w1)).
  split; [by apply fetch_unfold|]. split; [by apply fetch_unfold|].
  split; [done|]. split; [done|]. split; [done|]. split; [done|]. split; [done|].
  split; apply elem_of_app; by right.
Qed.


End TwoRuns.

(** ** Closed instances *)

(** The first scenario of the specification: empty ledger, [days_window=3],
    now 2024-06-10T00:00Z, one paper listed under [cs] and [math]. *)
Example scenario_cross_listed :
  start_of (resolve_window Examples.t_0610 None Examples.world_three_days)
    = Some (RefLib.days_from_civil 2024 6 7 * 86400000000)
  /\ exists w' tr,
       fetch_all_domains_metadata_robust Examples.t_0610 Examples.t_0610
         Examples.up_cross_listed None None Examples.world_three_days = (Ok w', tr)
       /\ output_files w' !! "archive/20240610/raw/arxiv_papers_20240610.json"%string
          = Some [paper_dict Examples.r_0001]
       /\ persisted_ids (SEEN_IDS_FILE w') = [PStr "2406.0001v1"].
Proof.
  split; [vm_compute; reflexivity|].
  eexists _, _. split; [vm_compute; reflexivity|].
  vm_compute. repeat split.
Qed.

(** The second scenario: [latest_published_at] within one day of now is
    not clamped. *)
Example scenario_not_clamped :
  start_of (resolve_window Examples.t_0610 (Some 1) Examples.world_latest_noon)
    = Some Examples.t_0609_noon.
Proof. vm_compute. reflexivity. Qed.

(** A section that is a scalar makes [resolve_days_window] raise. *)
Example scalar_section_raises :
  fst (resolve_days_window 1
         (ConfigData (PDict {[ "arxiv_paper_setting"%string := PInt 5 ]})))
    = Raise AttributeError.
Proof. vm_compute. reflexivity. Qed.

Lemma resolve_days_window_amended_witness :
  exists days,
    fst (resolve_days_window 7 Examples.config_crawler_three) = Ok days
    /\ 0 < days
    /\ (looked_up_days_window Examples.config_crawler_three = PNone ->
        days = Z.max 7 1)
    /\ (forall e, py_int (looked_up_days_window Examples.config_crawler_three) = Raise e ->
        days = Z.max 7 1)
    /\ (forall d, py_int (looked_up_days_window Examples.config_crawler_three) = Ok d ->
        days = Z.max d 1)
    /\ (forall d, py_int (looked_up_days_window Examples.config_crawler_three) = Ok d ->
        d <= 0 -> days = 1).
Proof.
  apply (resolve_days_window_amended 7 Examples.config_crawler_three).
  - vm_compute. exact I.
  - vm_compute. exact I.
Defined.

(** Claim C4, as stated, fails: with [arxiv_paper_setting.days_window = 0]
    and a default of 7 the result is 1, not [max 7 1]. *)
Lemma nonpositive_days_window_is_not_defaulted :
  py_int (looked_up_days_window Examples.config_zero_days) = Ok 0
  /\ fst (resolve_days_window 7 Examples.config_zero_days) = Ok 1
  /\ fst (resolve_days_window 7 Examples.config_zero_days) <> Ok (Z.max 7 1).
Proof. vm_compute. repeat split. discriminate. Qed.

Lemma paper_key_shadows_crawler_key_witness :
  fst (resolve_days_window 7 (ConfigData (PDict Examples.config_bad_paper_key))) =
    Ok (match py_int (PStr "soon") with
        | Ok d => Z.max d 1
        | Raise _ => Z.max 7 1
        end)
  /\ (forall e, py_int (PStr "soon") = Raise e ->
      fst (resolve_days_window 7 (ConfigData (PDict Examples.config_bad_paper_key)))
      = Ok (Z.max 7 1)).
Proof.
  apply (paper_key_shadows_crawler_key 7 Examples.config_bad_paper_key
           {[ "days_window"%string := PStr "soon" ]} (PStr "soon")).
  - vm_compute. reflexivity.
  - vm_compute. reflexivity.
  - discriminate.
Defined.

(** Claim C3, the failing input.  The ledger holds [2406.0001v1] with
    [latest_published_at] 2024-06-09T12:00:30Z; at 2024-06-10T00:00Z the
    query window starts in minute 12:00 of 2024-06-09 and [cs] returns the
    unseen [2406.0002v1], published 12:00:10Z.  The run emits it and saves
    12:00:10Z as [latest_published_at]: less than the value saved before, and
    not the maximum over the two papers emitted so far. *)
Theorem persisted_latest_can_decrease :
  persisted_latest Examples.world_0001 = Some (Examples.t_0609_noon + 30000000)
  /\ strftime "%Y%m%d%H%M" (w_start_date Examples.window_0001) = "202406091200"%string
  /\ exists w' tr,
       fetch_all_domains_metadata_robust Examples.t_0610 Examples.t_0610
         Examples.up_cs_0002 (Some 1) None Examples.world_0001 = (Ok w', tr)
       /\ output_files w' !! "archive/20240610/raw/arxiv_papers_20240610.json"%string
          = Some [paper_dict Examples.r_0002]
       /\ persisted_ids (SEEN_IDS_FILE w') = [PStr "2406.0001v1"; PStr "2406.0002v1"]
       /\ persisted_latest w' = Some (Examples.t_0609_noon + 10000000).
Proof.
  split; [vm_compute; reflexivity|]. split; [vm_compute; reflexivity|].
  eexists _, _. split; [vm_compute; reflexivity|].
  vm_compute. repeat split.
Qed.

(** Claim C6, as stated, fails.  The upstream holds one paper, submitted
    2024-06-09T23:59:45Z, and the last-run marker is 2024-06-10T00:00:20Z.
    The run at 00:00:30Z starts from the marker, queries minute 00:00 to
    minute 00:00 and collects nothing.  The second run, at the same instant
    and against the same upstream, reads the marker the first one saved, which
    is not before now, so its start is forced to one minute before now: it
    queries from minute 23:59 and emits the paper. *)
Lemma second_run_can_emit :
  exists w1 tr1 w2 tr2,
    fetch_all_domains_metadata_robust (Examples.t_0610 + 30000000)
      (Examples.t_0610 + 30000000) Examples.up_minute_before (Some 1) None
      Examples.world_marker_20s = (Ok w1, tr1)
    /\ start_of (resolve_window (Examples.t_0610 + 30000000) (Some 1)
                   Examples.world_marker_20s)
       = Some (Examples.t_0610 + 20000000)
    /\ run_query Examples.window_marker_20s "cs"
       = "cat:cs* AND submittedDate:[202406100000 TO 202406100000]"%string
    /\ output_files w1 = ∅
    /\ persisted_ids (SEEN_IDS_FILE w1) = []
    /\ fetch_all_domains_metadata_robust (Examples.t_0610 + 30000000)
         (Examples.t_0610 + 30000000) Examples.up_minute_before (Some 1) None
         w1 = (Ok w2, tr2)
    /\ start_of (resolve_window (Examples.t_0610 + 30000000) (Some 1) w1)
       = Some (Examples.t_0610 - 30000000)
    /\ output_files w2 !! "archive/20240610/raw/arxiv_papers_20240610.json"%string
       = Some [paper_dict Examples.r_0009]
    /\ persisted_ids (SEEN_IDS_FILE w2) = [PStr "2406.0009v1"].
Proof.
  eexists _, _, _, _. split; [vm_compute; reflexivity|].
  split; [vm_compute; reflexivity|]. split; [vm_compute; reflexivity|].
  split; [vm_compute; reflexivity|]. split; [vm_compute; reflexivity|].
  split; [vm_compute; reflexivity|]. split; [vm_compute; reflexivity|].
  split; vm_compute; reflexivity.
Qed.

Lemma second_run_emits_nothing_witness :
  exists w1 w2 wd2 tr1 tr2,
    fetch_all_domains_metadata_robust Examples.t_0610 Examples.t_0610
      Examples.up_cross_listed (Some 1) None Examples.no_files = (Ok w1, tr1)
    /\ fetch_all_domains_metadata_robust Examples.t_0610 Examples.t_0610
         Examples.up_cross_listed (Some 1) None w1 = (Ok w2, tr2)
    /\ resolve_window Examples.t_0610 (Some 1) w1 = (Ok wd2, [])
    /\ w_seen_ids wd2
       = seen_ids (final_state Examples.up_cross_listed Examples.first_window)
    /\ (forall category pid,
          category ∈ CATEGORIES_TO_FETCH ->
          pid ∈ returned_ids Examples.up_cross_listed
                  (strftime "%Y%m%d%H%M" (w_start_date wd2))
                  (strftime "%Y%m%d%H%M" (w_end_date wd2)) category ->
          pid ∈ w_seen_ids wd2)
    /\ collected Examples.up_cross_listed wd2 = []
    /\ output_files w2 = output_files w1
    /\ EvLog (MsgAllDone 0) ∈ tr2
    /\ EvLog MsgNoPapers ∈ tr2.
Proof.
  apply (second_run_emits_nothing Examples.t_0610 Examples.t_0610 Examples.t_0610
           Examples.up_cross_listed (Some 1) None None Examples.no_files
           Examples.first_window []).
  - vm_compute. reflexivity.
  - vm_compute. reflexivity.
  - intros pid Hpid. by apply not_elem_of_empty in Hpid.
  - intros c pid Hc Hpid. unfold CATEGORIES_TO_FETCH in Hc.
    repeat (apply elem_of_cons in Hc as [->|Hc]);
      try (by apply elem_of_nil in Hc);
      vm_compute in Hpid;
      try (by apply elem_of_nil in Hpid);
      apply list_elem_of_singleton in Hpid; subst pid; split; reflexivity.
  - intros wd2 tr _ c Hc. unfold CATEGORIES_TO_FETCH in Hc.
    repeat (apply elem_of_cons in Hc as [->|Hc]);
      try (by apply elem_of_nil in Hc); reflexivity.
Defined.



(** * Further properties *)

Set Warnings "-clear-no-such-hyp".

(** ** What the loop emits *)

Lemma fresh_app (seen : gset string) (l1 l2 : list result) :
  fresh seen (l1 ++ l2)
  = fresh seen l1
    ++ fresh (list_to_set (List.map short_id (fresh seen l1)) ∪ seen) l2.
Proof.
  revert seen. induction l1 as [|r l1 IH]; intros seen; cbn [app fresh].
  - cbn. f_equal. apply set_eq. set_solver.
  - case_bool_decide as Hin; [apply IH|].
    cbn [app List.map list_to_set]. f_equal. rewrite IH. f_equal. f_equal.
    apply set_eq. set_solver.
Qed.

Lemma fresh_not_seen (seen : gset string) (rs : list result) (r : result) :
  r ∈ fresh seen rs -> r ∈ rs /\ short_id r ∉ seen.
Proof.
  revert seen. induction rs as [|r0 rs IH]; intros seen Hr; cbn [fresh] in Hr.
  - by apply elem_of_nil in Hr.
  - case_bool_decide as Hin.
    + destruct (IH _ Hr) as [H1 H2]. split; [by right|done].
    + apply elem_of_cons in Hr as [->|Hr]; [split; [by left|done]|].
      destruct (IH _ Hr) as [H1 H2]. split; [by right|]. set_solver.
Qed.

Lemma fresh_ids_nodup (seen : gset string) (rs : list result) :
  NoDup (List.map short_id (fresh seen rs)).
Proof.
  revert seen. induction rs as [|r rs IH]; intros seen; cbn [fresh].
  - constructor.
  - case_bool_decide as Hin; [apply IH|]. cbn [List.map]. constructor; [|apply IH].
    intros Hr. apply list_elem_of_In, in_map_iff in Hr as (r' & Hid & Hr').
    apply list_elem_of_In, fresh_not_seen in Hr' as [_ Hr']. set_solver.
Qed.

(** The first result of a stream with a given identifier is emitted when
    the identifier is not in the ledger. *)
Lemma fresh_first (seen : gset string) (l1 l2 : list result) (r : result) :
  short_id r ∉ seen ->
  short_id r ∉ List.map short_id l1 ->
  r ∈ fresh seen (l1 ++ r :: l2).
Proof.
  intros Hseen Hl1. rewrite fresh_app. apply elem_of_app. right.
  cbn [fresh]. rewrite bool_decide_eq_false_2; [by left|].
  intros Hin. apply elem_of_union in Hin as [Hin|Hin]; [|done].
  apply elem_of_list_to_set in Hin.
  apply list_elem_of_In, in_map_iff in Hin as (r' & Hid & Hr').
  apply list_elem_of_In, fresh_not_seen in Hr' as [Hr' _].
  apply Hl1. rewrite <- Hid. apply list_elem_of_In, in_map, list_elem_of_In. exact Hr'.
Qed.

(** The state and the count after a category's results, in closed form. *)
Lemma visit_fold_fresh (category : string) (rs : list result) (st : crawl_state)
    (count : Z) (tr : list event) :
  (forall k, k ∈ od_keys (unique_papers st) -> k ∈ seen_ids st) ->
  fold_left (visit category) rs (st, count, tr)
  = ({| unique_papers :=
          unique_papers st ++ List.map entry (fresh (seen_ids st) rs);
        seen_ids :=
          list_to_set (List.map short_id (fresh (seen_ids st) rs)) ∪ seen_ids st;
        max_published_new :=
          fold_left update_max (List.map published (fresh (seen_ids st) rs))
            (max_published_new st) |},
     count + Z.of_nat (length (fresh (seen_ids st) rs)),
     tr ++ progress_lines category count (length (fresh (seen_ids st) rs))).
Proof.
  revert st count tr. induction rs as [|r rs IH]; intros st count tr Hkeys.
  - cbn. rewrite !app_nil_r, Z.add_0_r. destruct st as [d s m]; cbn.
    f_equal. f_equal. f_equal. apply set_eq. set_solver.
  - cbn [fold_left fresh]. unfold visit at 2.
    case_bool_decide as Hin; [by apply IH|].
    assert (Hmem : od_mem (short_id r) (unique_papers st) = false).
    { apply od_mem_false. intros Hk. by apply Hin, Hkeys. }
    rewrite Hmem, (od_set_fresh _ _ _ Hmem). rewrite IH.
    + cbn [unique_papers seen_ids max_published_new List.map fold_left length
             progress_lines].
      rewrite <- !app_assoc. cbn [app].
      assert (Hset : list_to_set
                       (List.map short_id (fresh ({[short_id r]} ∪ seen_ids st) rs))
                     ∪ ({[short_id r]} ∪ seen_ids st)
                     = list_to_set
                         (short_id r
                          :: List.map short_id (fresh ({[short_id r]} ∪ seen_ids st) rs))
                       ∪ seen_ids st).
      { apply set_eq. set_solver. }
      rewrite Hset. f_equal. f_equal. lia.
    + cbn [unique_papers seen_ids]. intros k Hk.
      rewrite od_keys_app in Hk. apply elem_of_app in Hk as [Hk|Hk].
      * apply elem_of_union_r. by apply Hkeys.
      * apply list_elem_of_singleton in Hk. subst. apply elem_of_union_l.
        by apply elem_of_singleton.
Qed.

Lemma fetch_category_fresh (up : upstream) (start_str end_str : string)
    (st : crawl_state) (category : string) :
  (forall k, k ∈ od_keys (unique_papers st) -> k ∈ seen_ids st) ->
  let rs := fresh (seen_ids st) (yielded (up (make_query category start_str end_str))) in
  fetch_category up start_str end_str st category
  = ({| unique_papers := unique_papers st ++ List.map entry rs;
        seen_ids := list_to_set (List.map short_id rs) ∪ seen_ids st;
        max_published_new :=
          fold_left update_max (List.map published rs) (max_published_new st) |},
     group_start ("Fetch category: " ++ category)
     ++ log (MsgFetching category)
     ++ progress_lines category 0 (length rs)
     ++ match failure (up (make_query category start_str end_str)) with
        | None => log (MsgFinished category (Z.of_nat (length rs)))
        | Some err => log (MsgError category err) ++ [EvSleep 5]
        end
     ++ group_end).
Proof.
  intros Hkeys rs. unfold fetch_category.
  rewrite (visit_fold_fresh category _ st 0 [] Hkeys). by rewrite Z.add_0_l.
Qed.

Lemma keys_seen_after (st : crawl_state) (rs : list result) :
  (forall k, k ∈ od_keys (unique_papers st) -> k ∈ seen_ids st) ->
  forall k,
    k ∈ od_keys (unique_papers st ++ List.map entry rs) ->
    k ∈ (list_to_set (List.map short_id rs) ∪ seen_ids st : gset string).
Proof.
  intros Hkeys k Hk. rewrite od_keys_app in Hk.
  apply elem_of_app in Hk as [Hk|Hk]; [apply elem_of_union_r; by apply Hkeys|].
  apply elem_of_union_l, elem_of_list_to_set.
  unfold od_keys in Hk. rewrite List.map_map in Hk. exact Hk.
Qed.

Lemma crawl_fresh (up : upstream) (start_str end_str : string)
    (cats : list string) (st : crawl_state) :
  (forall k, k ∈ od_keys (unique_papers st) -> k ∈ seen_ids st) ->
  let rs := fresh (seen_ids st) (stream up start_str end_str cats) in
  fst (crawl up start_str end_str cats st)
  = {| unique_papers := unique_papers st ++ List.map entry rs;
       seen_ids := list_to_set (List.map short_id rs) ∪ seen_ids st;
       max_published_new :=
         fold_left update_max (List.map published rs) (max_published_new st) |}.
Proof.
  revert st. induction cats as [|c cats IH]; intros st Hkeys.
  - cbn. rewrite app_nil_r. destruct st as [d s m]; cbn. f_equal.
    apply set_eq. set_solver.
  - rewrite crawl_cons. cbn [fst].
    rewrite (fetch_category_fresh up start_str end_str st c Hkeys). cbn [fst].
    rewrite IH by (cbn [unique_papers seen_ids]; by apply keys_seen_after).
    cbn [unique_papers seen_ids max_published_new].
    unfold stream. cbn [List.map concat]. fold (stream up start_str end_str cats).
    rewrite fresh_app, !List.map_app, fold_left_app, <- app_assoc.
    f_equal. rewrite list_to_set_app_L. apply set_eq. set_solver.
Qed.

(** The maximum kept by [update_max]. *)
Lemma update_max_fold (l : list (option Z)) (m0 : option Z) :
  (fold_left update_max l m0 = None <-> m0 = None /\ forall x, x ∈ l -> x = None)
  /\ (forall v, fold_left update_max l m0 = Some v ->
        (m0 = Some v \/ Some v ∈ l)
        /\ (forall t, m0 = Some t -> t <= v)
        /\ (forall t, Some t ∈ l -> t <= v)).
Proof.
  revert m0. induction l as [|x l IH]; intros m0; cbn [fold_left].
  - split.
    + split; [intros ->; split; [done|]; intros x Hx; by apply elem_of_nil in Hx|].
      by intros [-> _].
    + intros v ->. split; [by left|]. split.
      * by intros t [= ->].
      * intros t Ht. by apply elem_of_nil in Ht.
  - destruct (IH (update_max m0 x)) as [Hnone Hsome]. split.
    + rewrite Hnone. split.
      * intros [Hm Hl]. destruct x as [t|]; cbn in Hm.
        { destruct m0 as [m|]; [destruct (m <? t)|]; discriminate. }
        split; [done|]. intros y Hy. apply elem_of_cons in Hy as [->|Hy]; [done|].
        by apply Hl.
      * intros [-> Hl]. rewrite (Hl x) by (by left). cbn. split; [done|].
        intros y Hy. apply Hl. by right.
    + intros v Hv. destruct (Hsome v Hv) as (Hin & Hge0 & Hgel).
      destruct x as [t|]; cbn in *.
      * destruct m0 as [m|].
        { destruct (Z.ltb_spec m t).
          - split; [|split].
            + destruct Hin as [[= <-]|Hin]; right; [by left|by right].
            + intros t0 [= <-]. specialize (Hge0 t eq_refl). lia.
            + intros t0 Ht0. apply elem_of_cons in Ht0 as [[= ->]|Ht0];
                [by apply Hge0|by apply Hgel].
          - split; [|split].
            + destruct Hin as [Hin|Hin]; [by left|right; by right].
            + done.
            + intros t0 Ht0. apply elem_of_cons in Ht0 as [[= ->]|Ht0];
                [|by apply Hgel].
              specialize (Hge0 m eq_refl). lia. }
        split; [|split].
        { destruct Hin as [[= <-]|Hin]; right; [by left|by right]. }
        { intros t0 [=]. }
        intros t0 Ht0. apply elem_of_cons in Ht0 as [[= ->]|Ht0];
          [by apply Hge0|by apply Hgel].
      * split; [|split].
        { destruct Hin as [Hin|Hin]; [by left|right; by right]. }
        { done. }
        intros t0 Ht0. apply elem_of_cons in Ht0 as [[=]|Ht0]. by apply Hgel.
Qed.

Lemma nodup_map_inj {A B} (f : A -> B) (l : list A) (x y : A) :
  NoDup (List.map f l) -> x ∈ l -> y ∈ l -> f x = f y -> x = y.
Proof.
  induction l as [|a l IH]; cbn [List.map]; intros Hnd Hx Hy Hf.
  - by apply elem_of_nil in Hx.
  - apply NoDup_cons in Hnd as [Ha Hnd].
    apply elem_of_cons in Hx as [->|Hx]; apply elem_of_cons in Hy as [->|Hy].
    + done.
    + destruct Ha. rewrite Hf. by apply list_elem_of_In, in_map, list_elem_of_In.
    + destruct Ha. rewrite <- Hf. by apply list_elem_of_In, in_map, list_elem_of_In.
    + by apply IH.
Qed.

Lemma crawl_values_fresh (seen0 : gset string) (up : upstream)
    (start_str end_str : string) (cats : list string) :
  od_values (unique_papers
               (fst (crawl up start_str end_str cats (initial_state seen0))))
  = List.map paper_dict (fresh seen0 (stream up start_str end_str cats)).
Proof.
  rewrite (crawl_fresh up start_str end_str cats (initial_state seen0))
    by (intros k Hk; by apply elem_of_nil in Hk).
  cbn [unique_papers seen_ids initial_state app].
  unfold od_values. by rewrite List.map_map.
Qed.

(** X1.  The collection of a crawl is the stream of all categories with the
    results of ledger identifiers and the repeated identifiers removed, in
    the order of the stream; the ledger grows by exactly the emitted
    identifiers; and [max_published_new] is the latest instant among the
    emitted results. *)
Theorem crawl_emits_fresh_stream (seen0 : gset string) (up : upstream)
    (start_str end_str : string) (cats : list string) :
  let emitted := fresh seen0 (stream up start_str end_str cats) in
  let st := fst (crawl up start_str end_str cats (initial_state seen0)) in
  od_values (unique_papers st) = List.map paper_dict emitted
  /\ od_keys (unique_papers st) = List.map short_id emitted
  /\ seen_ids st = list_to_set (List.map short_id emitted) ∪ seen0
  /\ max_published_new st = max_instant emitted
  /\ NoDup (List.map short_id emitted)
  /\ (forall r, r ∈ emitted ->
        r ∈ stream up start_str end_str cats /\ short_id r ∉ seen0).
Proof.
  intros emitted st. unfold st.
  rewrite (crawl_fresh up start_str end_str cats (initial_state seen0))
    by (intros k Hk; by apply elem_of_nil in Hk).
  cbn [unique_papers seen_ids max_published_new initial_state app].
  fold emitted. unfold od_values, od_keys. rewrite !List.map_map. cbn [entry fst snd].
  split; [done|]. split; [done|]. split; [done|]. split; [done|].
  split; [apply fresh_ids_nodup|]. intros r. apply fresh_not_seen.
Qed.

(** X2.  First listing wins: the first result of the stream that carries an
    identifier outside the ledger is the one whose paper is collected, and it
    is the only paper collected under that identifier, whatever later results
    with the same identifier hold. *)
Theorem first_listing_wins (seen0 : gset string) (up : upstream)
    (start_str end_str : string) (cats : list string)
    (before after : list result) (r : result) :
  stream up start_str end_str cats = before ++ r :: after ->
  short_id r ∉ seen0 ->
  short_id r ∉ List.map short_id before ->
  let papers := od_values (unique_papers
                  (fst (crawl up start_str end_str cats (initial_state seen0)))) in
  paper_dict r ∈ papers
  /\ forall p, p ∈ papers -> p_id p = short_id r -> p = paper_dict r.
Proof.
  intros Hstream Hseen Hbefore papers.
  pose proof (crawl_values_fresh seen0 up start_str end_str cats) as Hvals.
  pose proof (fresh_ids_nodup seen0 (stream up start_str end_str cats)) as Hnd.
  pose proof (fresh_first seen0 before after r Hseen Hbefore) as Hr.
  rewrite <- Hstream in Hr. unfold papers. rewrite Hvals.
  split; [apply list_elem_of_In, in_map, list_elem_of_In; exact Hr|].
  intros p Hp Hid. apply list_elem_of_In, in_map_iff in Hp as (r' & <- & Hr').
  apply list_elem_of_In in Hr'. cbn in Hid. f_equal.
  by apply (nodup_map_inj short_id _ r' r Hnd).
Qed.

(** ** What a run saves *)

Section SavedState.
Context `{PyLib}.

Lemma final_state_fresh (up : upstream) (wd : window) :
  let emitted :=
    fresh (w_seen_ids wd)
      (stream up (strftime "%Y%m%d%H%M" (w_start_date wd))
         (strftime "%Y%m%d%H%M" (w_end_date wd)) CATEGORIES_TO_FETCH) in
  final_state up wd
  = {| unique_papers := List.map entry emitted;
       seen_ids := list_to_set (List.map short_id emitted) ∪ w_seen_ids wd;
       max_published_new := max_instant emitted |}.
Proof.
  intros emitted. unfold final_state.
  by rewrite (crawl_fresh up _ _ CATEGORIES_TO_FETCH (initial_state (w_seen_ids wd)))
    by (intros k Hk; by apply elem_of_nil in Hk).
Qed.

(** X3.  The [latest_published_at] a run saves is the latest instant among
    the results it emitted in this run, whatever value it loaded; the loaded
    value is kept only when no emitted result carries an instant. *)
Theorem saved_latest_is_maximum_of_run (save_time : Z) (up : upstream)
    (output_file : option string) (wd : window) (w : world) :
  let emitted :=
    fresh (w_seen_ids wd)
      (stream up (strftime "%Y%m%d%H%M" (w_start_date wd))
         (strftime "%Y%m%d%H%M" (w_end_date wd)) CATEGORIES_TO_FETCH) in
  SEEN_IDS_FILE (fst (run_window save_time up output_file wd w))
  = save_seen_state save_time
      (list_to_set (List.map short_id emitted) ∪ w_seen_ids wd)
      match max_instant emitted with
      | Some m => Some m
      | None => w_latest_published_at wd
      end
  /\ (forall m, max_instant emitted = Some m ->
        (exists r, r ∈ emitted /\ published r = Some m)
        /\ forall r t, r ∈ emitted -> published r = Some t -> t <= m)
  /\ (max_instant emitted = None <-> forall r, r ∈ emitted -> published r = None).
Proof.
  intros emitted. split; [|split].
  - rewrite run_window_eq. cbn [fst SEEN_IDS_FILE].
    by rewrite (final_state_fresh up wd).
  - intros m Hm. unfold max_instant in Hm.
    destruct (update_max_fold (List.map published emitted) None) as [_ Hsome].
    destruct (Hsome m Hm) as ([Hin|Hin] & _ & Hge); [done|]. split.
    + apply list_elem_of_In, in_map_iff in Hin as (r & Hr & Hin).
      exists r. split; [by apply list_elem_of_In|done].
    + intros r t Hr Ht. apply Hge. rewrite <- Ht.
      by apply list_elem_of_In, in_map, list_elem_of_In.
  - unfold max_instant.
    destruct (update_max_fold (List.map published emitted) None) as [Hnone _].
    rewrite Hnone. split.
    + intros [_ Hall] r Hr. apply Hall.
      by apply list_elem_of_In, in_map, list_elem_of_In.
    + intros Hall. split; [done|]. intros x Hx.
      apply list_elem_of_In, in_map_iff in Hx as (r & <- & Hr).
      by apply Hall, list_elem_of_In.
Qed.

(** X4.  The ledger a run saves holds exactly the identifiers it loaded and
    the identifiers of the papers it collected, and the two are disjoint:
    nothing is evicted and nothing else is added. *)
Theorem saved_ledger_is_loaded_plus_collected (save_time : Z) (up : upstream)
    (output_file : option string) (wd : window) (w : world) (k : string) :
  (PStr k ∈ persisted_ids (SEEN_IDS_FILE (fst (run_window save_time up output_file wd w)))
   <-> k ∈ w_seen_ids wd \/ k ∈ List.map p_id (collected up wd))
  /\ ~ (k ∈ w_seen_ids wd /\ k ∈ List.map p_id (collected up wd)).
Proof.
  destruct (final_state_facts up wd) as [(_ & Hid & Hseen & Hfresh) _].
  rewrite run_window_eq. cbn [fst SEEN_IDS_FILE]. rewrite persisted_ids_saved.
  rewrite collected_ids. split.
  - rewrite <- Hseen, <- elem_of_sorted_ids. split.
    + intros Hk. apply list_elem_of_In, in_map_iff in Hk as (k' & [= ->] & Hk).
      by apply list_elem_of_In.
    + intros Hk. by apply list_elem_of_In, in_map, list_elem_of_In.
  - intros [H0 Hk]. by apply (Hfresh k).
Qed.

End SavedState.

(** ** What a run prints *)

Lemma progress_lines_elem (category : string) (count : Z) (n : nat) (e : event) :
  e ∈ progress_lines category count n
  <-> exists k, e = EvLog (MsgProgress category k)
                /\ count < k <= count + Z.of_nat n /\ k mod 100 = 0.
Proof.
  revert count. induction n as [|n IH]; intros count; cbn [progress_lines].
  - split; [intros He; by apply elem_of_nil in He|]. intros (k & _ & Hk & _). lia.
  - rewrite elem_of_app, IH. split.
    + intros [He|(k & -> & Hk & Hmod)].
      * destruct (Z.eqb_spec ((count + 1) mod 100) 0) as [Hz|Hz];
          [|by apply elem_of_nil in He].
        apply list_elem_of_singleton in He. exists (count + 1).
        split; [done|]. split; [lia|done].
      * exists k. split; [done|]. split; [lia|done].
    + intros (k & -> & Hk & Hmod).
      destruct (Z.eq_dec k (count + 1)) as [->|Hne].
      * left. rewrite Hmod. cbn. by left.
      * right. exists k. split; [done|]. split; [lia|done].
Qed.

Lemma progress_lines_quiet (category : string) (count : Z) (n : nat) :
  omap fetched_of (progress_lines category count n) = []
  /\ omap failed_of (progress_lines category count n) = []
  /\ omap slept_of (progress_lines category count n) = [].
Proof.
  revert count. induction n as [|n IH]; intros count; cbn [progress_lines]; [done|].
  destruct (IH (count + 1)) as (H1 & H2 & H3).
  rewrite !omap_app, H1, H2, H3.
  by destruct ((count + 1) mod 100 =? 0).
Qed.

(** X5.  The lines of one category, for a state a run can be in: the group
    opens, the category is announced, one progress line is printed at every
    100th paper the category adds and at no other count, then either the
    final line with the number of papers added or the error line followed by
    a sleep of 5, and the group closes in both cases. *)
Theorem category_lines (seen0 : gset string) (up : upstream)
    (start_str end_str : string) (st : crawl_state) (category : string) :
  crawl_inv seen0 st ->
  let st' := fst (fetch_category up start_str end_str st category) in
  let added := (length (unique_papers st') - length (unique_papers st))%nat in
  snd (fetch_category up start_str end_str st category)
  = [EvGroupStart ("Fetch category: " ++ category); EvLog (MsgFetching category)]
    ++ progress_lines category 0 added
    ++ match failure (up (make_query category start_str end_str)) with
       | None => [EvLog (MsgFinished category (Z.of_nat added))]
       | Some err => [EvLog (MsgError category err); EvSleep 5]
       end
    ++ [EvGroupEnd]
  /\ forall k,
       EvLog (MsgProgress category k)
         ∈ snd (fetch_category up start_str end_str st category)
       <-> 0 < k <= Z.of_nat added /\ k mod 100 = 0.
Proof.
  intros (_ & _ & Hseen & _) st' added.
  assert (Hkeys : forall k, k ∈ od_keys (unique_papers st) -> k ∈ seen_ids st).
  { intros k Hk. apply Hseen. by right. }
  pose proof (fetch_category_fresh up start_str end_str st category Hkeys) as Hfc.
  cbn zeta in Hfc.
  assert (Hadded : added
            = length (fresh (seen_ids st)
                        (yielded (up (make_query category start_str end_str))))).
  { unfold added, st'. rewrite Hfc. cbn [fst unique_papers].
    rewrite length_app, length_map. lia. }
  rewrite Hfc. cbn [snd]. rewrite <- Hadded.
  unfold group_start, log, group_end. split.
  { by destruct (failure _). }
  intros k. split.
  - intros Hk.
    apply elem_of_app in Hk as [Hk|Hk].
    { repeat (apply elem_of_cons in Hk as [Hk|Hk]; [discriminate Hk|]).
      by apply elem_of_nil in Hk. }
    apply elem_of_app in Hk as [Hk|Hk].
    { repeat (apply elem_of_cons in Hk as [Hk|Hk]; [discriminate Hk|]).
      by apply elem_of_nil in Hk. }
    apply elem_of_app in Hk as [Hk|Hk].
    { apply progress_lines_elem in Hk as (k' & [= <-] & Hk & Hmod).
      split; [lia|done]. }
    apply elem_of_app in Hk as [Hk|Hk].
    { destruct (failure _); cbn [app] in Hk;
        repeat (apply elem_of_cons in Hk as [Hk|Hk]; [discriminate Hk|]);
        by apply elem_of_nil in Hk. }
    repeat (apply elem_of_cons in Hk as [Hk|Hk]; [discriminate Hk|]).
    by apply elem_of_nil in Hk.
  - intros [Hk Hmod]. apply elem_of_app. right. apply elem_of_app. right.
    apply elem_of_app. left. apply progress_lines_elem.
    exists k. split; [done|]. split; [lia|done].
Qed.

Lemma category_lines_witness :
  let st' := fst (fetch_category Examples.up_cross_listed "202406090000"
                    "202406100000" (initial_state Examples.empty_ledger) "cs") in
  let added := (length (unique_papers st')
                - length (unique_papers (initial_state Examples.empty_ledger)))%nat in
  snd (fetch_category Examples.up_cross_listed "202406090000" "202406100000"
         (initial_state Examples.empty_ledger) "cs")
  = [EvGroupStart ("Fetch category: " ++ "cs"); EvLog (MsgFetching "cs")]
    ++ progress_lines "cs" 0 added
    ++ match failure (Examples.up_cross_listed
                        (make_query "cs" "202406090000" "202406100000")) with
       | None => [EvLog (MsgFinished "cs" (Z.of_nat added))]
       | Some err => [EvLog (MsgError "cs" err); EvSleep 5]
       end
    ++ [EvGroupEnd]
  /\ forall k,
       EvLog (MsgProgress "cs" k)
         ∈ snd (fetch_category Examples.up_cross_listed "202406090000" "202406100000"
                  (initial_state Examples.empty_ledger) "cs")
       <-> 0 < k <= Z.of_nat added /\ k mod 100 = 0.
Proof.
  apply (category_lines Examples.empty_ledger Examples.up_cross_listed
           "202406090000" "202406100000" (initial_state Examples.empty_ledger) "cs").
  apply initial_state_inv.
Defined.

Lemma visit_fold_quiet (category : string) (rs : list result)
    (acc : crawl_state * Z * list event) :
  exists extra,
    snd (fold_left (visit category) rs acc) = snd acc ++ extra
    /\ omap fetched_of extra = []
    /\ omap failed_of extra = []
    /\ omap slept_of extra = [].
Proof.
  revert acc. induction rs as [|r rs IH]; intros acc; cbn [fold_left].
  - exists []. by rewrite app_nil_r.
  - destruct (IH (visit category acc r)) as (extra & Htr & H1 & H2 & H3).
    destruct acc as [[st count] tr]. unfold visit in *. cbn [snd] in *.
    case_bool_decide; [by exists extra|].
    destruct (od_mem _ _); [by exists extra|]. cbn [snd] in Htr.
    eexists (_ ++ extra). rewrite Htr, <- app_assoc. split; [done|].
    rewrite !omap_app, H1, H2, H3. by destruct (_ =? 0).
Qed.

Lemma fetch_category_projections (up : upstream) (start_str end_str : string)
    (st : crawl_state) (category : string) :
  let tr := snd (fetch_category up start_str end_str st category) in
  omap fetched_of tr = [category]
  /\ omap failed_of tr = failing up start_str end_str [category]
  /\ omap slept_of tr
     = List.map (fun _ => 5) (failing up start_str end_str [category]).
Proof.
  unfold fetch_category, failing.
  destruct (visit_fold_quiet category
              (yielded (up (make_query category start_str end_str))) (st, 0, []))
    as (extra & Htr & H1 & H2 & H3).
  destruct (fold_left _ _ _) as [[st' count] tr]. cbn [snd app] in *. subst tr.
  unfold group_start, log, group_end.
  rewrite !omap_app, H1, H2, H3.
  destruct (failure _) eqn:Hf; cbn; by rewrite ?Hf.
Qed.

Lemma failing_cons (up : upstream) (start_str end_str : string) (c : string)
    (cats : list string) :
  failing up start_str end_str (c :: cats)
  = failing up start_str end_str [c] ++ failing up start_str end_str cats.
Proof.
  unfold failing. cbn.
  by destruct (failure (up (make_query c start_str end_str))).
Qed.

Lemma crawl_projections (up : upstream) (start_str end_str : string)
    (cats : list string) (st : crawl_state) :
  let tr := snd (crawl up start_str end_str cats st) in
  omap fetched_of tr = cats
  /\ omap failed_of tr = failing up start_str end_str cats
  /\ omap slept_of tr = List.map (fun _ => 5) (failing up start_str end_str cats).
Proof.
  revert st. induction cats as [|c cats IH]; intros st; [done|].
  rewrite crawl_cons. cbn [snd].
  destruct (fetch_category_projections up start_str end_str st c) as (F1 & F2 & F3).
  destruct (IH (fst (fetch_category up start_str end_str st c))) as (C1 & C2 & C3).
  cbn zeta in *. rewrite !omap_app, F1, F2, F3, C1, C2, C3, (failing_cons _ _ _ c cats).
  by rewrite List.map_app.
Qed.

Lemma omap_frame {A} (f : event -> option A) (pre mid post : list event) :
  omap f pre = [] -> omap f post = [] ->
  omap f (pre ++ mid ++ post) = omap f mid.
Proof.
  intros Hpre Hpost. by rewrite !omap_app, Hpre, Hpost, app_nil_r.
Qed.

Section RunTrace.
Context `{PyLib}.

(** X6.  Once the window is known, a run queries every category of
    [CATEGORIES_TO_FETCH] exactly once and in order, whatever fails; it prints
    one error line per failing category and sleeps 5 once per failing
    category, and never otherwise. *)
Theorem run_queries_every_category_once (save_time : Z) (up : upstream)
    (output_file : option string) (wd : window) (w : world) :
  let tr := snd (run_window save_time up output_file wd w) in
  let failed := failing up (strftime "%Y%m%d%H%M" (w_start_date wd))
                  (strftime "%Y%m%d%H%M" (w_end_date wd)) CATEGORIES_TO_FETCH in
  omap fetched_of tr = CATEGORIES_TO_FETCH
  /\ omap failed_of tr = failed
  /\ omap slept_of tr = List.map (fun _ => 5) failed.
Proof.
  intros tr failed. unfold tr. rewrite run_window_eq. cbn [snd].
  destruct (crawl_projections up (strftime "%Y%m%d%H%M" (w_start_date wd))
              (strftime "%Y%m%d%H%M" (w_end_date wd)) CATEGORIES_TO_FETCH
              (initial_state (w_seen_ids wd))) as (C1 & C2 & C3).
  cbn zeta in C1, C2, C3. fold failed in C2, C3.
  rewrite (app_assoc (group_start _) (log _)).
  assert (Hpost : forall total path,
            let post := log (MsgAllDone total)
                        ++ (if (0 <? total)%nat then log (MsgSaved path)
                            else log MsgNoPapers)
                        ++ group_end in
            omap fetched_of post = [] /\ omap failed_of post = []
            /\ omap slept_of post = []).
  { intros total path. destruct (0 <? total)%nat; repeat split; reflexivity. }
  destruct (Hpost (length (unique_papers (final_state up wd)))
              (output_path output_file (w_end_date wd))) as (P1 & P2 & P3).
  cbn zeta in P1, P2, P3.
  split; [|split].
  - rewrite omap_frame; [exact C1|reflexivity|exact P1].
  - rewrite omap_frame; [exact C2|reflexivity|exact P2].
  - rewrite omap_frame; [exact C3|reflexivity|exact P3].
Qed.

End RunTrace.

(** ** Configuration Resolver: results and errors *)

Lemma unreadable_section_value (cfg : gmap string pyval) (name : string) :
  ~ readable_section cfg name ->
  exists v, cfg !! name = Some v /\ truthy v = true /\ forall d, v <> PDict d.
Proof.
  unfold readable_section. destruct (cfg !! name) as [v|]; [|by intros []].
  intros Hnot. exists v. split; [done|].
  destruct v;
    first [ by destruct Hnot
          | split; [destruct (truthy _); [done|by destruct Hnot] | done] ].
Qed.

Lemma readable_section_dec (cfg : gmap string pyval) (name : string) :
  readable_section cfg name \/ ~ readable_section cfg name.
Proof.
  unfold readable_section. destruct (cfg !! name) as [v|]; [|by left].
  destruct v; try (by left); destruct (truthy _); (by left) || (by right).
Qed.

Lemma dict_get_non_mapping (v : pyval) (k : string) :
  truthy v = true -> (forall d, v <> PDict d) ->
  dict_get (py_or v empty_dict) k = Raise AttributeError.
Proof.
  intros Ht Hd. unfold py_or. rewrite Ht. destruct v; try done. by destruct (Hd d).
Qed.

Section ConfigErrors.
Context `{PyLib}.

Lemma resolve_days_window_paper_unreadable (default_days : Z) (src : config_source) :
  ~ readable_section (config_mapping src) "arxiv_paper_setting" ->
  fst (resolve_days_window default_days src) = Raise AttributeError.
Proof.
  intros Hnot. destruct (load_config_trace_ok src) as [tr Hload].
  destruct (unreadable_section_value _ _ Hnot) as (v & Hv & Ht & Hd).
  unfold resolve_days_window, mbind, io_mbind, io_bind. rewrite Hload.
  rewrite py_or_dict. cbn [dict_get io_lift]. rewrite Hv. simpl default.
  by rewrite (dict_get_non_mapping v "days_window" Ht Hd).
Qed.

Lemma resolve_days_window_readable_paper (default_days : Z) (src : config_source) :
  readable_section (config_mapping src) "arxiv_paper_setting" ->
  fst (resolve_days_window default_days src) =
    (value ← (let v := default PNone
                         (section_of (config_mapping src) "arxiv_paper_setting"
                            !! "days_window"%string) in
              if is_none v
              then dict_get (py_or (default PNone (config_mapping src !! "crawler"%string))
                               empty_dict) "days_window"
              else Ok v);
     match py_int value with
     | Ok days => Ok (Z.max days 1)
     | Raise _ => Ok (Z.max default_days 1)
     end).
Proof.
  intros Hpaper. destruct (load_config_trace_ok src) as [tr Hload].
  apply readable_section_read in Hpaper.
  by rewrite (resolve_days_window_sections default_days src tr _ Hload Hpaper).
Qed.

(** X7.  Whatever the configuration holds, a value [resolve_days_window]
    returns is at least 1. *)
Theorem resolved_days_at_least_one (default_days : Z) (src : config_source) (days : Z) :
  fst (resolve_days_window default_days src) = Ok days -> 1 <= days.
Proof.
  destruct (readable_section_dec (config_mapping src) "arxiv_paper_setting")
    as [Hpaper|Hpaper].
  - rewrite (resolve_days_window_readable_paper default_days src Hpaper).
    unfold mbind, outcome_bind, Py.bind. cbn zeta.
    destruct (is_none _).
    + destruct (dict_get _ _) as [v|e]; [|done].
      destruct (py_int v); intros [= <-]; lia.
    + destruct (py_int _); intros [= <-]; lia.
  - by rewrite (resolve_days_window_paper_unreadable default_days src Hpaper).
Qed.

Lemma resolve_days_window_raises (default_days : Z) (src : config_source) :
  let cfg := config_mapping src in
  ((exists e, fst (resolve_days_window default_days src) = Raise e)
   <-> ~ readable_section cfg "arxiv_paper_setting"
       \/ (is_none (default PNone
                      (section_of cfg "arxiv_paper_setting" !! "days_window"%string))
           = true
           /\ ~ readable_section cfg "crawler"))
  /\ forall e, fst (resolve_days_window default_days src) = Raise e ->
               e = AttributeError.
Proof.
  intros cfg. unfold cfg.
  destruct (readable_section_dec (config_mapping src) "arxiv_paper_setting")
    as [Hpaper|Hpaper].
  - rewrite (resolve_days_window_readable_paper default_days src Hpaper).
    unfold mbind, outcome_bind, Py.bind. cbn zeta.
    destruct (is_none _) eqn:Hnone.
    + destruct (readable_section_dec (config_mapping src) "crawler")
        as [Hcrawler|Hcrawler].
      * rewrite (readable_section_read _ _ Hcrawler). cbn [dict_get]. split.
        { split.
          - intros [e He]. by destruct (py_int _).
          - intros [Hn|[_ Hn]]; by destruct Hn. }
        intros e He. by destruct (py_int _).
      * destruct (unreadable_section_value _ _ Hcrawler) as (v & Hv & Ht & Hd).
        rewrite Hv. simpl default.
        rewrite (dict_get_non_mapping v "days_window" Ht Hd). split.
        { split; [intros _; right; by split|]. intros _. by exists AttributeError. }
        by intros e [= <-].
    + split.
      { split.
        - intros [e He]. by destruct (py_int _).
        - intros [Hn|[Hn _]]; [by destruct Hn|done]. }
      intros e He. by destruct (py_int _).
  - rewrite (resolve_days_window_paper_unreadable default_days src Hpaper). split.
    + split; [intros _; by left|]. intros _. by exists AttributeError.
    + by intros e [= <-].
Qed.

(** X8.  [resolve_days_window] raises exactly when the
    [arxiv_paper_setting] entry is truthy and not a mapping, or when that
    section sets no [days_window] (or sets it to None) and the [crawler] entry
    is truthy and not a mapping; the exception is AttributeError.  A
    malformed [crawler] entry is harmless while the paper-specific key is
    set. *)
Theorem resolve_days_window_raises_iff (default_days : Z) (src : config_source) :
  let cfg := config_mapping src in
  ((exists e, fst (resolve_days_window default_days src) = Raise e)
   <-> ~ readable_section cfg "arxiv_paper_setting"
       \/ (is_none (default PNone
                      (section_of cfg "arxiv_paper_setting" !! "days_window"%string))
           = true
           /\ ~ readable_section cfg "crawler"))
  /\ forall e, fst (resolve_days_window default_days src) = Raise e ->
               e = AttributeError.
Proof. apply resolve_days_window_raises. Qed.

End ConfigErrors.

Lemma resolved_days_at_least_one_witness :
  fst (resolve_days_window 7 Examples.config_crawler_three) = Ok 3 /\ 1 <= 3.
Proof.
  assert (Hrun : fst (resolve_days_window 7 Examples.config_crawler_three) = Ok 3)
    by (vm_compute; reflexivity).
  split; [exact Hrun|].
  exact (resolved_days_at_least_one 7 Examples.config_crawler_three 3 Hrun).
Defined.

(** ** Crawl State Store: errors, loaded identifiers, round trips *)

Section StoreProperties.
Context `{PyLib}.

Lemma load_falsy_payload (v : pyval) :
  truthy v = false ->
  load_seen_state (FileData v) = Ok (∅, if str_nonempty (strip "") then parse_utc (strip "") else None)
  /\ is_ok (load_last_crawl_at (FileData v)) = true.
Proof.
  intros Ht.
  assert (Hpayload : py_or v empty_dict = PDict ∅) by (unfold py_or; by rewrite Ht).
  unfold load_seen_state, load_last_crawl_at. rewrite Hpayload.
  cbn [dict_get]. rewrite !lookup_empty. simpl default.
  unfold mbind, outcome_bind, Py.bind. split; [done|].
  unfold py_or. cbn [truthy py_str]. by destruct (str_nonempty _).
Qed.

Lemma loaders_raise (f : json_file) :
  ((exists e, load_seen_state f = Raise e) <-> bad_payload f)
  /\ ((exists e, load_last_crawl_at f = Raise e) <-> bad_payload f)
  /\ (forall e, load_seen_state f = Raise e -> e = AttributeError)
  /\ (forall e, load_last_crawl_at f = Raise e -> e = AttributeError).
Proof.
  assert (Hbad : bad_payload f ->
            load_seen_state f = Raise AttributeError
            /\ load_last_crawl_at f = Raise AttributeError).
  { intros (v & -> & Ht & Hd). by apply load_non_mapping_raises. }
  assert (Hgood : ~ bad_payload f ->
            is_ok (load_seen_state f) = true /\ is_ok (load_last_crawl_at f) = true).
  { intros Hnot. destruct f as [| |v]; [done|done|].
    destruct (truthy v) eqn:Ht.
    - destruct v; try (destruct Hnot; eexists; by repeat split).
      apply load_mapping_ok.
    - destruct (load_falsy_payload v Ht) as [-> ?]. by split. }
  assert (Hdec : bad_payload f \/ ~ bad_payload f).
  { destruct f as [| |v]; try (right; by intros (v & [=] & _)).
    destruct (truthy v) eqn:Ht.
    - destruct v; try (left; eexists; by repeat split).
      right. intros (v & [= <-] & _ & Hd). by destruct (Hd d).
    - right. intros (v' & [= <-] & Ht' & _). congruence. }
  destruct Hdec as [Hb|Hb].
  - destruct (Hbad Hb) as [-> ->]. repeat split; try done; try (by eexists).
    + by intros e [= <-].
    + by intros e [= <-].
  - destruct (Hgood Hb) as [H1 H2].
    destruct (load_seen_state f) as [a|e1]; [|done].
    destruct (load_last_crawl_at f) as [b|e2]; [|done].
    repeat split; try done; by intros [e [=]].
Qed.

(** X9.  Each loader raises exactly when its file parses to a value that is
    truthy and not a mapping, and then with AttributeError; a missing file, a
    file that cannot be read or parsed, a falsy document and a mapping of any
    content never raise. *)
Theorem loaders_raise_iff_bad_payload (f : json_file) :
  ((exists e, load_seen_state f = Raise e) <-> bad_payload f)
  /\ ((exists e, load_last_crawl_at f = Raise e) <-> bad_payload f)
  /\ (forall e, load_seen_state f = Raise e -> e = AttributeError)
  /\ (forall e, load_last_crawl_at f = Raise e -> e = AttributeError).
Proof. apply loaders_raise. Qed.

(** X10.  What [load_seen_state] returns as identifiers: the stripped text
    of the entries of the ["ids"] list that is not empty, and nothing else.
    An ["ids"] value that is not a list contributes nothing. *)
Theorem loaded_ids_are_stripped_entries (f : json_file) (seen : gset string)
    (latest : option Z) (k : string) :
  load_seen_state f = Ok (seen, latest) ->
  k ∈ seen
  <-> str_nonempty k = true
      /\ exists i, i ∈ persisted_ids f /\ strip (py_str i) = k.
Proof.
  intros Hload.
  assert (Hempty : seen = ∅ -> persisted_ids f = [] ->
            k ∈ seen <-> str_nonempty k = true
                         /\ exists i, i ∈ persisted_ids f /\ strip (py_str i) = k).
  { intros -> ->. split; [intros Hk; by apply not_elem_of_empty in Hk|].
    intros [_ (i & Hi & _)]. by apply elem_of_nil in Hi. }
  destruct f as [| |v].
  - apply Hempty; [|done]. by injection Hload as <- _.
  - apply Hempty; [|done]. by injection Hload as <- _.
  - destruct (truthy v) eqn:Ht.
    + destruct v as [| | | | | |d];
        try (by rewrite (proj1 (load_non_mapping_raises _ Ht ltac:(done))) in Hload).
      unfold load_seen_state in Hload. rewrite py_or_dict in Hload.
      cbn [dict_get] in Hload. unfold mbind, outcome_bind, Py.bind in Hload.
      injection Hload as <- _.
      assert (Hl : match py_or (default PNone (d !! "ids"%string)) (PList []) with
                   | PList l => l
                   | _ => []
                   end = persisted_ids (FileData (PDict d))).
      { cbn [persisted_ids].
        destruct (d !! "ids"%string) as [v|]; simpl default; [|done].
        unfold py_or. destruct (truthy v) eqn:Hv; [done|]. by destruct v as [| | | | |[|]|]. }
      rewrite Hl, elem_of_list_to_set, list_elem_of_In, filter_In, in_map_iff.
      split.
      * intros [(i & <- & Hi) Hne]. split; [done|].
        exists i. split; [by apply list_elem_of_In|done].
      * intros [Hne (i & Hi & <-)]. split; [|done].
        exists i. split; [done|by apply list_elem_of_In].
    + destruct (load_falsy_payload v Ht) as [Hl _]. rewrite Hl in Hload.
      apply Hempty; [by injection Hload as <- _|].
      destruct v as [| | | | | |d]; try done. cbn [persisted_ids].
      apply truthy_dict_false in Ht. subst d. by rewrite lookup_empty.
Qed.

(** X11.  The last-run marker that [save_last_crawl_at] writes reads back
    through [load_last_crawl_at] as the saved instant, when that instant
    survives [isoformat], [strip] and [fromisoformat]. *)
Theorem saved_last_crawl_reads_back (t : Z) :
  roundtrips t ->
  load_last_crawl_at (save_last_crawl_at t) = Ok (Some t).
Proof. apply load_saved_last_crawl_at. Qed.

(** X12.  The ledger that [save_seen_state] writes reads back as the same
    set of identifiers and the same [latest_published_at], whatever
    [updated_at] is, when the identifiers are clean, the instant survives the
    text format and [strip] keeps the empty string empty. *)
Theorem saved_seen_state_reads_back (updated_at : Z) (seen : gset string)
    (latest : option Z) :
  (forall pid, pid ∈ seen -> clean_id pid) ->
  (forall t, latest = Some t -> roundtrips t) ->
  strip "" = ""%string ->
  load_seen_state (save_seen_state updated_at seen latest) = Ok (seen, latest).
Proof. apply load_saved_seen_state. Qed.

End StoreProperties.

Lemma loaded_ids_are_stripped_entries_witness :
  "2406.0001v1"%string ∈ ({[ "2406.0001v1"%string ]} : gset string)
  <-> str_nonempty "2406.0001v1" = true
      /\ exists i, i ∈ persisted_ids Examples.ledger_0001
                   /\ strip (py_str i) = "2406.0001v1"%string.
Proof.
  apply (loaded_ids_are_stripped_entries Examples.ledger_0001
           {[ "2406.0001v1"%string ]} (Some (Examples.t_0609_noon + 30000000))).
  vm_compute. reflexivity.
Defined.

Lemma saved_last_crawl_reads_back_witness :
  load_last_crawl_at (save_last_crawl_at Examples.t_0610) = Ok (Some Examples.t_0610).
Proof.
  apply (saved_last_crawl_reads_back Examples.t_0610).
  split; vm_compute; reflexivity.
Defined.

Lemma saved_seen_state_reads_back_witness :
  load_seen_state
    (save_seen_state Examples.t_0610 {[ "2406.0001v1"%string ]}
       (Some Examples.t_0609_noon))
  = Ok ({[ "2406.0001v1"%string ]}, Some Examples.t_0609_noon).
Proof.
  apply (saved_seen_state_reads_back Examples.t_0610 {[ "2406.0001v1"%string ]}
           (Some Examples.t_0609_noon)).
  - intros pid Hpid. apply elem_of_singleton in Hpid. subst pid.
    split; reflexivity.
  - intros t [= <-]. split; vm_compute; reflexivity.
  - reflexivity.
Defined.

(** ** The order of the saved identifiers *)

Lemma string_leb_iff (a b : string) :
  String.leb a b = true <-> a = b \/ OrderedTypeEx.String_as_OT.lt a b.
Proof.
  unfold String.leb.
  destruct (String.compare a b) eqn:Hc.
  - apply OrderedTypeEx.String_as_OT.cmp_eq in Hc. split; [by left|done].
  - apply OrderedTypeEx.String_as_OT.cmp_lt in Hc. split; [by right|done].
  - split; [done|]. intros [->|Hlt].
    + assert (Heq : String.compare b b = Eq)
        by (by apply OrderedTypeEx.String_as_OT.cmp_eq).
      congruence.
    + apply OrderedTypeEx.String_as_OT.cmp_lt in Hlt.
      unfold OrderedTypeEx.String_as_OT.cmp in Hlt. congruence.
Qed.

#[local] Instance string_leb_total : Total (fun a b : string => String.leb a b).
Proof.
  intros a b. destruct (String.leb_total a b) as [Hab|Hba].
  - left. by apply Is_true_true.
  - right. by apply Is_true_true.
Qed.

#[local] Instance string_leb_trans : Transitive (fun a b : string => String.leb a b).
Proof.
  intros a b c Hab Hbc. apply Is_true_true in Hab, Hbc. apply Is_true_true.
  apply string_leb_iff in Hab, Hbc. apply string_leb_iff.
  destruct Hab as [->|Hab]; [done|]. destruct Hbc as [<-|Hbc]; [by right|].
  right. by eapply OrderedTypeEx.String_as_OT.lt_trans.
Qed.

Section SavedOrder.
Context `{PyLib}.

(** X13.  The ["ids"] list that [save_seen_state] writes is in ascending
    order (every entry is at most every later one), holds no identifier
    twice, and holds exactly the identifiers of the set, whatever the other
    fields are. *)
Theorem saved_ids_sorted_and_exact (updated_at : Z) (seen : gset string)
    (latest : option Z) :
  persisted_ids (save_seen_state updated_at seen latest)
    = List.map PStr (sorted_ids seen)
  /\ StronglySorted (fun a b : string => String.leb a b) (sorted_ids seen)
  /\ NoDup (sorted_ids seen)
  /\ forall k, k ∈ sorted_ids seen <-> k ∈ seen.
Proof.
  split; [apply persisted_ids_saved|]. split; [|split].
  - unfold sorted_ids. apply (StronglySorted_merge_sort _).
  - unfold sorted_ids. rewrite merge_sort_Permutation. apply NoDup_elements.
  - intros k. apply elem_of_sorted_ids.
Qed.

(** X14.  A stored timestamp written with the suffix [Z] is read as the same
    text with [+00:00] in its place. *)
Theorem z_suffix_is_utc (s : string) :
  "Z"%char ∉ chars s ->
  parse_utc (s ++ "Z") = fromisoformat (s ++ "+00:00").
Proof.
  intros Hs. unfold parse_utc. f_equal.
  induction s as [|c s IH]; [reflexivity|].
  cbn [chars] in Hs. simpl.
  destruct (Ascii.eqb_spec c "Z"%char) as [->|Hne].
  - destruct Hs. by left.
  - rewrite IH; [reflexivity|]. intros Hin. apply Hs. by right.
Qed.

End SavedOrder.

Lemma z_suffix_is_utc_witness :
  parse_utc ("2024-06-10T00:00:00" ++ "Z")
  = fromisoformat ("2024-06-10T00:00:00" ++ "+00:00").
Proof.
  apply (z_suffix_is_utc "2024-06-10T00:00:00").
  intros Hin. vm_compute in Hin.
  repeat (apply elem_of_cons in Hin as [Hin|Hin]; [discriminate Hin|]).
  by apply elem_of_nil in Hin.
Defined.
(** ** The window of a run *)

Section WindowProperties.
Context `{PyLib}.

(** X15.  The window of a run never reaches further back than the days
    window: with a days window of at least one day, the start is at or after
    [now - days] and before [now], however old the persisted state is.  When
    no days value is passed, the resolved days window is at least one day, so
    the bound always holds. *)
Theorem window_lookback_is_bounded (now : Z) (days : option Z) (w : world)
    (wd : window) (tr : list event) :
  resolve_window now days w = (Ok wd, tr) ->
  (days = None -> 1 <= w_days wd)
  /\ (1 <= w_days wd ->
      now - w_days wd * 86400000000 <= w_start_date wd < now).
Proof.
  intros Hw. split.
  - intros ->. pose proof (resolve_window_days _ _ _ _ _ Hw) as Hdays.
    cbn in Hdays.
    destruct (readable_section_dec (config_mapping (CONFIG_FILE w))
                "arxiv_paper_setting") as [Hpaper|Hpaper].
    + pose proof (resolve_days_window_readable_paper 1 (CONFIG_FILE w) Hpaper) as Hr.
      rewrite Hdays in Hr. cbn [fst] in Hr.
      unfold mbind, outcome_bind, Py.bind in Hr. cbn zeta in Hr.
      destruct (is_none _).
      * destruct (dict_get _ _) as [v|e]; [|done].
        destruct (py_int v); injection Hr as ->; lia.
      * destruct (py_int _); injection Hr as ->; lia.
    + pose proof (resolve_days_window_paper_unreadable 1 (CONFIG_FILE w) Hpaper) as Hr.
      by rewrite Hdays in Hr.
  - intros Hpos.
    destruct (resolve_window_ok _ _ _ _ _ Hw)
      as (_ & _ & _ & _ & _ & last & _ & Hspec).
    unfold spec_window in Hspec. injection Hspec as ->.
    destruct (Z_ge_dec _ now); lia.
Qed.

(** X16.  The degenerate windows.  A days window of zero or less, and a
    persisted [latest_published_at] that is not before [now], both give the
    window of the last minute; a [latest_published_at] inside the lookback
    and before [now] is the start itself. *)
Theorem window_edge_cases (now : Z) (days : option Z) (w : world)
    (wd : window) (tr : list event) :
  resolve_window now days w = (Ok wd, tr) ->
  (w_days wd <= 0 -> w_start_date wd = now - 60000000)
  /\ (forall t, w_latest_published_at wd = Some t -> now <= t ->
        w_start_date wd = now - 60000000)
  /\ (forall t, w_latest_published_at wd = Some t ->
        now - w_days wd * 86400000000 <= t < now ->
        w_start_date wd = t).
Proof.
  intros Hw.
  destruct (resolve_window_ok _ _ _ _ _ Hw)
    as (_ & _ & _ & _ & _ & last & _ & Hspec).
  unfold spec_window in Hspec. injection Hspec as ->. split; [|split].
  - intros Hdays. destruct (Z_ge_dec _ now); lia.
  - intros t -> Ht. destruct (Z_ge_dec _ now); lia.
  - intros t -> Ht. destruct (Z_ge_dec _ now); lia.
Qed.

(** X17.  When the ledger holds a [latest_published_at], a run does not
    read the last-run marker: with any other content of that file, even one
    on which [load_last_crawl_at] raises, the run is the same run. *)
Theorem dated_ledger_run_ignores_last_crawl_file (now save_time : Z)
    (up : upstream) (days : option Z) (output_file : option string) (w : world)
    (seen : gset string) (t : Z) (other : json_file) :
  load_seen_state (SEEN_IDS_FILE w) = Ok (seen, Some t) ->
  fetch_all_domains_metadata_robust now save_time up days output_file
    {| CONFIG_FILE := CONFIG_FILE w;
       CRAWL_STATE_FILE := other;
       SEEN_IDS_FILE := SEEN_IDS_FILE w;
       output_files := output_files w |}
  = fetch_all_domains_metadata_robust now save_time up days output_file w.
Proof.
  intros Hload.
  unfold fetch_all_domains_metadata_robust, resolve_window,
    mbind, io_mbind, io_bind, io_lift.
  cbn [SEEN_IDS_FILE CONFIG_FILE CRAWL_STATE_FILE]. rewrite Hload.
  destruct (match days with
            | Some d => io_ret d
            | None => resolve_days_window 1 (CONFIG_FILE w)
            end) as [[d|e] tr1]; [|done].
  cbn. destruct (clamp_start now d t) as [s|e]; [|done].
  cbn. unfold run_window. cbn [output_files CONFIG_FILE].
  by destruct (crawl up _ _ CATEGORIES_TO_FETCH _).
Qed.

(** What the configuration loader prints. *)
Lemma load_config_trace (src : config_source) :
  snd (load_config src) = []
  \/ snd (load_config src) = log WarnNoYaml
  \/ exists err, snd (load_config src) = log (WarnConfigRead err).
Proof.
  destruct src as [| |err|data]; cbn.
  - by left.
  - right. by left.
  - right. right. by exists err.
  - left. by destruct (py_or data empty_dict).
Qed.

Lemma resolve_days_window_trace (default_days : Z) (src : config_source) :
  snd (resolve_days_window default_days src) = snd (load_config src).
Proof.
  unfold resolve_days_window, mbind, io_mbind, io_bind, io_lift, io_ret.
  destruct (load_config src) as [[config|e] tr0]; cbn [snd]; [|done].
  repeat (match goal with
          | |- context [dict_get ?a ?b] => destruct (dict_get a b); cbn
          | |- context [is_none ?a] => destruct (is_none a); cbn
          | |- context [py_int ?a] => destruct (py_int a); cbn
          end);
    by rewrite ?app_nil_r.
Qed.

(** The causes of a failed window resolution. *)
Lemma resolve_window_raises (now : Z) (days : option Z) (w : world) (e : exn)
    (tr : list event) :
  resolve_window now days w = (Raise e, tr) ->
  ((e = AttributeError
    /\ (bad_payload (SEEN_IDS_FILE w)
        \/ (days = None
            /\ fst (resolve_days_window 1 (CONFIG_FILE w)) = Raise AttributeError)
        \/ bad_payload (CRAWL_STATE_FILE w)))
   \/ (e = OverflowError
       /\ exists seen latest d,
            load_seen_state (SEEN_IDS_FILE w) = Ok (seen, latest)
            /\ fst match days with
                   | None => resolve_days_window 1 (CONFIG_FILE w)
                   | Some d => io_ret d
                   end = Ok d
            /\ ~ window_representable now d))
  /\ (tr = [] \/ tr = log WarnNoYaml \/ exists err, tr = log (WarnConfigRead err)).
Proof.
  intros Hw. unfold resolve_window, mbind, io_mbind, io_bind, io_lift in Hw.
  destruct (loaders_raise (SEEN_IDS_FILE w)) as (Hs1 & _ & Hs2 & _).
  destruct (loaders_raise (CRAWL_STATE_FILE w)) as (_ & Hc1 & _ & Hc2).
  destruct (load_seen_state (SEEN_IDS_FILE w)) as [[seen latest]|e1] eqn:Hseen.
  2:{ injection Hw as <- <-. split; [|by left]. left.
      split; [by apply Hs2|]. left. apply Hs1. by eexists. }
  assert (Htrace : forall r tr1,
            match days with
            | Some d => io_ret d
            | None => resolve_days_window 1 (CONFIG_FILE w)
            end = (r, tr1) ->
            tr1 = [] \/ tr1 = log WarnNoYaml
            \/ exists err, tr1 = log (WarnConfigRead err)).
  { intros r tr1 Hd. destruct days as [d0|].
    - injection Hd as _ <-. by left.
    - pose proof (resolve_days_window_trace 1 (CONFIG_FILE w)) as Ht.
      rewrite Hd in Ht. cbn [snd] in Ht. rewrite Ht. apply load_config_trace. }
  destruct (match days with
            | Some d => io_ret d
            | None => resolve_days_window 1 (CONFIG_FILE w)
            end) as [[d|e1] tr1] eqn:Hd.
  2:{ injection Hw as <- <-. split; [|by apply (Htrace (Raise e1))]. left.
      destruct days as [d0|]; [done|].
      destruct (resolve_days_window_raises 1 (CONFIG_FILE w)) as [_ Hattr].
      rewrite Hd in Hattr. cbn [fst] in Hattr.
      pose proof (Hattr e1 eq_refl) as He1. subst e1.
      split; [reflexivity|]. right. left. by rewrite Hd. }
  specialize (Htrace (Ok d) tr1 eq_refl).
  destruct (choose_start now d latest _) as [[s0 src]|e0] eqn:Hchoose.
  - destruct (clamp_start now d s0) as [s|e1] eqn:Hclamp; [done|].
    cbn in Hw. rewrite !app_nil_r in Hw. injection Hw as <- <-. split; [|done].
    apply clamp_start_raises in Hclamp as [-> Hnot].
    right. split; [done|]. exists seen, latest, d.
    split; [done|]. split; [exact (f_equal fst Hd)|]. exact Hnot.
  - cbn in Hw. rewrite !app_nil_r in Hw. injection Hw as <- <-. split; [|done].
    revert Hchoose. unfold choose_start, mbind, outcome_bind, Py.bind.
    destruct latest as [t|]; [done|].
    destruct (load_last_crawl_at (CRAWL_STATE_FILE w)) as [[t|]|e2].
    + done.
    + destruct (days_before now d) as [s1|e1] eqn:Hbefore; [done|].
      intros [= <-]. apply days_before_raises in Hbefore as [-> Hnot].
      right. split; [done|]. exists seen, None, d.
      split; [done|]. split; [exact (f_equal fst Hd)|]. by intros [Hrep _].
    + intros [= <-]. left. split; [by apply Hc2|].
      right. right. apply Hc1. by eexists.
Qed.

(** X18.  A run whose window resolution raises stops there.  The exception
    is AttributeError, when the ledger or the last-run marker parses to a
    truthy value that is not a mapping or [resolve_days_window] raises; or
    it is OverflowError, when the inputs load and the window arithmetic
    leaves the range of [timedelta] or [datetime].  The run then raises the
    same exception for every upstream, clock at save time and output path,
    having printed at most the warning of the configuration loader: nothing
    is queried and no file is written. *)
Theorem window_failure_aborts_run (now : Z) (days : option Z) (w : world)
    (e : exn) (tr : list event) :
  resolve_window now days w = (Raise e, tr) ->
  ((e = AttributeError
    /\ (bad_payload (SEEN_IDS_FILE w)
        \/ (days = None
            /\ fst (resolve_days_window 1 (CONFIG_FILE w)) = Raise AttributeError)
        \/ bad_payload (CRAWL_STATE_FILE w)))
   \/ (e = OverflowError
       /\ exists seen latest d,
            load_seen_state (SEEN_IDS_FILE w) = Ok (seen, latest)
            /\ fst match days with
                   | None => resolve_days_window 1 (CONFIG_FILE w)
                   | Some d => io_ret d
                   end = Ok d
            /\ ~ window_representable now d))
  /\ (tr = [] \/ tr = log WarnNoYaml \/ exists err, tr = log (WarnConfigRead err))
  /\ forall save_time up output_file,
       fetch_all_domains_metadata_robust now save_time up days output_file w
       = (Raise e, tr).
Proof.
  intros Hw. destruct (resolve_window_raises now days w e tr Hw) as [Hcause Htr].
  split; [exact Hcause|]. split; [exact Htr|].
  intros save_time up output_file. by apply fetch_raises.
Qed.

End WindowProperties.

Lemma window_lookback_is_bounded_witness :
  (@None Z = None -> 1 <= w_days
     {| w_seen_ids := ∅; w_latest_published_at := None; w_days := 3;
        w_start_date := Examples.t_0610 - 3 * 86400000000;
        w_end_date := Examples.t_0610; w_source_desc := SrcDaysWindow 3 |})
  /\ (1 <= 3 ->
      Examples.t_0610 - 3 * 86400000000
      <= Examples.t_0610 - 3 * 86400000000 < Examples.t_0610).
Proof.
  apply (window_lookback_is_bounded Examples.t_0610 None Examples.world_three_days
           {| w_seen_ids := ∅; w_latest_published_at := None; w_days := 3;
              w_start_date := Examples.t_0610 - 3 * 86400000000;
              w_end_date := Examples.t_0610; w_source_desc := SrcDaysWindow 3 |} []).
  vm_compute. reflexivity.
Defined.

(** The three cases, each at a run where its premise holds: [days=0] and no
    state; a [latest_published_at] 30 seconds after now; a
    [latest_published_at] twelve hours before now with [days=1]. *)
Lemma window_edge_cases_witness :
  (w_days Examples.window_zero_days <= 0
   /\ w_start_date Examples.window_zero_days = Examples.t_0610 - 60000000)
  /\ (w_latest_published_at Examples.window_latest_ahead
      = Some (Examples.t_0609_noon + 30000000)
      /\ Examples.t_0609_noon <= Examples.t_0609_noon + 30000000
      /\ w_start_date Examples.window_latest_ahead
         = Examples.t_0609_noon - 60000000)
  /\ (w_latest_published_at Examples.window_0001
      = Some (Examples.t_0609_noon + 30000000)
      /\ Examples.t_0610 - w_days Examples.window_0001 * 86400000000
         <= Examples.t_0609_noon + 30000000 < Examples.t_0610
      /\ w_start_date Examples.window_0001 = Examples.t_0609_noon + 30000000).
Proof.
  destruct (window_edge_cases Examples.t_0610 (Some 0) Examples.no_files
              Examples.window_zero_days []) as (Hzero & _ & _);
    [vm_compute; reflexivity|].
  destruct (window_edge_cases Examples.t_0609_noon (Some 1) Examples.world_0001
              Examples.window_latest_ahead []) as (_ & Hahead & _);
    [vm_compute; reflexivity|].
  destruct (window_edge_cases Examples.t_0610 (Some 1) Examples.world_0001
              Examples.window_0001 []) as (_ & _ & Hinside);
    [vm_compute; reflexivity|].
  assert (Hz : w_days Examples.window_zero_days <= 0) by (cbn; lia).
  assert (Ha : Examples.t_0609_noon <= Examples.t_0609_noon + 30000000) by lia.
  assert (Hi : Examples.t_0610 - w_days Examples.window_0001 * 86400000000
               <= Examples.t_0609_noon + 30000000 < Examples.t_0610)
    by (cbn; unfold Examples.t_0610, Examples.t_0609_noon; lia).
  split; [split; [exact Hz|exact (Hzero Hz)]|].
  split; [split; [reflexivity|split; [exact Ha|exact (Hahead _ eq_refl Ha)]]|].
  split; [reflexivity|]. split; [exact Hi|exact (Hinside _ eq_refl Hi)].
Defined.

Lemma dated_ledger_run_ignores_last_crawl_file_witness :
  fetch_all_domains_metadata_robust Examples.t_0610 Examples.t_0610
    Examples.up_cs_0002 (Some 1) None
    {| CONFIG_FILE := CONFIG_FILE Examples.world_0001;
       CRAWL_STATE_FILE := FileData (PList [PInt 1]);
       SEEN_IDS_FILE := SEEN_IDS_FILE Examples.world_0001;
       output_files := output_files Examples.world_0001 |}
  = fetch_all_domains_metadata_robust Examples.t_0610 Examples.t_0610
      Examples.up_cs_0002 (Some 1) None Examples.world_0001.
Proof.
  apply (dated_ledger_run_ignores_last_crawl_file Examples.t_0610 Examples.t_0610
           Examples.up_cs_0002 (Some 1) None Examples.world_0001
           {[ "2406.0001v1"%string ]} (Examples.t_0609_noon + 30000000)
           (FileData (PList [PInt 1]))).
  vm_compute. reflexivity.
Defined.

(** A days window of a million days at 2024-06-10T00:00Z: the lookback
    would start before year 1. *)
Lemma window_failure_aborts_run_witness :
  ((OverflowError = AttributeError
    /\ (bad_payload (SEEN_IDS_FILE Examples.no_files)
        \/ (Some 1000000 = None
            /\ fst (resolve_days_window 1 (CONFIG_FILE Examples.no_files))
               = Raise AttributeError)
        \/ bad_payload (CRAWL_STATE_FILE Examples.no_files)))
   \/ (OverflowError = OverflowError
       /\ exists seen latest d,
            load_seen_state (SEEN_IDS_FILE Examples.no_files) = Ok (seen, latest)
            /\ fst (io_ret 1000000) = Ok d
            /\ ~ window_representable Examples.t_0610 d))
  /\ (@nil event = [] \/ [] = log WarnNoYaml
      \/ exists err, [] = log (WarnConfigRead err))
  /\ forall save_time up output_file,
       fetch_all_domains_metadata_robust Examples.t_0610 save_time up
         (Some 1000000) output_file Examples.no_files
       = (Raise OverflowError, []).
Proof.
  apply (window_failure_aborts_run Examples.t_0610 (Some 1000000) Examples.no_files
           OverflowError []).
  vm_compute. reflexivity.
Defined.

(** ** The older variant, the paper record, the files of a run *)

(** X19.  The category loop of the older variant collects exactly what the
    incremental loop collects from an empty ledger, in the same order, and
    prints the same lines: the first listing of every identifier in the
    stream. *)
Theorem legacy_crawl_is_crawl_on_empty_ledger (up : upstream)
    (start_str end_str : string) (cats : list string) :
  Legacy.crawl up start_str end_str cats []
  = (unique_papers (fst (crawl up start_str end_str cats (initial_state ∅))),
     snd (crawl up start_str end_str cats (initial_state ∅)))
  /\ od_values (fst (Legacy.crawl up start_str end_str cats []))
     = List.map paper_dict (fresh ∅ (stream up start_str end_str cats)).
Proof.
  pose proof (legacy_crawl_sim up start_str end_str cats (initial_state ∅)
                (initial_state_inv ∅)) as Hsim.
  cbn [unique_papers initial_state] in Hsim. split; [exact Hsim|].
  rewrite Hsim. cbn [fst]. apply crawl_values_fresh.
Qed.

Lemma replace_char_one (a b : ascii) (s : string) :
  a <> b ->
  (a ∉ chars (replace_char a (String b EmptyString) s))
  /\ String.length (replace_char a (String b EmptyString) s) = String.length s
  /\ (a ∉ chars s -> replace_char a (String b EmptyString) s = s).
Proof.
  intros Hab.
  assert (Happ : forall x, (String b EmptyString ++ x)%string = String b x)
    by reflexivity.
  induction s as [|c s (IH1 & IH2 & IH3)]; cbn [replace_char chars].
  - split; [apply not_elem_of_nil|]. by split.
  - destruct (Ascii.eqb_spec c a) as [->|Hne];
      rewrite ?Happ; cbn [chars String.length].
    + split; [|split].
      * intros Hin. apply elem_of_cons in Hin as [Hin|Hin]; [by apply Hab|by apply IH1].
      * by rewrite IH2.
      * intros Hnot. destruct Hnot. by left.
    + split; [|split].
      * intros Hin. apply elem_of_cons in Hin as [Hin|Hin]; [by apply Hne|by apply IH1].
      * by rewrite IH2.
      * intros Hnot. rewrite IH3; [done|]. intros Hin. apply Hnot. by right.
Qed.

(** X20.  The record built for a paper: the identifier is the short id and
    the source is ["arxiv"]; title and abstract hold no newline, have the
    length of the original text and are the original text when it holds no
    newline; the link is the PDF link when there is a non-empty one, else the
    entry id. *)
Theorem paper_dict_normalises (r : result) :
  p_id (paper_dict r) = short_id r
  /\ p_source (paper_dict r) = "arxiv"%string
  /\ (newline ∉ chars (p_title (paper_dict r)))
  /\ (newline ∉ chars (p_abstract (paper_dict r)))
  /\ String.length (p_title (paper_dict r)) = String.length (title r)
  /\ String.length (p_abstract (paper_dict r)) = String.length (summary r)
  /\ (newline ∉ chars (title r) -> p_title (paper_dict r) = title r)
  /\ (newline ∉ chars (summary r) -> p_abstract (paper_dict r) = summary r)
  /\ (forall u, pdf_url r = Some u -> str_nonempty u = true ->
        p_link (paper_dict r) = u)
  /\ (pdf_url r = None \/ pdf_url r = Some ""%string ->
        p_link (paper_dict r) = entry_id r).
Proof.
  assert (Hne : newline <> " "%char) by discriminate.
  destruct (replace_char_one newline " " (title r) Hne) as (T1 & T2 & T3).
  destruct (replace_char_one newline " " (summary r) Hne) as (A1 & A2 & A3).
  cbn [paper_dict p_id p_source p_title p_abstract p_link].
  repeat (split; [done|]). split.
  - intros u -> Hu. by rewrite Hu.
  - by intros [->| ->].
Qed.

Section RunFiles.
Context `{PyLib}.


Lemma load_saved_latest (save_time : Z) (seen : gset string) (m : Z) :
  roundtrips m ->
  exists seen',
    load_seen_state (save_seen_state save_time seen (Some m)) = Ok (seen', Some m).
Proof.
  intros [Hne Hparse]. unfold load_seen_state, save_seen_state.
  rewrite py_or_dict. cbn [dict_get].
  rewrite saved_lookup_ids, saved_lookup_latest.
  unfold mbind, outcome_bind, Py.bind. simpl default.
  assert (Hstr : strip (py_str (py_or (PStr (isoformat m)) (PStr "")))
                 = strip (isoformat m)).
  { unfold py_or. cbn [truthy].
    destruct (str_nonempty (isoformat m)) eqn:Hiso; [reflexivity|].
    destruct (isoformat m); [reflexivity|discriminate]. }
  rewrite Hstr, Hne, Hparse. by eexists.
Qed.

(** X22.  The high-water mark drives the next window.  When a run emitted a
    result that carries an instant, and the latest such instant [m] survives
    the text format of the ledger, every window the next run resolves starts
    from [m], clamped to its own lookback, whatever the last-run marker
    holds; and the next run resolves a window whenever its window arithmetic
    is representable. *)
Theorem next_window_starts_from_saved_maximum (save_time : Z) (up : upstream)
    (output_file : option string) (wd : window) (w : world) (m : Z) :
  max_instant
    (fresh (w_seen_ids wd)
       (stream up (strftime "%Y%m%d%H%M" (w_start_date wd))
          (strftime "%Y%m%d%H%M" (w_end_date wd)) CATEGORIES_TO_FETCH)) = Some m ->
  roundtrips m ->
  forall now2 days2,
    (forall start2,
       start_of (resolve_window now2 (Some days2)
                   (fst (run_window save_time up output_file wd w)))
       = Some start2 ->
       start2 = fst (spec_window now2 days2 (Some m) None))
    /\ (window_representable now2 days2 ->
        start_of (resolve_window now2 (Some days2)
                    (fst (run_window save_time up output_file wd w)))
        = Some (fst (spec_window now2 days2 (Some m) None))).
Proof.
  intros Hmax Hrt now2 days2.
  set (w' := fst (run_window save_time up output_file wd w)).
  assert (Hfile : SEEN_IDS_FILE w'
            = save_seen_state save_time (seen_ids (final_state up wd)) (Some m)).
  { unfold w'. rewrite run_window_eq. cbn [fst SEEN_IDS_FILE].
    rewrite (final_state_fresh up wd). cbn [max_published_new seen_ids].
    by rewrite Hmax. }
  destruct (load_saved_latest save_time (seen_ids (final_state up wd)) m Hrt)
    as [seen' Hload].
  rewrite <- Hfile in Hload.
  assert (Hlast : Some m = @None Z ->
                  load_last_crawl_at (CRAWL_STATE_FILE w') = Ok None) by done.
  split.
  - intros start2. unfold start_of.
    destruct (resolve_window now2 (Some days2) w') as [[wd2|e] tr2] eqn:Hw2; [|done].
    cbn [fst]. intros [= <-].
    destruct (resolve_window_spec now2 (Some days2) w' seen' (Some m) None days2 []
                wd2 tr2 Hload eq_refl Hlast Hw2) as (_ & _ & _ & _ & Hspec & _).
    by rewrite <- Hspec.
  - intros Hrep.
    destruct (resolve_window_loaded now2 (Some days2) w' seen' (Some m) None days2 []
                Hload eq_refl Hlast Hrep) as [src Hw2].
    by rewrite Hw2.
Qed.

End RunFiles.

Lemma next_window_starts_from_saved_maximum_witness :
  start_of (resolve_window (Examples.t_0610 + 3600000000) (Some 1)
              (fst (run_window Examples.t_0610 Examples.up_cs_0002 None
                      Examples.window_0001 Examples.world_0001)))
  = Some (Examples.t_0609_noon + 10000000).
Proof.
  destruct (next_window_starts_from_saved_maximum Examples.t_0610
              Examples.up_cs_0002 None Examples.window_0001 Examples.world_0001
              (Examples.t_0609_noon + 10000000)) with
    (now2 := Examples.t_0610 + 3600000000) (days2 := 1) as [_ Hok].
  - vm_compute. reflexivity.
  - split; vm_compute; reflexivity.
  - rewrite Hok; [vm_compute; reflexivity|].
    unfold window_representable, lookback_representable, TIMEDELTA_MAX_DAYS,
      DATETIME_MIN, DATETIME_MAX, Examples.t_0610.
    lia.
Defined.

Lemma first_listing_wins_witness :
  let papers := od_values (unique_papers
                  (fst (crawl Examples.up_cross_listed "202406090000" "202406100000"
                          CATEGORIES_TO_FETCH (initial_state Examples.empty_ledger)))) in
  paper_dict Examples.r_0001 ∈ papers
  /\ forall p, p ∈ papers -> p_id p = short_id Examples.r_0001 ->
               p = paper_dict Examples.r_0001.
Proof.
  apply (first_listing_wins Examples.empty_ledger Examples.up_cross_listed
           "202406090000" "202406100000" CATEGORIES_TO_FETCH
           [] [Examples.r_0001] Examples.r_0001).
  - vm_compute. reflexivity.
  - apply not_elem_of_empty.
  - apply not_elem_of_nil.
Defined.

(** ** Across runs, and the older run *)

Section AcrossRuns.
Context `{PyLib}.

(** X23.  No paper is emitted twice by consecutive runs.  After a run on a
    ledger and an upstream with clean identifiers, the next run, at any time,
    with any days window and against any upstream, collects no paper whose
    identifier the first run collected or had in its ledger. *)
Theorem next_run_never_reemits (save1 : Z) (up1 : upstream)
    (out1 : option string) (w : world) (wd1 : window)
    (now2 : Z) (days2 : option Z) (up2 : upstream) (wd2 : window)
    (tr2 : list event) (k : string) :
  (forall pid, pid ∈ w_seen_ids wd1 -> clean_id pid) ->
  (forall category pid,
     category ∈ CATEGORIES_TO_FETCH ->
     pid ∈ returned_ids up1 (strftime "%Y%m%d%H%M" (w_start_date wd1))
             (strftime "%Y%m%d%H%M" (w_end_date wd1)) category ->
     clean_id pid) ->
  resolve_window now2 days2 (fst (run_window save1 up1 out1 wd1 w)) = (Ok wd2, tr2) ->
  k ∈ w_seen_ids wd1 \/ k ∈ List.map p_id (collected up1 wd1) ->
  k ∉ List.map p_id (collected up2 wd2).
Proof.
  intros Hledger Hup Hw2 Hk.
  apply resolve_window_inv in Hw2 as [Hload2 _].
  rewrite run_window_eq in Hload2. cbn [fst SEEN_IDS_FILE] in Hload2.
  destruct (load_saved_seen_ids save1 (seen_ids (final_state up1 wd1))
              match max_published_new (final_state up1 wd1) with
              | Some t => Some t
              | None => w_latest_published_at wd1
              end (final_state_ids_clean up1 wd1 Hledger Hup)) as [latest2 Hsaved].
  rewrite Hsaved in Hload2. injection Hload2 as Hseen2 _.
  apply collected_not_seen. rewrite <- Hseen2.
  destruct (final_state_facts up1 wd1) as [(_ & _ & Hseen & _) _].
  apply Hseen. destruct Hk as [Hk|Hk]; [by left|right]. by rewrite <- collected_ids.
Qed.

(** X24.  The run of the older variant.  When [days] is a [timedelta] and
    [now - days] a [datetime], it queries whole days, from 00:00 of the day
    [days] days before now to 23:59 of today; its collection is the first
    listing of every identifier in that stream; it writes the collection to
    the explicit path, or to the dated path of the clock at write time, only
    when something was collected, and touches no other file.  Otherwise it
    raises OverflowError before it prints, queries or writes anything. *)
Theorem legacy_run_files (now write_time : Z) (up : upstream) (days : Z)
    (output_file : option string) (files : gmap string (list paper)) :
  let papers :=
    List.map paper_dict
      (fresh ∅ (stream up (strftime "%Y%m%d0000" (now - days * 86400000000))
                  (strftime "%Y%m%d2359" now) CATEGORIES_TO_FETCH)) in
  let path := output_path output_file write_time in
  (lookback_representable now days ->
   exists files' tr,
     Legacy.fetch_all_domains_metadata_robust now write_time up days
       output_file files = (Ok files', tr)
     /\ NoDup (List.map p_id papers)
     /\ (papers = [] -> files' = files)
     /\ (papers <> [] -> files' !! path = Some papers)
     /\ (forall p, p <> path -> files' !! p = files !! p))
  /\ (~ lookback_representable now days ->
      Legacy.fetch_all_domains_metadata_robust now write_time up days
        output_file files = (Raise OverflowError, [])).
Proof.
  intros papers path. split.
  - intros Hrep.
    pose proof (legacy_crawl_sim up
                  (strftime "%Y%m%d0000" (now - days * 86400000000))
                  (strftime "%Y%m%d2359" now) CATEGORIES_TO_FETCH (initial_state ∅)
                  (initial_state_inv ∅)) as Hsim.
    cbn [unique_papers initial_state] in Hsim.
    pose proof (crawl_values_fresh ∅ up
                  (strftime "%Y%m%d0000" (now - days * 86400000000))
                  (strftime "%Y%m%d2359" now) CATEGORIES_TO_FETCH) as Hvals.
    fold papers in Hvals.
    set (files' := fst (Legacy.run_from (now - days * 86400000000) now write_time
                          up output_file files)).
    assert (Hfiles : files'
              = if (0 <? length papers)%nat
                then <[ path := papers ]> files else files).
    { unfold files', Legacy.run_from. rewrite Hsim.
      cbn [fst]. rewrite <- Hvals. unfold od_values. by rewrite length_map. }
    exists files', (snd (Legacy.run_from (now - days * 86400000000) now write_time
                           up output_file files)).
    split.
    { unfold Legacy.fetch_all_domains_metadata_robust, mbind, io_mbind, io_bind,
        io_lift.
      rewrite (days_before_ok _ _ Hrep). reflexivity. }
    split.
    { unfold papers. rewrite List.map_map. cbn [paper_dict p_id].
      apply fresh_ids_nodup. }
    rewrite Hfiles. split; [|split].
    + by intros ->.
    + intros Hne. destruct papers; [done|]. apply lookup_insert_eq.
    + intros p Hp. destruct papers; [done|].
      cbn [length Nat.ltb Nat.leb]. by rewrite lookup_insert_ne.
  - intros Hnot.
    unfold Legacy.fetch_all_domains_metadata_robust, mbind, io_mbind, io_bind,
      io_lift.
    destruct (days_before now days) as [s|e] eqn:Hs.
    + by apply days_before_inv in Hs as [Hs _].
    + by apply days_before_raises in Hs as [-> _].
Qed.

End AcrossRuns.

Lemma next_run_never_reemits_witness :
  "2406.0001v1"%string
    ∉ List.map p_id (collected Examples.up_cross_listed Examples.second_window).
Proof.
  apply (next_run_never_reemits Examples.t_0610 Examples.up_cross_listed None
           Examples.no_files Examples.first_window
           (Examples.t_0610 + 3600000000) (Some 1) Examples.up_cross_listed
           Examples.second_window []).
  - intros pid Hpid. by apply not_elem_of_empty in Hpid.
  - intros c pid Hc Hpid. unfold CATEGORIES_TO_FETCH in Hc.
    repeat (apply elem_of_cons in Hc as [->|Hc]);
      try (by apply elem_of_nil in Hc);
      vm_compute in Hpid;
      try (by apply elem_of_nil in Hpid);
      apply list_elem_of_singleton in Hpid; subst pid; split; reflexivity.
  - vm_compute. reflexivity.
  - right. vm_compute. by left.
Defined.

(** The older run at 2024-06-10T00:00Z with [days = 3], the value the
    script passes, against an upstream listing [r_0001] under [cs] and
    [math]. *)
Lemma legacy_run_files_witness :
  exists files' tr,
    Legacy.fetch_all_domains_metadata_robust Examples.t_0610 Examples.t_0610
      Examples.up_cross_listed 3 None ∅ = (Ok files', tr)
    /\ files' !! "archive/20240610/raw/arxiv_papers_20240610.json"%string
       = Some [paper_dict Examples.r_0001].
Proof.
  destruct (legacy_run_files Examples.t_0610 Examples.t_0610
              Examples.up_cross_listed 3 None ∅) as [Hok _].
  destruct Hok as (files' & tr & Hrun & _ & _ & Hwritten & _).
  - unfold lookback_representable, TIMEDELTA_MAX_DAYS, DATETIME_MIN, DATETIME_MAX,
      Examples.t_0610.
    lia.
  - exists files', tr. split; [exact Hrun|].
    assert (Hne : List.map paper_dict
                    (fresh ∅ (stream Examples.up_cross_listed
                                (strftime "%Y%m%d0000"
                                   (Examples.t_0610 - 3 * 86400000000))
                                (strftime "%Y%m%d2359" Examples.t_0610)
                                CATEGORIES_TO_FETCH)) <> [])
      by (vm_compute; discriminate).
    pose proof (Hwritten Hne) as Hfile.
    vm_compute in Hfile |- *. exact Hfile.
Defined.
